(** * Laser_Driver: bring-up sequencer of the Alira laser software

    A shallow embedding of [src/driver/Laser_Driver.py].  The driver object
    is its attribute dictionary; the vendor SDK, the lock-in library, the
    clock and the numeric library functions form the host the driver runs
    against, and are taken as an interface; every call the driver issues is
    appended to a log, so that the order of hardware commands can be stated. *)

From Stdlib Require Import ZArith QArith Qabs String List Bool Lia Lqa.
From stdpp Require Import base gmap strings list.
Import ListNotations.

Local Open Scope string_scope.
Local Open Scope Z_scope.

(** ** Python values held in attributes and passed to the libraries *)

Inductive pyval :=
| VNone
| VBool (b : bool)
| VInt (z : Z)
| VFloat (q : Q)
| VStr (s : string)
| VObj (id : Z).

(** [bool(v)] *)
Definition truthy (v : pyval) : bool :=
  match v with
  | VNone => false
  | VBool b => b
  | VInt z => negb (z =? 0)
  | VFloat q => negb (Qeq_bool q 0)
  | VStr s => negb (String.eqb s EmptyString)
  | VObj _ => true
  end.

(** The numeric value of an [int], [bool] or [float]. *)
Definition num_of (v : pyval) : option Q :=
  match v with
  | VInt z => Some (inject_Z z)
  | VBool b => Some (inject_Z (Z.b2z b))
  | VFloat q => Some q
  | _ => None
  end.

(** The integer value of an [int] or [bool]. *)
Definition int_of (v : pyval) : option Z :=
  match v with
  | VInt z => Some z
  | VBool b => Some (Z.b2z b)
  | _ => None
  end.

(** ** ctypes scalars: the value a C integer object holds *)

Definition c_uint8 (z : Z) : Z := z mod 2 ^ 8.
Definition c_uint16 (z : Z) : Z := z mod 2 ^ 16.
Definition c_uint32 (z : Z) : Z := z mod 2 ^ 32.

(** ** Exceptions *)

Inductive exn_class :=
| Laser_Exception
| QCL_Exception
| SDK_Exception
| AttributeError
| TypeError
| KeyError
| ValueError
| UnboundLocalError
| OverflowError
| ForeignError (name : string) (needs_args : bool).

(** [ForeignError] stands for the classes of the libraries, which the
    driver does not name: of such a class the model keeps the name and
    whether its constructor insists on arguments ([UnicodeDecodeError], for
    one, takes five). *)

(** An exception instance: its class and its [args].  For the errors the
    interpreter itself raises, [args] holds the name concerned (the message
    text around it differs between interpreter versions). *)
Record exn := mk_exn { exn_cls : exn_class; exn_args : list pyval }.

(** [raise C] on a class [C] calls [C()] and raises the result.  The
    classes the driver defines and the interpreter's own can be built from
    no argument; for a class that cannot, the call itself fails and it is
    that [TypeError] which is raised. *)
Definition instantiate (c : exn_class) : exn :=
  match c with
  | ForeignError _ true => mk_exn TypeError [VStr "__init__"]
  | _ => mk_exn c []
  end.

(** ** Binary floating point

    A Python [float] is an IEEE 754 double and a [c_float] cell holds a
    single: a number is kept to 53, respectively 24, significant bits,
    rounded to the nearest value of that kind, ties going to the even one. *)

(** The nearest integer, ties to the even one. *)
Definition round_half_even (q : Q) : Z :=
  let n := Qnum q in
  let d := Z.pos (Qden q) in
  let f := n / d in
  let r := 2 * (n mod d) in
  if r <? d then f
  else if d <? r then f + 1
  else if Z.even f then f else f + 1.

Definition pow2 (k : Z) : Q :=
  if 0 <=? k then inject_Z (2 ^ k) else (1 # Z.to_pos (2 ^ (- k)))%Q.

(** The binary exponent of a number other than 0: the [k] with
    [2^k <= |q| < 2^(k+1)]. *)
Definition binary_exponent (q : Q) : Z :=
  let k := Z.log2 (Z.abs (Qnum q)) - Z.log2 (Z.pos (Qden q)) in
  if Qle_bool (pow2 k) (Qabs q) then k else k - 1.

(** Rounding to [prec] significant bits, the exponent being [emin] at
    least (below [2^emin] the spacing stays what it is there: the subnormal
    numbers).  No exponent is too large here; the two uses below cut off. *)
Definition round_binary (prec emin : Z) (q : Q) : Q :=
  if Qeq_bool q 0 then 0%Q else
  let u := pow2 (Z.max (binary_exponent q) emin - (prec - 1)) in
  Qred (inject_Z (round_half_even (q / u)) * u).

(** [float(z)] on an int: the nearest double; [None] where the interpreter
    raises [OverflowError] (the nearest double would be [2^1024] or more). *)
Definition float_of_int (z : Z) : option Q :=
  let r := round_binary 53 (-1022) (inject_Z z) in
  if Qle_bool (pow2 1024) (Qabs r) then None else Some r.

(** What a [c_float] cell holds: a number, an infinity, or no number. *)
Inductive single :=
| Finite (q : Q)
| Infinite (negative : bool)
| NaN.

(** A float narrowed to a single, as C converts a double: a value that
    rounds to [2^128] or more becomes an infinity. *)
Definition to_single (q : Q) : single :=
  let r := round_binary 24 (-126) q in
  if Qle_bool (pow2 128) (Qabs r) then Infinite (negb (Qle_bool 0 q)) else Finite r.

(** [c_float(v)]: the argument is converted as [float(v)] is, then
    narrowed. *)
Definition c_float (v : pyval) : exn + single :=
  match v with
  | VFloat q => inr (to_single q)
  | VInt z =>
      match float_of_int z with
      | Some q => inr (to_single q)
      | None => inl (mk_exn OverflowError [VStr "c_float"])
      end
  | VBool b => inr (to_single (inject_Z (Z.b2z b)))
  | _ => inl (mk_exn TypeError [VStr "c_float"])
  end.

(** ** The QCL parameter block (the dictionary of eight pointers) *)

Record qcl_params := mk_qcl {
  qcl_slot_ptr : Z;
  pulse_rate_hz_ptr : Z;
  pulse_width_ns_ptr : Z;
  current_ma_ptr : Z;
  temp_c_ptr : single;
  laser_mode_ptr : Z;
  pulse_mode_ptr : Z;
  vsrc_ptr : single
}.

(** ** Calls into the SideKick SDK.  Out-pointers are not listed: what the
    SDK writes through them is part of its reply. *)

Inductive sdk_call :=
| SidekickSDK_Initialize
| SidekickSDK_SearchForUsbDevices
| SidekickSDK_GetNumOfDevices
| SidekickSDK_ConnectToDeviceNumber (n : Z)
| SidekickSDK_ReadAdminQclParams (h : pyval) (slot : Z)
| SidekickSDK_AdminQclIsAvailable (h : pyval)
| SidekickSDK_isInterlockedStatusSet (h : pyval)
| SidekickSDK_isKeySwitchStatusSet (h : pyval)
| SidekickSDK_SetLaserArmDisarm (h : pyval) (arm : bool)
| SidekickSDK_ExecLaserArmDisarm (h : pyval)
| SidekickSDK_ReadInfoStatusMask (h : pyval)
| SidekickSDK_isLaserArmed (h : pyval)
| SidekickSDK_SetTuneToWW (h : pyval) (units : Z) (value : single) (pref : Z)
| SidekickSDK_ExecTuneToWW (h : pyval)
| SidekickSDK_isTuned (h : pyval)
| SidekickSDK_isTempStatusSet (h : pyval)
| SidekickSDK_SetLaserOnOff (h : pyval) (slot : Z) (on : bool)
| SidekickSDK_ExecLaserOnOff (h : pyval)
| SidekickSDK_isLaserFiring (h : pyval)
| SidekickSDK_ReadStatusMask (h : pyval)
| SidekickSDK_Disconnect (h : pyval)
| SidekickSDK_ReadWriteLaserQclParams (h : pyval) (is_write : pyval) (slot : Z)
| SidekickSDK_GetLaserQclParams (h : pyval)
| SidekickSDK_SetLaserQclParams (h : pyval) (p : qcl_params).

(** What one SDK call hands back: its return code and whatever it wrote
    through the out-pointers it was given. *)
Record sdk_reply := mk_reply {
  sdk_ret : Z;
  out_flag : bool;
  out_count : Z;
  out_handle : Z;
  out_qcl : qcl_params;
  out_words : Z * Z * Z
}.

(** ** The lock-in library (zhinst) *)

(** One demodulator sample block: the arrays [sample['x']], [sample['y']]
    and [sample['timestamp']], each of one dimension, and the flag
    [sample['time']['dataloss']]. *)
Record sample := mk_sample {
  sample_x : list Q;
  sample_y : list Q;
  sample_timestamp : list Z;
  sample_dataloss : bool
}.

(** A poll response: device id, then ['demods'], then the channel, then
    ['sample']. *)
Abbreviation poll_data := (gmap string (gmap string (gmap string (gmap string sample)))).

Inductive zi_call :=
| ziDAQServer (ip port : pyval)
| autoDetect (daq : pyval)
| daq_getByte (path : string)
| daq_getInt (path : string)
| daq_setDouble (path : string) (v : pyval)
| daq_setInt (path : string) (v : pyval)
| daq_subscribe (path : string)
| daq_unsubscribe (path : string)
| daq_sync.

(** ** Everything the driver does that the outside can see *)

Inductive event :=
| EvSdk (c : sdk_call) (r : sdk_reply)
| EvZi (c : zi_call) (r : exn + pyval)
| EvPoll (duration timeout : pyval) (r : exn + poll_data)
| EvSleep (d : Q)
| EvStderr (fmt : string) (args : list pyval).

(** ** The host: hardware link, detector link, clock, library functions *)

Class Host (Env : Type) := {
  (** a SideKick SDK entry point: reply and new hardware state *)
  sdk : sdk_call -> Env -> sdk_reply * Env;
  (** a zhinst entry point: it returns a value or raises *)
  zi : zi_call -> Env -> (exn + pyval) * Env;
  (** [daq.poll(duration, timeout)] *)
  zi_poll : pyval -> pyval -> Env -> (exn + poll_data) * Env;
  (** [time.time()] *)
  time_time : Env -> Q;
  (** [time.sleep(d)] *)
  time_sleep : Q -> Env -> Env;
  (** [int(s)] and [float(s)] on a string; [None] is [ValueError] *)
  py_int : string -> option Z;
  py_float : string -> option Q;
  (** [numpy.hypot] and numpy's true division, per element *)
  np_hypot : Q -> Q -> Q;
  np_divide : Z -> Q -> Q
}.

(** ** The world a method runs in, and the monad of driver code *)

Section Monad.

Context {Env : Type}.

Record World := mk_world {
  attrs : gmap string pyval;   (* the driver object's attributes *)
  env : Env;                   (* hardware, detector and clock *)
  log : list event             (* what was issued so far, oldest first *)
}.

(** A run returns, raises, or is cut when its loops were given too few
    iterations; in every case the world reached so far is kept. *)
Inductive Res (A : Type) :=
| Ret (a : A) (w : World)
| Raise (e : exn) (w : World)
| OutOfFuel (w : World).

Arguments Ret {A} a w.
Arguments Raise {A} e w.
Arguments OutOfFuel {A} w.

Definition M (A : Type) : Type := World -> Res A.

Definition ret {A} (a : A) : M A := fun w => Ret a w.

Definition bind {A B} (m : M A) (k : A -> M B) : M B :=
  fun w => match m w with
           | Ret a w' => k a w'
           | Raise e w' => Raise e w'
           | OutOfFuel w' => OutOfFuel w'
           end.

Definition raise {A} (e : exn) : M A := fun w => Raise e w.

Definition out_of_fuel {A} : M A := fun w => OutOfFuel w.

(** [try: body / except: handler], the handler being given the exception. *)
Definition try_except {A} (body : M A) (handler : exn -> M A) : M A :=
  fun w => match body w with
           | Raise e w' => handler e w'
           | r => r
           end.

Definition world_of {A} (r : Res A) : World :=
  match r with Ret _ w | Raise _ w | OutOfFuel w => w end.

End Monad.

Arguments World : clear implicits.
Arguments Res : clear implicits.
Arguments M : clear implicits.
Arguments Ret {Env A} a w.
Arguments Raise {Env A} e w.
Arguments OutOfFuel {Env A} w.

Notation "x <- m ;; k" := (bind m (fun x => k))
  (at level 100, m at next level, right associativity).
Notation "m ;;; k" := (bind m (fun _ => k))
  (at level 100, right associativity).

Section Driver.

Context {Env : Type} {host : Host Env}.

Local Abbreviation M := (M Env).

Definition emit (ev : event) : M unit :=
  fun w => Ret tt (mk_world (attrs w) (env w) (log w ++ [ev])%list).

(** *** Attribute access *)

(** [self.name]; a name bound neither in the instance nor in the class
    raises [AttributeError]. *)
Definition getattr (name : string) : M pyval :=
  fun w => match attrs w !! name with
           | Some v => Ret v w
           | None => Raise (mk_exn AttributeError [VStr name]) w
           end.

(** [self.name = v] *)
Definition setattr (name : string) (v : pyval) : M unit :=
  fun w => Ret tt (mk_world (<[name := v]> (attrs w)) (env w) (log w)).

(** *** Host calls *)

Definition sdk_do (c : sdk_call) : M sdk_reply :=
  fun w => let re := sdk c (env w) in
           Ret (fst re) (mk_world (attrs w) (snd re) (log w ++ [EvSdk c (fst re)])%list).

(** [self.sdk.f(self.handle, ...)] *)
Definition sdk_h (f : pyval -> sdk_call) : M sdk_reply :=
  h <- getattr "handle" ;; sdk_do (f h).

Definition zi_do (c : zi_call) : M pyval :=
  fun w => let re := zi c (env w) in
           let w' := mk_world (attrs w) (snd re) (log w ++ [EvZi c (fst re)])%list in
           match fst re with
           | inl x => Raise x w'
           | inr v => Ret v w'
           end.

Definition poll_do (duration timeout : pyval) : M poll_data :=
  fun w => let re := zi_poll duration timeout (env w) in
           let w' := mk_world (attrs w) (snd re) (log w ++ [EvPoll duration timeout (fst re)])%list in
           match fst re with
           | inl x => Raise x w'
           | inr d => Ret d w'
           end.

Definition stderr_write (fmt : string) (args : list pyval) : M unit :=
  emit (EvStderr fmt args).

Definition time_now : M Q := fun w => Ret (time_time (env w)) w.

(** [time.sleep(v)]: a number that is not negative. *)
Definition sleep (v : pyval) : M unit :=
  match num_of v with
  | None => raise (mk_exn TypeError [VStr "sleep"])
  | Some d =>
      if Qle_bool 0 d
      then fun w => Ret tt (mk_world (attrs w) (time_sleep d (env w)) (log w ++ [EvSleep d])%list)
      else raise (mk_exn ValueError [VStr "sleep"])
  end.

(** *** Operators on values *)

(** [q > v] for a float [q]. *)
Definition py_gt (q : Q) (v : pyval) : M bool :=
  match num_of v with
  | Some t => ret (negb (Qle_bool q t))
  | None => raise (mk_exn TypeError [VStr ">"])
  end.

(** [z < v] for an int [z]. *)
Definition py_lt (z : Z) (v : pyval) : M bool :=
  match num_of v with
  | Some t => ret (negb (Qle_bool t (inject_Z z)))
  | None => raise (mk_exn TypeError [VStr "<"])
  end.

(** [q != v] and [q == v] for a number [q]: never an error. *)
Definition py_ne (q : Q) (v : pyval) : bool :=
  match num_of v with
  | Some t => negb (Qeq_bool q t)
  | None => true
  end.

Definition py_eq (q : Q) (v : pyval) : bool := negb (py_ne q v).

(** [s != v] for the value [s] of a [c_float] cell: an infinity and a NaN
    differ from every value a [pyval] holds. *)
Definition single_ne (s : single) (v : pyval) : bool :=
  match s with
  | Finite q => py_ne q v
  | _ => true
  end.

(** [a + b] where [a] is a string. *)
Definition str_add (a : string) (v : pyval) : M string :=
  match v with
  | VStr b => ret (a +:+ b)
  | _ => raise (mk_exn TypeError [VStr "+"])
  end.

Fixpoint str_contains (needle hay : string) : bool :=
  String.prefix needle hay ||
  match hay with
  | EmptyString => false
  | String _ t => str_contains needle t
  end.

(** [needle in v] for a string literal [needle]. *)
Definition py_in (needle : string) (v : pyval) : M bool :=
  match v with
  | VStr s => ret (str_contains needle s)
  | _ => raise (mk_exn TypeError [VStr "in"])
  end.

(** [float(v)] *)
Definition float_of (v : pyval) : M pyval :=
  match v with
  | VStr s => match py_float s with
              | Some q => ret (VFloat q)
              | None => raise (mk_exn ValueError [VStr "float"])
              end
  | VInt z => match float_of_int z with
              | Some q => ret (VFloat q)
              | None => raise (mk_exn OverflowError [VStr "float"])
              end
  | VBool b => ret (VFloat (inject_Z (Z.b2z b)))
  | VFloat q => ret (VFloat q)
  | VNone | VObj _ => raise (mk_exn TypeError [VStr "float"])
  end.

(** [int(v)] *)
Definition int_conv (v : pyval) : M Z :=
  match v with
  | VStr s => match py_int s with
              | Some z => ret z
              | None => raise (mk_exn ValueError [VStr "int"])
              end
  | VInt z => ret z
  | VBool b => ret (Z.b2z b)
  | VFloat q => ret (Z.quot (Qnum q) (Z.pos (Qden q)))
  | VNone | VObj _ => raise (mk_exn TypeError [VStr "int"])
  end.

(** The argument of [c_uint8], [c_uint16], [c_uint32]: an int. *)
Definition c_int_arg (v : pyval) : M Z :=
  match int_of v with
  | Some z => ret z
  | None => raise (mk_exn TypeError [VStr "c_uint"])
  end.

(** The argument of [c_float]: the cell's value, or the error of the
    conversion. *)
Definition c_float_arg (v : pyval) : M single :=
  match c_float v with
  | inr s => ret s
  | inl x => raise x
  end.

(** ** The driver's methods *)

(** *** [_call_sdk_bool], [_call_sdk_bool_ptr]

    The SDK function and its arguments are one [sdk_call]; the reply is
    handed back so that the caller can read its out-pointers. *)

Definition _call_sdk_bool (c : sdk_call) (success_msg error_msg : string) : M sdk_reply :=
  r <- sdk_do c ;;
  ok <- getattr "sidekick_sdk_ret_success" ;;
  if py_eq (inject_Z (sdk_ret r)) ok
  then stderr_write success_msg [] ;;; ret r
  else raise (mk_exn SDK_Exception [VStr error_msg]).

Definition _call_sdk_bool_ptr (sdk_fn : pyval -> sdk_call) (success_msg error_msg : string) : M unit :=
  r <- sdk_h sdk_fn ;;
  if out_flag r
  then stderr_write success_msg []
  else sdk_h SidekickSDK_Disconnect ;;; raise (mk_exn SDK_Exception [VStr error_msg]).

(** *** [__init__]

    The attributes [sdk_location], [sdk] and [zi_sdk] name the host and are
    not entries of [attrs].  A ctypes object is kept as the value it holds. *)

Definition __init__ : M unit :=
  setattr "parameter_timeout" (VInt 20) ;;;
  setattr "qcl_set_params_timeout" (VInt 5) ;;;
  setattr "arm_laser_timeout" (VInt 20) ;;;
  setattr "cool_tecs_timeout" (VInt 60) ;;;
  setattr "cool_tecs_additional" (VInt 10) ;;;
  setattr "turn_on_laser_timeout" (VInt 30) ;;;
  setattr "laser_on_attempts" (VInt 3) ;;;
  setattr "laser_on_wait" (VInt 5) ;;;
  setattr "laser_on" (VBool false) ;;;
  setattr "qcl_current_ma" (VInt 1500) ;;;
  setattr "qcl_pulse_rate_hz" (VInt 100000) ;;;
  setattr "qcl_pulse_width_ns" (VInt 500) ;;;
  setattr "qcl_wavelength" (VInt 0) ;;;
  setattr "qcl_wvlen_units" (VInt (c_uint8 0)) ;;;
  setattr "qcl_temp" (VInt 17) ;;;
  setattr "lockin_ip" (VStr "192.168.48.102") ;;;
  setattr "lockin_port" (VInt 8004) ;;;
  setattr "lockin_amplitude" (VFloat 1) ;;;
  setattr "lockin_poll_length" (VInt 30) ;;;
  setattr "lockin_demod_c" (VStr "0") ;;;
  setattr "lockin_in_c" (VStr "0") ;;;
  setattr "lockin_osc_c" (VStr "0") ;;;
  setattr "lockin_osc_freq" (VInt 100000) ;;;
  setattr "lockin_time_constant" (VFloat (1 # 100)) ;;;
  c <- getattr "lockin_demod_c" ;;
  f <- float_of c ;;
  setattr "demod_idx" (VFloat (match num_of f with Some q => q + 1 | None => 1 end)%Q) ;;;
  setattr "poll_timeout" (VInt 500) ;;;
  setattr "demod_rate" (VFloat 2000) ;;;
  setattr "qcl_read_is_write" (VBool false) ;;;
  setattr "qcl_update_is_write" (VBool true) ;;;
  setattr "sidekick_sdk_ret_success" (VInt 0) ;;;
  _call_sdk_bool SidekickSDK_Initialize
    "SDK initialization successful" "Unable to initialize SDK" ;;;
  setattr "handle" VNone ;;;
  setattr "device" VNone ;;;
  setattr "daq" VNone.

(** *** [connect_laser] *)

Definition connect_laser : M unit :=
  _call_sdk_bool SidekickSDK_SearchForUsbDevices
    "Found USB devices" "Error occured while searching for USB devices" ;;;
  r_num <- _call_sdk_bool SidekickSDK_GetNumOfDevices
    "Got device count" "Error when getting device count" ;;
  let num_devices := c_uint16 (out_count r_num) in
  r_con <- _call_sdk_bool (SidekickSDK_ConnectToDeviceNumber (c_uint16 (num_devices - 1)))
    "Connected to laser" "Unable to connect to laser" ;;
  setattr "handle" (VInt (c_uint32 (out_handle r_con))) ;;;
  sdk_h (fun h => SidekickSDK_ReadAdminQclParams h 0) ;;;
  _call_sdk_bool_ptr SidekickSDK_AdminQclIsAvailable
    "QCL installed and detected" "QCL not detected" ;;;
  _call_sdk_bool_ptr SidekickSDK_isInterlockedStatusSet
    "Interlock set" "Interlock not set" ;;;
  _call_sdk_bool_ptr SidekickSDK_isKeySwitchStatusSet
    "Keyswitch set" "Keyswitch not set".

(** *** [arm_laser] *)

(** The loop [while not is_armed_ptr.contents.value]. *)
Fixpoint arm_laser_loop (fuel : nat) (old_t : Q) (is_armed : bool) : M unit :=
  if is_armed then ret tt else
  match fuel with
  | O => out_of_fuel
  | S fuel' =>
      sleep (VInt 1) ;;;
      sdk_h SidekickSDK_ReadInfoStatusMask ;;;
      r <- sdk_h SidekickSDK_isLaserArmed ;;
      curr_t <- time_now ;;
      tmo <- getattr "arm_laser_timeout" ;;
      late <- py_gt (curr_t - old_t) tmo ;;
      if late
      then raise (mk_exn Laser_Exception [VStr "Unable to arm laser"])
      else arm_laser_loop fuel' old_t (out_flag r)
  end.

Definition arm_laser (fuel : nat) : M unit :=
  sdk_h (fun h => SidekickSDK_SetLaserArmDisarm h true) ;;;
  sdk_h SidekickSDK_ExecLaserArmDisarm ;;;
  sdk_h SidekickSDK_ReadInfoStatusMask ;;;
  r <- sdk_h SidekickSDK_isLaserArmed ;;
  old_t <- time_now ;;
  arm_laser_loop fuel old_t (out_flag r) ;;;
  stderr_write "Laser armed" [].

(** *** [_read_qcl_params], [_update_qcl_params] *)

(** What the eight typed pointers hold after the SDK filled them. *)
Definition as_ctypes (p : qcl_params) : qcl_params :=
  mk_qcl (c_uint8 (qcl_slot_ptr p)) (c_uint32 (pulse_rate_hz_ptr p))
         (c_uint32 (pulse_width_ns_ptr p)) (c_uint16 (current_ma_ptr p))
         (temp_c_ptr p) (c_uint8 (laser_mode_ptr p))
         (c_uint8 (pulse_mode_ptr p)) (vsrc_ptr p).

Definition _read_qcl_params : M qcl_params :=
  h <- getattr "handle" ;;
  rw <- getattr "qcl_read_is_write" ;;
  sdk_do (SidekickSDK_ReadWriteLaserQclParams h rw 0) ;;;
  r <- sdk_h SidekickSDK_GetLaserQclParams ;;
  ret (as_ctypes (out_qcl r)).

Definition _update_qcl_params (params : qcl_params) : M unit :=
  sdk_h (fun h => SidekickSDK_SetLaserQclParams h params) ;;;
  h <- getattr "handle" ;;
  rw <- getattr "qcl_update_is_write" ;;
  sdk_do (SidekickSDK_ReadWriteLaserQclParams h rw 0) ;;;
  ret tt.

(** *** [set_qcl_params] *)

(** The loop condition: the four [!=] tests joined by [or]. *)
Definition qcl_differs (p : qcl_params) : M bool :=
  a <- getattr "qcl_pulse_rate_hz" ;;
  if py_ne (inject_Z (pulse_rate_hz_ptr p)) a then ret true else
  b <- getattr "qcl_temp_c" ;;
  if single_ne (temp_c_ptr p) b then ret true else
  c <- getattr "qcl_current_ma" ;;
  if py_ne (inject_Z (current_ma_ptr p)) c then ret true else
  d <- getattr "qcl_width_ns" ;;
  ret (py_ne (inject_Z (pulse_width_ns_ptr p)) d).

Fixpoint set_qcl_params_loop (fuel : nat) (old_t : Q) (qcl_params : qcl_params) : M unit :=
  differs <- qcl_differs qcl_params ;;
  if differs then
    match fuel with
    | O => out_of_fuel
    | S fuel' =>
        qcl_params' <- _read_qcl_params ;;
        curr_t <- time_now ;;
        tmo <- getattr "qcl_set_params_timeout" ;;
        late <- py_gt (curr_t - old_t) tmo ;;
        (* [QCL_Exception("Unable to set QCL params")]: the object is built
           and dropped, there is no [raise] *)
        (if late then ret tt else ret tt) ;;;
        sleep (VInt 1) ;;;
        set_qcl_params_loop fuel' old_t qcl_params'
    end
  else ret tt.

Definition set_qcl_params (fuel : nat) : M unit :=
  p0 <- _read_qcl_params ;;
  rate <- (v <- getattr "qcl_pulse_rate_hz" ;; c_int_arg v) ;;
  let p1 := mk_qcl (qcl_slot_ptr p0) (c_uint32 rate) (pulse_width_ns_ptr p0)
              (current_ma_ptr p0) (temp_c_ptr p0) (laser_mode_ptr p0)
              (pulse_mode_ptr p0) (vsrc_ptr p0) in
  temp <- (v <- getattr "qcl_temp_c" ;; c_float_arg v) ;;
  let p2 := mk_qcl (qcl_slot_ptr p1) (pulse_rate_hz_ptr p1) (pulse_width_ns_ptr p1)
              (current_ma_ptr p1) temp (laser_mode_ptr p1)
              (pulse_mode_ptr p1) (vsrc_ptr p1) in
  cur <- (v <- getattr "qcl_current_ma" ;; c_int_arg v) ;;
  let p3 := mk_qcl (qcl_slot_ptr p2) (pulse_rate_hz_ptr p2) (pulse_width_ns_ptr p2)
              (c_uint16 cur) (temp_c_ptr p2) (laser_mode_ptr p2)
              (pulse_mode_ptr p2) (vsrc_ptr p2) in
  wid <- (v <- getattr "qcl_width_ns" ;; c_int_arg v) ;;
  let p4 := mk_qcl (qcl_slot_ptr p3) (pulse_rate_hz_ptr p3) (c_uint32 wid)
              (current_ma_ptr p3) (temp_c_ptr p3) (laser_mode_ptr p3)
              (pulse_mode_ptr p3) (vsrc_ptr p3) in
  _update_qcl_params p4 ;;;
  old_t <- time_now ;;
  set_qcl_params_loop fuel old_t p4.

(** *** [set_wavelength] *)

Fixpoint set_wavelength_loop (fuel : nat) (old_t : Q) (is_set : bool) : M unit :=
  if is_set then ret tt else
  match fuel with
  | O => out_of_fuel
  | S fuel' =>
      sleep (VInt 1) ;;;
      sdk_h SidekickSDK_ExecTuneToWW ;;;
      r <- sdk_h SidekickSDK_isTuned ;;
      curr_t <- time_now ;;
      tmo <- getattr "parameter_timeout" ;;
      late <- py_gt (curr_t - old_t) tmo ;;
      if late
      then raise (mk_exn Laser_Exception [VStr "Wavelength not tuned."])
      else set_wavelength_loop fuel' old_t (out_flag r)
  end.

Definition set_wavelength (fuel : nat) (units value : pyval) : M unit :=
  setattr "wavelength" value ;;;
  setattr "wvlen_units" units ;;;
  h <- getattr "handle" ;;
  u <- c_int_arg units ;;
  v <- c_float_arg value ;;
  sdk_do (SidekickSDK_SetTuneToWW h (c_uint8 u) v (c_uint8 0)) ;;;
  sdk_h SidekickSDK_ExecTuneToWW ;;;
  r <- sdk_h SidekickSDK_isTuned ;;
  old_t <- time_now ;;
  set_wavelength_loop fuel old_t (out_flag r) ;;;
  stderr_write "Laser wavelength set successfully." [].

(** *** [cool_tecs] *)

Fixpoint cool_tecs_loop (fuel : nat) (old_t : Q) (is_temp_set : bool) : M unit :=
  if is_temp_set then ret tt else
  match fuel with
  | O => out_of_fuel
  | S fuel' =>
      sleep (VInt 1) ;;;
      sdk_h SidekickSDK_ReadInfoStatusMask ;;;
      r <- sdk_h SidekickSDK_isTempStatusSet ;;
      curr_t <- time_now ;;
      tmo <- getattr "cool_tecs_timeout" ;;
      late <- py_gt (curr_t - old_t) tmo ;;
      if late
      then raise (mk_exn Laser_Exception [VStr "TECs unable to cool"])
      else cool_tecs_loop fuel' old_t (out_flag r)
  end.

Definition cool_tecs (fuel : nat) : M unit :=
  sdk_h SidekickSDK_ReadInfoStatusMask ;;;
  r <- sdk_h SidekickSDK_isTempStatusSet ;;
  old_t <- time_now ;;
  cool_tecs_loop fuel old_t (out_flag r) ;;;
  extra <- getattr "cool_tecs_additional" ;;
  sleep extra ;;;
  stderr_write "TECs are at Temp" [].

(** *** [turn_on_laser] *)

(** The inner loop [while not is_emitting_ptr.contents.value]; it yields the
    flag last read and [trial_fail]. *)
Fixpoint emitting_loop (fuel : nat) (old_t : Q) (is_emitting : bool) : M (bool * bool) :=
  if is_emitting then ret (is_emitting, false) else
  match fuel with
  | O => out_of_fuel
  | S fuel' =>
      wait <- getattr "laser_on_wait" ;;
      sleep wait ;;;
      r <- sdk_h SidekickSDK_isLaserFiring ;;
      curr_t <- time_now ;;
      tmo <- getattr "turn_on_laser_timeout" ;;
      late <- py_gt (curr_t - old_t) tmo ;;
      if late
      then ret (out_flag r, true)
      else emitting_loop fuel' old_t (out_flag r)
  end.

(** The outer loop [while not self.laser_on and attempts < self.laser_on_attempts];
    it yields the flag last read.  [n] bounds the inner loop. *)
Fixpoint turn_on_loop (fuel n : nat) (attempts : Z) (is_emitting : bool) : M bool :=
  lo <- getattr "laser_on" ;;
  go <- (if truthy lo then ret false
         else mx <- getattr "laser_on_attempts" ;; py_lt attempts mx) ;;
  if go then
    match fuel with
    | O => out_of_fuel
    | S fuel' =>
        let attempts := attempts + 1 in
        sdk_h (fun h => SidekickSDK_SetLaserOnOff h 0 true) ;;;
        sdk_h SidekickSDK_ExecLaserOnOff ;;;
        sdk_h SidekickSDK_ReadInfoStatusMask ;;;
        r <- sdk_h SidekickSDK_isLaserFiring ;;
        stderr_write "Turn on attempts: {}" [VInt attempts] ;;;
        old_t <- time_now ;;
        et <- emitting_loop n old_t (out_flag r) ;;
        st <- sdk_h SidekickSDK_ReadStatusMask ;;
        stderr_write "Status Word is {}, Error Word is {}, Warning Word is {}"
          [VInt (c_uint32 (fst (fst (out_words st))));
           VInt (c_uint16 (snd (fst (out_words st))));
           VInt (c_uint16 (snd (out_words st)))] ;;;
        if snd et
        then turn_on_loop fuel' n attempts (fst et)
        else setattr "laser_on" (VBool true) ;;;
             turn_on_loop fuel' n attempts (fst et)
    end
  else ret is_emitting.

Definition turn_on_laser (fuel : nat) : M unit :=
  is_emitting <- turn_on_loop fuel fuel 0 false ;;
  if negb is_emitting
  then raise (mk_exn Laser_Exception [VStr "Laser failed to turn on"])
  else stderr_write "Laser is on." [].

(** *** The lock-in amplifier *)

(** [self.daq.name]: only a session object has the method. *)
Definition daq_method (name : string) : M unit :=
  d <- getattr "daq" ;;
  match d with
  | VObj _ => ret tt
  | _ => raise (mk_exn AttributeError [VStr name])
  end.

(** ['/' + self.device + suffix] *)
Definition dev_path (suffix : string) : M string :=
  dev <- getattr "device" ;;
  a <- str_add "/" dev ;;
  ret (a +:+ suffix).

(** ['/' + self.device + mid + self.chan + suffix] *)
Definition chan_path (mid chan suffix : string) : M string :=
  dev <- getattr "device" ;;
  a <- str_add "/" dev ;;
  c <- getattr chan ;;
  b <- str_add (a +:+ mid) c ;;
  ret (b +:+ suffix).

Definition getByte (path : M string) : M pyval :=
  daq_method "getByte" ;;; p <- path ;; zi_do (daq_getByte p).

Definition getInt (path : M string) : M pyval :=
  daq_method "getInt" ;;; p <- path ;; zi_do (daq_getInt p).

Definition setDouble (path : M string) (value : M pyval) : M unit :=
  daq_method "setDouble" ;;; p <- path ;; v <- value ;; zi_do (daq_setDouble p v) ;;; ret tt.

Definition setInt (path : M string) (value : M pyval) : M unit :=
  daq_method "setInt" ;;; p <- path ;; v <- value ;; zi_do (daq_setInt p v) ;;; ret tt.

Definition unsubscribe (path : string) : M unit :=
  daq_method "unsubscribe" ;;; zi_do (daq_unsubscribe path) ;;; ret tt.

Definition sync : M unit :=
  daq_method "sync" ;;; zi_do daq_sync ;;; ret tt.

Definition connect_to_lockin : M unit :=
  ip <- getattr "lockin_ip" ;;
  port <- getattr "lockin_port" ;;
  d <- zi_do (ziDAQServer ip port) ;;
  setattr "daq" d ;;;
  d' <- getattr "daq" ;;
  dev <- zi_do (autoDetect d') ;;
  setattr "device" dev ;;;
  dev' <- getattr "device" ;;
  stderr_write "Connected to lock-In device {}" [dev'].

(** The branch on the device family. *)
Definition family_config (devtype : pyval) : M unit :=
  uhf <- py_in "UHF" devtype ;;
  if uhf then
    setInt (dev_path "/demods/*/enable") (ret (VInt 0)) ;;;
    setInt (dev_path "/scopes/*/enable") (ret (VInt 0))
  else
    hf2 <- py_in "HF2" devtype ;;
    if hf2 then
      setInt (dev_path "/scopes/*/trigchannel") (ret (VInt (-1)))
    else
      mf <- py_in "MF" devtype ;;
      if mf then
        setInt (dev_path "/scopes/*/enable") (ret (VInt 0))
      else ret tt.

Definition initialize_lockin : M unit :=
  stderr_write "Initializing lock-in amp" [] ;;;
  devtype <- getByte (dev_path "/features/devtype") ;;
  options <- getByte (dev_path "/features/options") ;;
  setDouble (dev_path "/demods/*/rate") (ret (VFloat 0)) ;;;
  setInt (dev_path "/demods/*/trigger") (ret (VInt 0)) ;;;
  setInt (dev_path "/sigouts/*/enables/*") (ret (VInt 0)) ;;;
  family_config devtype ;;;
  setInt (chan_path "/sigins/" "lockin_in_c" "/imp50") (ret (VInt 0)) ;;;
  setInt (chan_path "/sigins/" "lockin_in_c" "/ac") (ret (VInt 1)) ;;;
  setInt (chan_path "/sigins/" "lockin_in_c" "/diff") (ret (VInt 0)) ;;;
  setInt (chan_path "/sigins/" "lockin_in_c" "/float") (ret (VInt 0)) ;;;
  setDouble (chan_path "/sigins/" "lockin_in_c" "/range") (ret (VFloat 2)) ;;;
  setDouble (dev_path "/demods/*/phaseshift") (ret (VInt 0)) ;;;
  setInt (dev_path "/demods/*/order") (ret (VInt 4)) ;;;
  setDouble (chan_path "/demods/" "lockin_demod_c" "/rate") (getattr "demod_rate") ;;;
  setInt (chan_path "/demods/" "lockin_demod_c" "/harmonic") (ret (VInt 1)) ;;;
  uhf <- py_in "UHF" devtype ;;
  (if uhf
   then setInt (chan_path "/demods/" "lockin_demod_c" "/enable") (ret (VInt 1))
   else ret tt) ;;;
  mf <- py_in "MF" options ;;
  (if mf
   then setInt (dev_path "/demods/*/oscselect")
          (c <- getattr "lockin_osc_c" ;; float_of c) ;;;
        setInt (dev_path "/demods/*/adcselect")
          (c <- getattr "lockin_in_c" ;; float_of c)
   else ret tt) ;;;
  setDouble (dev_path "/demods/*/timeconstant") (getattr "lockin_time_constant") ;;;
  setDouble (chan_path "/oscs/" "lockin_osc_c" "/freq") (getattr "lockin_osc_freq") ;;;
  setInt (dev_path "/extrefs/0/enable") (ret (VInt 1)) ;;;
  setDouble (dev_path "/triggers/in/0/level") (ret (VFloat (1 # 2))) ;;;
  setInt (dev_path "/demods/0/adcselect") (ret (VInt 1)) ;;;
  setInt (dev_path "/demods/0/adcselect") (ret (VInt 0)) ;;;
  setInt (dev_path "/demods/1/adcselect") (ret (VInt 2)) ;;;
  setInt (dev_path "/demods/1/adcselect") (ret (VInt 8)) ;;;
  unsubscribe "*" ;;;
  sync ;;;
  tc <- getattr "lockin_time_constant" ;;
  match num_of tc with
  | Some q => sleep (VFloat (10 * q))
  | None => raise (mk_exn TypeError [VStr "sleep"])
  end.

(** *** [turn_off_laser] *)

Definition turn_off_laser : M unit :=
  sdk_h (fun h => SidekickSDK_SetLaserOnOff h 0 false) ;;;
  sdk_h SidekickSDK_ExecLaserOnOff ;;;
  sdk_h (fun h => SidekickSDK_SetLaserArmDisarm h false) ;;;
  sdk_h SidekickSDK_ExecLaserArmDisarm ;;;
  sdk_h SidekickSDK_Disconnect ;;;
  stderr_write "Laser off" [].

(** *** [_collect_data]

    The two list arguments are mutated in place by the method; here they
    are passed in and handed back.  A raise leaves both as they were.  The
    locals [data] and [time_axis] are bound together or not at all, hence
    one [option]. *)

(** [d[k]] on a dictionary with string keys. *)
Definition lookup_key {A} (k : pyval) (d : gmap string A) : option A :=
  match k with
  | VStr s => d !! s
  | _ => None
  end.

(** [np.hypot(x, y)] on two arrays of one dimension: element by element
    when they are equally long; an array of one element is stretched to
    the length of the other; two other lengths that differ are a
    [ValueError]. *)
Definition hypot_arrays (x y : list Q) : M (list Q) :=
  if (length x =? length y)%nat then ret (zip_with np_hypot x y)
  else match x, y with
       | [u], _ => ret (map (np_hypot u) y)
       | _, [v] => ret (map (fun u => np_hypot u v) x)
       | _, _ => raise (mk_exn ValueError [VStr "hypot"])
       end.

(** The body of the innermost [if]: magnitude and time axis of one block. *)
Definition read_sample (smp : sample) : M (list Q * list Q) :=
  data <- hypot_arrays (sample_x smp) (sample_y smp) ;;
  cb <- getInt (dev_path "/clockbase") ;;
  cbf <- float_of cb ;;
  let clockbase := match cbf with VFloat q => q | _ => 0%Q end in
  let time_axis := map (fun t => np_divide t clockbase) (sample_timestamp smp) in
  (if sample_dataloss smp
   then stderr_write "warning: Sample loss detected." []
   else ret tt) ;;;
  ret (data, time_axis).

(** The [if]/[else] ladder that binds [data] and [time_axis]. *)
Definition bind_locals (poll : poll_data) : M (option (list Q * list Q)) :=
  dev <- getattr "device" ;;
  match lookup_key dev poll with
  | None => ret (Some ([], []))
  | Some node =>
      match node !! "demods" with
      | None => ret (Some ([], []))
      | Some demods =>
          c <- getattr "lockin_demod_c" ;;
          n <- int_conv c ;;
          if Z.of_nat (size demods) >=? n then
            c' <- getattr "lockin_demod_c" ;;
            match lookup_key c' demods with
            | None => raise (mk_exn KeyError [c'])
            | Some chan =>
                match chan !! "sample" with
                | Some smp => dt <- read_sample smp ;; ret (Some dt)
                | None => ret None
                end
            end
          else ret None
      end
  end.

Definition _collect_data (data_list time_list : list (list Q))
  : M (list (list Q) * list (list Q)) :=
  sync ;;;
  daq_method "subscribe" ;;;
  p <- chan_path "/demods/" "lockin_demod_c" "/sample" ;;
  zi_do (daq_subscribe p) ;;;
  daq_method "poll" ;;;
  len <- getattr "lockin_poll_length" ;;
  tmo <- getattr "poll_timeout" ;;
  poll <- poll_do len tmo ;;
  locals <- bind_locals poll ;;
  unsubscribe "*" ;;;
  match locals with
  | None => raise (mk_exn UnboundLocalError [VStr "data"])
  | Some (data, time_axis) => ret ((data_list ++ [data])%list, (time_list ++ [time_axis])%list)
  end.

(** *** [startup]

    Inside the class body a name with two leading underscores is mangled:
    [self.__connect_laser] looks up [_Laser_Driver__connect_laser].  The
    class body binds no such name, so where these seven calls lead is
    decided by the namespace [ns] the lookup runs in.  Methods called by an
    unmangled name are the ones the class defines. *)

Definition mangle (name : string) : string := "_Laser_Driver" +:+ name.

Definition call_method (ns : string -> option (M unit)) (name : string) : M unit :=
  match ns name with
  | Some m => m
  | None => raise (mk_exn AttributeError [VStr name])
  end.

(** The body of the [try]. *)
Definition startup_stages (ns : string -> option (M unit)) : M unit :=
  call_method ns (mangle "__connect_laser") ;;;
  call_method ns (mangle "__arm_laser") ;;;
  call_method ns (mangle "__set_qcl_params") ;;;
  call_method ns (mangle "__cool_tecs") ;;;
  call_method ns (mangle "__turn_on_laser") ;;;
  call_method ns (mangle "__connect_to_lockin") ;;;
  call_method ns (mangle "__initialize_lockin").

(** The [except:] clause: [sys.exc_info()[0]] is the class of the exception
    being handled, not the exception, and [raise e] on a class raises what
    calling the class without arguments gives. *)
Definition startup_except (x : exn) : M unit :=
  let e := exn_cls x in
  turn_off_laser ;;;
  raise (instantiate e).

(** The five assignments at the head of [startup]. *)
Definition startup_assign (wave waveunit current pulsewid pulserate : pyval) : M unit :=
  setattr "qcl_wavelength" wave ;;;
  setattr "qcl_wvlen_units" waveunit ;;;
  setattr "qcl_current_ma_ma" current ;;;
  setattr "qcl_pulse_width_ns" pulsewid ;;;
  setattr "qcl_pulse_rate_hz" pulserate.

Definition startup (ns : string -> option (M unit))
  (wave waveunit current pulsewid pulserate : pyval) : M unit :=
  startup_assign wave waveunit current pulsewid pulserate ;;;
  try_except (startup_stages ns) startup_except.

(** *** Namespaces *)

(** The argument-free methods the class body defines, under the names it
    defines them by.  [fuel] bounds their loops. *)
Definition class_methods (fuel : nat) : list (string * M unit) :=
  [ ("connect_laser", connect_laser);
    ("arm_laser", arm_laser fuel);
    ("set_qcl_params", set_qcl_params fuel);
    ("cool_tecs", cool_tecs fuel);
    ("turn_on_laser", turn_on_laser fuel);
    ("connect_to_lockin", connect_to_lockin);
    ("initialize_lockin", initialize_lockin);
    ("turn_off_laser", turn_off_laser) ].

Definition assoc {A} (l : list (string * A)) (name : string) : option A :=
  snd <$> find (fun p => String.eqb (fst p) name) l.

(** The class as written. *)
Definition Laser_Driver_ns (fuel : nat) : string -> option (M unit) :=
  assoc (class_methods fuel).

(** The class with each method also reachable under its private name, the
    name the methods' own documentation uses for them. *)
Definition private_ns (fuel : nat) : string -> option (M unit) :=
  assoc (map (fun p => (mangle ("__" +:+ fst p), snd p)) (class_methods fuel)).

End Driver.

(** ** [set_pulserate], [set_current]

    The two setters call [self.__read_qcl_params()] and
    [self.__set_qcl_params(qcl_params)]; inside the class these names are
    mangled like the stage names of [startup].  [rd] is the namespace of the
    methods that take no argument and hand back a parameter block, [wr] that
    of the methods that take one. *)

Section Setters.

Context {Env : Type} {host : Host Env}.

Definition call_reader (rd : string -> option (M Env qcl_params)) (name : string)
  : M Env qcl_params :=
  match rd name with
  | Some m => m
  | None => raise (mk_exn AttributeError [VStr name])
  end.

Definition call_writer (wr : string -> option (qcl_params -> M Env unit))
  (name : string) (p : qcl_params) : M Env unit :=
  match wr name with
  | Some m => m p
  | None => raise (mk_exn AttributeError [VStr name])
  end.

Definition set_pulserate (rd : string -> option (M Env qcl_params))
  (wr : string -> option (qcl_params -> M Env unit)) (value : pyval) : M Env unit :=
  setattr "qcl_pulse_rate_hz" value ;;;
  p <- call_reader rd (mangle "__read_qcl_params") ;;
  v <- c_int_arg value ;;
  call_writer wr (mangle "__set_qcl_params")
    (mk_qcl (qcl_slot_ptr p) (c_uint32 v) (pulse_width_ns_ptr p) (current_ma_ptr p)
            (temp_c_ptr p) (laser_mode_ptr p) (pulse_mode_ptr p) (vsrc_ptr p)).

Definition set_current (rd : string -> option (M Env qcl_params))
  (wr : string -> option (qcl_params -> M Env unit)) (value : pyval) : M Env unit :=
  setattr "qcl_current_ma" value ;;;
  p <- call_reader rd (mangle "__read_qcl_params") ;;
  v <- c_int_arg value ;;
  call_writer wr (mangle "__set_qcl_params")
    (mk_qcl (qcl_slot_ptr p) (pulse_rate_hz_ptr p) (pulse_width_ns_ptr p) (c_uint16 v)
            (temp_c_ptr p) (laser_mode_ptr p) (pulse_mode_ptr p) (vsrc_ptr p)).

(** The methods of these two kinds that the class body defines. *)
Definition Laser_Driver_readers : string -> option (M Env qcl_params) :=
  assoc [("_read_qcl_params", _read_qcl_params)].

Definition Laser_Driver_writers : string -> option (qcl_params -> M Env unit) :=
  assoc [("_update_qcl_params", _update_qcl_params)].

End Setters.

(** ** A simulated link

    The hardware side is a script: return codes and flags per call, the QCL
    block last written, and the detector's answers.  Sleeping moves the
    clock; nothing else does. *)

Record Sim := mk_sim {
  sim_now : Q;
  sim_calls : nat;            (* SDK calls answered so far *)
  sim_qcl : qcl_params        (* the block the controller holds *)
}.

Record Script := mk_script {
  sc_ret : sdk_call -> Z;
  sc_flag : sdk_call -> nat -> bool;
  sc_echo : bool;              (* does the controller take over a written block *)
  sc_count : Z;
  sc_handle : Z;
  sc_words : Z * Z * Z;
  sc_zi : zi_call -> exn + pyval;
  sc_poll : exn + poll_data
}.

Definition sim_sdk (sc : Script) (c : sdk_call) (e : Sim) : sdk_reply * Sim :=
  let q := match c with
           | SidekickSDK_SetLaserQclParams _ p => if sc_echo sc then p else sim_qcl e
           | _ => sim_qcl e
           end in
  (mk_reply (sc_ret sc c) (sc_flag sc c (sim_calls e)) (sc_count sc) (sc_handle sc)
            (sim_qcl e) (sc_words sc),
   mk_sim (sim_now e) (S (sim_calls e)) q).

(** The root of a rational that is a square; of any other, the roots of
    numerator and denominator, each rounded down. *)
Definition sim_sqrt (q : Q) : Q :=
  (Z.sqrt (Qnum (Qred q)) # Pos.sqrt (Qden (Qred q)))%Q.

(** [int] and [float] of a string of decimal digits. *)
Fixpoint digits (s : string) (acc : Z) : option Z :=
  match s with
  | EmptyString => Some acc
  | String a t =>
      let n := Z.of_nat (Ascii.nat_of_ascii a) - 48 in
      if (0 <=? n) && (n <=? 9) then digits t (10 * acc + n) else None
  end.

Definition sim_int (s : string) : option Z :=
  match s with
  | EmptyString => None
  | _ => digits s 0
  end.

Definition sim_host (sc : Script) : Host Sim := {|
  sdk := sim_sdk sc;
  zi := fun c e => (sc_zi sc c, e);
  zi_poll := fun _ _ e => (sc_poll sc, e);
  time_time := sim_now;
  time_sleep := fun d e => mk_sim (sim_now e + d) (sim_calls e) (sim_qcl e);
  py_int := sim_int;
  py_float := fun s => inject_Z <$> sim_int s;
  np_hypot := fun x y => sim_sqrt (x * x + y * y);
  np_divide := fun t cb => Qred (inject_Z t / cb)
|}.

Definition zero_qcl : qcl_params := mk_qcl 0 0 0 0 (Finite 0) 0 0 (Finite 0).

Definition sim_start : Sim := mk_sim 0 0 zero_qcl.

(** A link on which everything succeeds at once. *)
Definition zi_ok (devtype : string) (c : zi_call) : exn + pyval :=
  match c with
  | ziDAQServer _ _ => inr (VObj 1)
  | autoDetect _ => inr (VStr "dev2006")
  | daq_getByte path =>
      if str_contains "devtype" path then inr (VStr devtype) else inr (VStr EmptyString)
  | daq_getInt _ => inr (VInt 60000000)
  | _ => inr VNone
  end.

Definition ok_script (devtype : string) : Script :=
  mk_script (fun _ => 0) (fun _ _ => true) true 1 7 (0, 0, 0) (zi_ok devtype) (inr ∅).

(** The empty world a constructor starts from. *)
Definition blank : World Sim := mk_world ∅ sim_start [].


(** A link that finds no USB device: the search returns an error code. *)
Definition no_usb_script : Script :=
  mk_script (fun c => match c with SidekickSDK_SearchForUsbDevices => 1 | _ => 0 end)
            (fun _ _ => true) true 0 0 (0, 0, 0) (zi_ok "MFLI") (inr ∅).

(** A link whose interlock loop is open. *)
Definition open_interlock_script : Script :=
  mk_script (fun _ => 0)
            (fun c _ => match c with SidekickSDK_isInterlockedStatusSet _ => false | _ => true end)
            true 1 7 (0, 0, 0) (zi_ok "MFLI") (inr ∅).

(** A link on which the laser never reports emission. *)
Definition dark_script : Script :=
  mk_script (fun _ => 0)
            (fun c _ => match c with SidekickSDK_isLaserFiring _ => false | _ => true end)
            true 1 7 (0, 0, 0) (zi_ok "MFLI") (inr ∅).

(** A poll response in which the channel is there without its sample
    node: [{'dev2006': {'demods': {'0': {}}}}]. *)
Definition poll_without_sample : poll_data :=
  {[ "dev2006" := {[ "demods" := {[ "0" := ∅ ]} ]} ]}.

Definition no_sample_script : Script :=
  mk_script (fun _ => 0) (fun _ _ => true) true 1 7 (0, 0, 0) (zi_ok "MFLI")
            (inr poll_without_sample).

(** A link that answers no status read with true: never armed, never
    tuned, never at temperature. *)
Definition idle_script : Script :=
  mk_script (fun _ => 0) (fun _ _ => false) true 1 7 (0, 0, 0) (zi_ok "MFLI") (inr ∅).

(** A link on which the search succeeds and finds nothing. *)
Definition no_device_script : Script :=
  mk_script (fun _ => 0) (fun _ _ => true) true 0 7 (0, 0, 0) (zi_ok "MFLI") (inr ∅).

(** A poll response with one block of two samples on channel 0, and one
    that holds channel 1 only. *)
Definition poll_with_sample : poll_data :=
  {[ "dev2006" :=
       {[ "demods" :=
            {[ "0" := {[ "sample" :=
                           mk_sample [3%Q; 6%Q] [4%Q; 8%Q]
                                     [120000000; 180000000] true ]} ]} ]} ]}.

Definition sample_script : Script :=
  mk_script (fun _ => 0) (fun _ _ => true) true 1 7 (0, 0, 0) (zi_ok "MFLI")
            (inr poll_with_sample).

Definition poll_other_channel : poll_data :=
  {[ "dev2006" := {[ "demods" := {[ "1" := ∅ ]} ]} ]}.

Definition other_channel_script : Script :=
  mk_script (fun _ => 0) (fun _ _ => true) true 1 7 (0, 0, 0) (zi_ok "MFLI")
            (inr poll_other_channel).

(** A laser that needs more than the 30 s of an attempt before it emits,
    and starts over at each on-command: of the emission reads of an
    attempt only the seventh poll, 35 s after the command, answers true.
    (Eight calls precede [turn_on_laser] on a connected driver, and an
    attempt of seven polls is twelve calls.) *)
Definition slow_script : Script :=
  mk_script (fun _ => 0)
            (fun c n => match c with
                        | SidekickSDK_isLaserFiring _ => (n mod 12 =? 6)%nat
                        | _ => true
                        end)
            true 1 7 (0, 0, 0) (zi_ok "MFLI") (inr ∅).

(** A link on which everything succeeds but the opening of the detector
    session, which raises [x]. *)
Definition zi_refuses (x : exn) (c : zi_call) : exn + pyval :=
  match c with
  | ziDAQServer _ _ => inl x
  | _ => inr VNone
  end.

Definition no_detector_script (x : exn) : Script :=
  mk_script (fun _ => 0) (fun _ _ => true) true 1 7 (0, 0, 0) (zi_refuses x) (inr ∅).

(** The fault of a library whose class cannot be built without arguments. *)
Definition decode_error : exn :=
  mk_exn (ForeignError "UnicodeDecodeError" true)
         [VStr "utf-8"; VStr "invalid start byte"].

(** The driver object as its constructor leaves it, on a given link. *)
Definition constructed (sc : Script) : World Sim :=
  world_of (@__init__ Sim (sim_host sc) blank).

(** The same after [connect_laser], and after [connect_to_lockin]. *)
Definition connected (sc : Script) : World Sim :=
  world_of (@connect_laser Sim (sim_host sc) (constructed sc)).

Definition with_lockin (sc : Script) : World Sim :=
  world_of (@connect_to_lockin Sim (sim_host sc) (constructed sc)).

(** The arguments of a typical call:
    [startup(1000, 2, 1500, 500, 100000)]. *)
Definition after_assign (sc : Script) : World Sim :=
  world_of (@startup_assign Sim (VInt 1000) (VInt 2) (VInt 1500) (VInt 500)
              (VInt 100000) (constructed sc)).

(** The same call on a connected driver, up to the stage calls. *)
Definition assigned (sc : Script) : World Sim :=
  world_of (@startup_assign Sim (VInt 1000) (VInt 2) (VInt 1500) (VInt 500)
              (VInt 100000) (connected sc)).

(** A controller that keeps its own block whatever is written to it, and
    a driver on it whose two missing attributes have been bound by hand and
    whose current does not fit the 16 bits of its field, so that
    [set_qcl_params] enters its loop. *)
Definition deaf_script : Script :=
  mk_script (fun _ => 0) (fun _ _ => true) false 1 7 (0, 0, 0) (zi_ok "MFLI") (inr ∅).

Definition patched (sc : Script) : World Sim :=
  mk_world (<["qcl_current_ma" := VInt 70000]>
              (<["qcl_width_ns" := VInt 500]>
                 (<["qcl_temp_c" := VInt 17]> (attrs (assigned sc)))))
           (env (assigned sc)) (log (assigned sc)).

(** A connected driver on which the two attributes [set_qcl_params] lacks
    have been bound by hand, the others being as the constructor set them. *)
Definition completed (sc : Script) : World Sim :=
  mk_world (<["qcl_width_ns" := VInt 500]>
              (<["qcl_temp_c" := VInt 17]> (attrs (connected sc))))
           (env (connected sc)) (log (connected sc)).

(** A driver whose laser was turned on. *)
Definition lit (sc : Script) : World Sim :=
  world_of (@turn_on_laser Sim (sim_host sc) 7 (connected sc)).

(** The value a run returned, if it did. *)
Definition value_of {Env A} (r : Res Env A) : option A :=
  match r with
  | Ret x _ => Some x
  | _ => None
  end.

(** The exception a run raised, if it did. *)
Definition raised_by {Env A} (r : Res Env A) : option exn :=
  match r with
  | Raise x _ => Some x
  | _ => None
  end.

(** ** Reading the log *)

Definition calls_of (l : list event) : list sdk_call :=
  omap (fun ev => match ev with EvSdk c _ => Some c | _ => None end) l.

Definition stderr_of (l : list event) : list string :=
  omap (fun ev => match ev with EvStderr s _ => Some s | _ => None end) l.

(** The five commands of [turn_off_laser] on handle [h]. *)
Definition off_calls (h : pyval) : list sdk_call :=
  [ SidekickSDK_SetLaserOnOff h 0 false;
    SidekickSDK_ExecLaserOnOff h;
    SidekickSDK_SetLaserArmDisarm h false;
    SidekickSDK_ExecLaserArmDisarm h;
    SidekickSDK_Disconnect h ].

Definition pyval_eqb (u v : pyval) : bool :=
  match u, v with
  | VNone, VNone => true
  | VBool a, VBool b => Bool.eqb a b
  | VInt a, VInt b => a =? b
  | VFloat a, VFloat b => (Qnum a =? Qnum b) && (Pos.eqb (Qden a) (Qden b))
  | VStr a, VStr b => String.eqb a b
  | VObj a, VObj b => a =? b
  | _, _ => false
  end.

(** The connection handle a call is issued on. *)
Definition handle_of (c : sdk_call) : option pyval :=
  match c with
  | SidekickSDK_Initialize | SidekickSDK_SearchForUsbDevices
  | SidekickSDK_GetNumOfDevices | SidekickSDK_ConnectToDeviceNumber _ => None
  | SidekickSDK_ReadAdminQclParams h _ | SidekickSDK_AdminQclIsAvailable h
  | SidekickSDK_isInterlockedStatusSet h | SidekickSDK_isKeySwitchStatusSet h
  | SidekickSDK_SetLaserArmDisarm h _ | SidekickSDK_ExecLaserArmDisarm h
  | SidekickSDK_ReadInfoStatusMask h | SidekickSDK_isLaserArmed h
  | SidekickSDK_SetTuneToWW h _ _ _ | SidekickSDK_ExecTuneToWW h
  | SidekickSDK_isTuned h | SidekickSDK_isTempStatusSet h
  | SidekickSDK_SetLaserOnOff h _ _ | SidekickSDK_ExecLaserOnOff h
  | SidekickSDK_isLaserFiring h | SidekickSDK_ReadStatusMask h
  | SidekickSDK_Disconnect h | SidekickSDK_ReadWriteLaserQclParams h _ _
  | SidekickSDK_GetLaserQclParams h | SidekickSDK_SetLaserQclParams h _ => Some h
  end.

Definition uses_handle (h : pyval) (c : sdk_call) : bool :=
  match handle_of c with
  | Some h' => pyval_eqb h h'
  | None => false
  end.

(** Is some handle used in a call issued after the [Disconnect] that
    released it? *)
Fixpoint reuses_released (l : list sdk_call) : bool :=
  match l with
  | [] => false
  | SidekickSDK_Disconnect h :: t => existsb (uses_handle h) t || reuses_released t
  | _ :: t => reuses_released t
  end.

Definition is_off_call (c : sdk_call) : bool :=
  match c with
  | SidekickSDK_SetLaserOnOff _ 0 false | SidekickSDK_ExecLaserOnOff _
  | SidekickSDK_SetLaserArmDisarm _ false | SidekickSDK_ExecLaserArmDisarm _
  | SidekickSDK_Disconnect _ => true
  | _ => false
  end.

(** The lock-in paths ['/' + device + suffix] and
    ['/' + device + mid + channel + suffix]. *)
Definition node (d suffix : string) : string := ("/" +:+ d) +:+ suffix.
Definition chan_node (d mid c suffix : string) : string :=
  ((("/" +:+ d) +:+ mid) +:+ c) +:+ suffix.

(** What [initialize_lockin] sends to a device of none of the three
    families whose options do not name MF: the two queries and the settings
    common to all devices. *)
Definition common_config (d in_c demod_c osc_c : string)
  (demod_rate time_constant osc_freq : pyval) : list zi_call :=
  [ daq_getByte (node d "/features/devtype");
    daq_getByte (node d "/features/options");
    daq_setDouble (node d "/demods/*/rate") (VFloat 0);
    daq_setInt (node d "/demods/*/trigger") (VInt 0);
    daq_setInt (node d "/sigouts/*/enables/*") (VInt 0);
    daq_setInt (chan_node d "/sigins/" in_c "/imp50") (VInt 0);
    daq_setInt (chan_node d "/sigins/" in_c "/ac") (VInt 1);
    daq_setInt (chan_node d "/sigins/" in_c "/diff") (VInt 0);
    daq_setInt (chan_node d "/sigins/" in_c "/float") (VInt 0);
    daq_setDouble (chan_node d "/sigins/" in_c "/range") (VFloat 2);
    daq_setDouble (node d "/demods/*/phaseshift") (VInt 0);
    daq_setInt (node d "/demods/*/order") (VInt 4);
    daq_setDouble (chan_node d "/demods/" demod_c "/rate") demod_rate;
    daq_setInt (chan_node d "/demods/" demod_c "/harmonic") (VInt 1);
    daq_setDouble (node d "/demods/*/timeconstant") time_constant;
    daq_setDouble (chan_node d "/oscs/" osc_c "/freq") osc_freq;
    daq_setInt (node d "/extrefs/0/enable") (VInt 1);
    daq_setDouble (node d "/triggers/in/0/level") (VFloat (1 # 2));
    daq_setInt (node d "/demods/0/adcselect") (VInt 1);
    daq_setInt (node d "/demods/0/adcselect") (VInt 0);
    daq_setInt (node d "/demods/1/adcselect") (VInt 2);
    daq_setInt (node d "/demods/1/adcselect") (VInt 8);
    daq_unsubscribe "*";
    daq_sync ].

Definition zi_calls_of (l : list event) : list zi_call :=
  omap (fun ev => match ev with EvZi c _ => Some c | _ => None end) l.

(** A device type of none of the three families. *)
Definition unknown_family (devtype : string) : bool :=
  negb (str_contains "UHF" devtype) && negb (str_contains "HF2" devtype)
  && negb (str_contains "MF" devtype).

(** The emission status as last read, after the events [l], starting from
    [cur]: each [isLaserFiring] read replaces it by the flag it returned. *)
Definition fire_step (cur : option bool) (ev : event) : option bool :=
  match ev with
  | EvSdk (SidekickSDK_isLaserFiring _) r => Some (out_flag r)
  | _ => cur
  end.

Definition firing_after (cur : option bool) (l : list event) : option bool :=
  fold_left fire_step l cur.

Definition last_firing (l : list event) : option bool := firing_after None l.

(** ** What [turn_on_laser] appends to the log, attempt by attempt

    One pass of the outer loop is an attempt.  It is described by what the
    link answered: the replies to the two commands, to the status read and
    to the first emission read, then the replies to the emission reads of
    the poll loop, one after each wait, and the reply to the read of the
    diagnostic words. *)

Record attempt := mk_attempt {
  att_set : sdk_reply;
  att_exec : sdk_reply;
  att_info : sdk_reply;
  att_first : sdk_reply;
  att_polls : list sdk_reply;
  att_words : sdk_reply
}.

(** The events of the poll loop: a wait, then an emission read, per reply. *)
Definition poll_events (h : pyval) (wait : Q) (rs : list sdk_reply) : list event :=
  flat_map (fun r => [EvSleep wait; EvSdk (SidekickSDK_isLaserFiring h) r]) rs.

(** The events of attempt number [k] on handle [h]. *)
Definition attempt_events (h : pyval) (wait : Q) (k : Z) (t : attempt) : list event :=
  [ EvSdk (SidekickSDK_SetLaserOnOff h 0 true) (att_set t);
    EvSdk (SidekickSDK_ExecLaserOnOff h) (att_exec t);
    EvSdk (SidekickSDK_ReadInfoStatusMask h) (att_info t);
    EvSdk (SidekickSDK_isLaserFiring h) (att_first t);
    EvStderr "Turn on attempts: {}" [VInt k] ]
  ++ poll_events h wait (att_polls t)
  ++ [ EvSdk (SidekickSDK_ReadStatusMask h) (att_words t);
       EvStderr "Status Word is {}, Error Word is {}, Warning Word is {}"
         [VInt (c_uint32 (fst (fst (out_words (att_words t)))));
          VInt (c_uint16 (snd (fst (out_words (att_words t)))));
          VInt (c_uint16 (snd (out_words (att_words t))))] ].

(** The events of the attempts [ts], numbered from [k] on. *)
Fixpoint attempts_events (h : pyval) (wait : Q) (k : Z) (ts : list attempt) : list event :=
  match ts with
  | [] => []
  | t :: ts' => (attempt_events h wait k t ++ attempts_events h wait (k + 1) ts')%list
  end.

(** The flag read last, [cur] being the one read before the [flags]. *)
Fixpoint last_flag_of (cur : bool) (flags : list bool) : bool :=
  match flags with
  | [] => cur
  | b :: rest => last_flag_of b rest
  end.

(** Was every read after a false flag and none after a true one: did the
    polling go on exactly as long as the flag was false? *)
Fixpoint polled_while_dark (cur : bool) (flags : list bool) : bool :=
  match flags with
  | [] => true
  | b :: rest => negb cur && polled_while_dark b rest
  end.

(** The emission flag an attempt read last, and whether its poll loop went
    on as long as the flag was false and no longer. *)
Definition att_confirmed (t : attempt) : bool :=
  last_flag_of (out_flag (att_first t)) (map out_flag (att_polls t)).

Definition att_polled_ok (t : attempt) : bool :=
  polled_while_dark (out_flag (att_first t)) (map out_flag (att_polls t)).

(** [is_emitting_ptr.contents.value] after the attempts [ts], [cur] being
    its value before them: the flag read last. *)
Fixpoint emitting_after (cur : bool) (ts : list attempt) : bool :=
  match ts with
  | [] => cur
  | t :: ts' => emitting_after (att_confirmed t) ts'
  end.

(** The number of emission-on commands among the events. *)
Definition is_on_command (ev : event) : bool :=
  match ev with
  | EvSdk (SidekickSDK_SetLaserOnOff _ _ true) _ => true
  | _ => false
  end.

Definition count_on (l : list event) : nat :=
  length (List.filter is_on_command l).

Definition exn_class_eqb (c d : exn_class) : bool :=
  match c, d with
  | Laser_Exception, Laser_Exception | QCL_Exception, QCL_Exception
  | SDK_Exception, SDK_Exception | AttributeError, AttributeError
  | TypeError, TypeError | KeyError, KeyError | ValueError, ValueError
  | UnboundLocalError, UnboundLocalError | OverflowError, OverflowError => true
  | ForeignError a m, ForeignError b n => String.eqb a b && Bool.eqb m n
  | _, _ => false
  end.

(** The errors the interpreter raises on an unbound attribute or an
    operand of the wrong type or value. *)
Definition builtin_error (x : exn) : Prop :=
  exn_cls x = AttributeError \/ exn_cls x = TypeError \/ exn_cls x = ValueError.

(** Does the run end by raising an exception of class [c]? *)
Definition raises {Env A} (c : exn_class) (r : Res Env A) : bool :=
  match r with
  | Raise e _ => exn_class_eqb (exn_cls e) c
  | _ => false
  end.


(** The messages of the three calls of [connect_laser] that open the
    connection (the [_call_sdk_bool] calls). *)
Definition connection_msgs : list pyval :=
  [VStr "Error occured while searching for USB devices";
   VStr "Error when getting device count";
   VStr "Unable to connect to laser"].

(** What a run of [connect_laser] that returns has appended to the log:
    the replies are those of the link, [h] is the handle it gave. *)
Definition connect_events (r1 r2 rc r4 r5 r6 r7 : sdk_reply) : list event :=
  let h := VInt (c_uint32 (out_handle rc)) in
  [ EvSdk SidekickSDK_SearchForUsbDevices r1;
    EvStderr "Found USB devices" [];
    EvSdk SidekickSDK_GetNumOfDevices r2;
    EvStderr "Got device count" [];
    EvSdk (SidekickSDK_ConnectToDeviceNumber (c_uint16 (c_uint16 (out_count r2) - 1))) rc;
    EvStderr "Connected to laser" [];
    EvSdk (SidekickSDK_ReadAdminQclParams h 0) r4;
    EvSdk (SidekickSDK_AdminQclIsAvailable h) r5;
    EvStderr "QCL installed and detected" [];
    EvSdk (SidekickSDK_isInterlockedStatusSet h) r6;
    EvStderr "Interlock set" [];
    EvSdk (SidekickSDK_isKeySwitchStatusSet h) r7;
    EvStderr "Keyswitch set" [] ].

(** Does the run end by returning? *)
Definition returns {Env A} (r : Res Env A) : bool :=
  match r with
  | Ret _ _ => true
  | _ => false
  end.

(** The flag last read by a call that [sel] selects, after the events [l],
    starting from [cur]. *)
Definition flag_step (sel : sdk_call -> bool) (cur : option bool) (ev : event)
  : option bool :=
  match ev with
  | EvSdk c r => if sel c then Some (out_flag r) else cur
  | _ => cur
  end.

Definition flag_after (sel : sdk_call -> bool) (cur : option bool) (l : list event)
  : option bool :=
  fold_left (flag_step sel) l cur.

Definition last_flag (sel : sdk_call -> bool) (l : list event) : option bool :=
  flag_after sel None l.

Definition is_armed_read (c : sdk_call) : bool :=
  match c with SidekickSDK_isLaserArmed _ => true | _ => false end.

Definition is_tuned_read (c : sdk_call) : bool :=
  match c with SidekickSDK_isTuned _ => true | _ => false end.

Definition is_temp_read (c : sdk_call) : bool :=
  match c with SidekickSDK_isTempStatusSet _ => true | _ => false end.

(** ** What [initialize_lockin] sends, by device

    The settings of the first family, in the order UHF, HF2, MF, whose name
    occurs in the device type; those for a device whose options name MF
    ([fo] and [fi] are [float(lockin_osc_c)] and [float(lockin_in_c)]); and
    the whole sequence of the method. *)

Definition family_calls (d devtype : string) : list zi_call :=
  if str_contains "UHF" devtype then
    [ daq_setInt (node d "/demods/*/enable") (VInt 0);
      daq_setInt (node d "/scopes/*/enable") (VInt 0) ]
  else if str_contains "HF2" devtype then
    [ daq_setInt (node d "/scopes/*/trigchannel") (VInt (-1)) ]
  else if str_contains "MF" devtype then
    [ daq_setInt (node d "/scopes/*/enable") (VInt 0) ]
  else [].

Definition option_calls (d options : string) (fo fi : Q) : list zi_call :=
  if str_contains "MF" options then
    [ daq_setInt (node d "/demods/*/oscselect") (VFloat fo);
      daq_setInt (node d "/demods/*/adcselect") (VFloat fi) ]
  else [].

Definition lockin_config (d in_c demod_c osc_c : string)
  (demod_rate time_constant osc_freq : pyval)
  (devtype options : string) (fo fi : Q) : list zi_call :=
  [ daq_getByte (node d "/features/devtype");
    daq_getByte (node d "/features/options");
    daq_setDouble (node d "/demods/*/rate") (VFloat 0);
    daq_setInt (node d "/demods/*/trigger") (VInt 0);
    daq_setInt (node d "/sigouts/*/enables/*") (VInt 0) ]
  ++ family_calls d devtype ++
  [ daq_setInt (chan_node d "/sigins/" in_c "/imp50") (VInt 0);
    daq_setInt (chan_node d "/sigins/" in_c "/ac") (VInt 1);
    daq_setInt (chan_node d "/sigins/" in_c "/diff") (VInt 0);
    daq_setInt (chan_node d "/sigins/" in_c "/float") (VInt 0);
    daq_setDouble (chan_node d "/sigins/" in_c "/range") (VFloat 2);
    daq_setDouble (node d "/demods/*/phaseshift") (VInt 0);
    daq_setInt (node d "/demods/*/order") (VInt 4);
    daq_setDouble (chan_node d "/demods/" demod_c "/rate") demod_rate;
    daq_setInt (chan_node d "/demods/" demod_c "/harmonic") (VInt 1) ]
  ++ (if str_contains "UHF" devtype
      then [ daq_setInt (chan_node d "/demods/" demod_c "/enable") (VInt 1) ]
      else [])
  ++ option_calls d options fo fi ++
  [ daq_setDouble (node d "/demods/*/timeconstant") time_constant;
    daq_setDouble (chan_node d "/oscs/" osc_c "/freq") osc_freq;
    daq_setInt (node d "/extrefs/0/enable") (VInt 1);
    daq_setDouble (node d "/triggers/in/0/level") (VFloat (1 # 2));
    daq_setInt (node d "/demods/0/adcselect") (VInt 1);
    daq_setInt (node d "/demods/0/adcselect") (VInt 0);
    daq_setInt (node d "/demods/1/adcselect") (VInt 2);
    daq_setInt (node d "/demods/1/adcselect") (VInt 8);
    daq_unsubscribe "*";
    daq_sync ].

(** ** The polled stages as one loop

    [arm_laser], [set_wavelength] and [cool_tecs] wait in the same way:
    sleep one second, issue a command and a status read on the handle, give
    up with the stage's message once the time since [old_t] exceeds the
    stage's timeout attribute.  [poll_loop] is that loop with the two calls,
    the attribute and the message left open; the loops of the three methods
    are shown to be instances of it. *)

Section PollLoop.

Context {Env : Type} {host : Host Env}.

Fixpoint poll_loop (pre read : pyval -> sdk_call) (tmo msg : string)
  (fuel : nat) (old_t : Q) (flag : bool) : M Env unit :=
  if flag then ret tt else
  match fuel with
  | O => out_of_fuel
  | S fuel' =>
      sleep (VInt 1) ;;;
      sdk_h pre ;;;
      r <- sdk_h read ;;
      curr_t <- time_now ;;
      t <- getattr tmo ;;
      late <- py_gt (curr_t - old_t) t ;;
      if late
      then raise (mk_exn Laser_Exception [VStr msg])
      else poll_loop pre read tmo msg fuel' old_t (out_flag r)
  end.

End PollLoop.

(** ** Runs on the simulated links *)

(** [startup(1000, 2, 1500, 500, 100000)] on a fresh driver whose stage
    names resolve to the methods of the class, and the stage calls of that
    run on their own. *)
Definition stages_run (sc : Script) (fuel : nat) : Res Sim unit :=
  @startup_stages Sim (@private_ns Sim (sim_host sc) fuel) (after_assign sc).

Definition startup_run (sc : Script) (fuel : nat) : Res Sim unit :=
  @startup Sim (sim_host sc) (@private_ns Sim (sim_host sc) fuel)
    (VInt 1000) (VInt 2) (VInt 1500) (VInt 500) (VInt 100000) (constructed sc).

(** The same call on the class as written. *)
Definition startup_as_written (sc : Script) (fuel : nat) : Res Sim unit :=
  @startup Sim (sim_host sc) (@Laser_Driver_ns Sim (sim_host sc) fuel)
    (VInt 1000) (VInt 2) (VInt 1500) (VInt 500) (VInt 100000) (constructed sc).

(** One and two calls of [turn_off_laser] on a connected driver. *)
Definition off_once (sc : Script) : Res Sim unit :=
  @turn_off_laser Sim (sim_host sc) (connected sc).

Definition off_twice (sc : Script) : Res Sim unit :=
  @turn_off_laser Sim (sim_host sc) (world_of (off_once sc)).

Section Proofs.

Context {Env : Type} {host : Host Env}.

Local Abbreviation M := (M Env).

Ltac run :=
  cbv beta iota zeta delta
      [attrs env log world_of bind ret raise out_of_fuel try_except
       getattr setattr sdk_do sdk_h emit stderr_write time_now].

Ltac run_in H :=
  cbv beta iota zeta delta
      [attrs env log world_of bind ret raise out_of_fuel try_except
       getattr setattr sdk_do sdk_h emit stderr_write time_now] in H.

Ltac rew_lookups :=
  repeat match goal with
         | H : _ !! _ = _ |- _ => rewrite H
         | H : int_of _ = _ |- _ => rewrite H
         | H : num_of _ = _ |- _ => rewrite H
         end.

(** A symbolic run in the goal, fed by the lookups known in the context. *)
Ltac runs := run; repeat (progress (rew_lookups; cbn [int_of num_of]); run).

(** One step of a symbolic run recorded in hypothesis [H]: reduce, then
    split on the first test whose outcome is not known. *)
Ltac split_in H :=
  match type of H with
  | context [sdk ?c ?e] =>
      is_var e;
      let r := fresh "r" in
      let e' := fresh "e" in
      destruct (sdk c e) as [r e']; cbn [fst snd] in H
  | context [match ?x !! ?k with Some _ => _ | None => _ end] =>
      let E := fresh "Hlk" in destruct (x !! k) eqn:E
  | context [if ?b then _ else _] =>
      let E := fresh "Hif" in destruct b eqn:E
  end.

Ltac steps_in H :=
  repeat (run_in H; rewrite ?lookup_insert_eq in H; try split_in H).

(** *** Running a computation one step at a time *)

Section Steps.

Variables (a : gmap string pyval) (e : Env) (l : list event).

Lemma bind_bind {A B C} (m : M A) (f : A -> M B) (g : B -> M C) (w : World Env) :
  bind (bind m f) g w = bind m (fun x => bind (f x) g) w.
Proof. unfold bind. destruct (m w); reflexivity. Qed.

Lemma bind_ret {A B} (x : A) (k : A -> M B) (w : World Env) :
  bind (ret x) k w = k x w.
Proof. reflexivity. Qed.

Lemma bind_raise {A B} (x : exn) (k : A -> M B) (w : World Env) :
  bind (raise x) k w = Raise x w.
Proof. reflexivity. Qed.

Lemma bind_getattr {B} (name : string) (k : pyval -> M B) (v : pyval) :
  a !! name = Some v ->
  bind (getattr name) k (mk_world a e l) = k v (mk_world a e l).
Proof. intros H. unfold bind, getattr. cbn [attrs]. rewrite H. reflexivity. Qed.

Lemma bind_getattr_unbound {B} (name : string) (k : pyval -> M B) :
  a !! name = None ->
  bind (getattr name) k (mk_world a e l)
  = Raise (mk_exn AttributeError [VStr name]) (mk_world a e l).
Proof. intros H. unfold bind, getattr. cbn [attrs]. rewrite H. reflexivity. Qed.

Lemma bind_setattr {B} (name : string) (v : pyval) (k : unit -> M B) :
  bind (setattr name v) k (mk_world a e l) = k tt (mk_world (<[name := v]> a) e l).
Proof. reflexivity. Qed.

Lemma bind_sdk_do {B} (c : sdk_call) (k : sdk_reply -> M B) :
  bind (sdk_do c) k (mk_world a e l) =
  k (fst (sdk c e)) (mk_world a (snd (sdk c e)) (l ++ [EvSdk c (fst (sdk c e))])%list).
Proof. reflexivity. Qed.

Lemma bind_sdk_h {B} (f : pyval -> sdk_call) (k : sdk_reply -> M B) (h : pyval) :
  a !! "handle" = Some h ->
  bind (sdk_h f) k (mk_world a e l) =
  k (fst (sdk (f h) e))
    (mk_world a (snd (sdk (f h) e)) (l ++ [EvSdk (f h) (fst (sdk (f h) e))])%list).
Proof.
  intros H. unfold sdk_h. rewrite bind_bind, (bind_getattr _ _ _ H).
  apply bind_sdk_do.
Qed.

Lemma bind_stderr_write {B} (fmt : string) (args : list pyval) (k : unit -> M B) :
  bind (stderr_write fmt args) k (mk_world a e l) =
  k tt (mk_world a e (l ++ [EvStderr fmt args])%list).
Proof. reflexivity. Qed.

Lemma bind_time_now {B} (k : Q -> M B) :
  bind time_now k (mk_world a e l) = k (time_time e) (mk_world a e l).
Proof. reflexivity. Qed.

Lemma bind_sleep {B} (v : pyval) (d : Q) (k : unit -> M B) :
  num_of v = Some d -> Qle_bool 0 d = true ->
  bind (sleep v) k (mk_world a e l) =
  k tt (mk_world a (time_sleep d e) (l ++ [EvSleep d])%list).
Proof. intros H1 H2. unfold bind, sleep. rewrite H1, H2. reflexivity. Qed.

Lemma bind_zi_do {B} (c : zi_call) (k : pyval -> M B) (v : pyval) :
  fst (zi c e) = inr v ->
  bind (zi_do c) k (mk_world a e l) =
  k v (mk_world a (snd (zi c e)) (l ++ [EvZi c (inr v)])%list).
Proof. intros H. unfold bind, zi_do. cbv zeta. cbn [env attrs log]. rewrite H. reflexivity. Qed.

Lemma bind_poll_do {B} (duration timeout : pyval) (k : poll_data -> M B) (d : poll_data) :
  fst (zi_poll duration timeout e) = inr d ->
  bind (poll_do duration timeout) k (mk_world a e l) =
  k d (mk_world a (snd (zi_poll duration timeout e))
         (l ++ [EvPoll duration timeout (inr d)])%list).
Proof. intros H. unfold bind, poll_do. cbv zeta. cbn [env attrs log]. rewrite H. reflexivity. Qed.

Lemma bind_Ret {A B} (m : M A) (k : A -> M B) (w w' : World Env) (x : A) :
  m w = Ret x w' -> bind m k w = k x w'.
Proof. unfold bind. intros ->. reflexivity. Qed.

(** The last step of a sequence has no continuation; give it one. *)
Lemma bind_ret_r {A} (m : M A) (w : World Env) : m w = bind m ret w.
Proof. unfold bind, ret. destruct (m w); reflexivity. Qed.

End Steps.

Ltac world_red :=
  cbn [attrs env log qcl_slot_ptr pulse_rate_hz_ptr pulse_width_ns_ptr
       current_ma_ptr temp_c_ptr laser_mode_ptr pulse_mode_ptr vsrc_ptr].

Ltac lookup_tac :=
  first [ eassumption
        | apply lookup_insert_eq
        | rewrite !lookup_insert_ne by discriminate; eassumption ].

(** [sat r P]: the outcome [r] of a run satisfies [P].  Goals are put in
    this form so that the run can be advanced step by step. *)
Definition sat {A} (r : Res Env A) (P : Res Env A -> Prop) : Prop := P r.

Lemma sat_eq {A} (r r' : Res Env A) (P : Res Env A -> Prop) :
  r = r' -> sat r' P -> sat r P.
Proof. intros ->. exact id. Qed.

Ltac start r :=
  pattern r;
  lazymatch goal with |- ?P r => change (sat r P) end.

(** Name the reply and the new state of the SDK call just made. *)
Ltac name_reply :=
  lazymatch goal with
  | |- context [sdk ?c ?e] =>
      let r := fresh "r" in
      let e' := fresh "e" in
      destruct (sdk c e) as [r e'] eqn:?; cbn [fst snd]
  end.

(** One step of the run at the head of the goal. *)
Ltac step :=
  lazymatch goal with
  | |- sat (bind (bind ?m ?f) ?g ?w) ?P =>
      refine (sat_eq _ _ P (bind_bind m f g w) _)
  | |- sat (bind (ret ?x) ?k ?w) ?P =>
      refine (sat_eq _ _ P (bind_ret x k w) _); cbv beta
  | |- sat (bind (raise ?x) ?k ?w) ?P =>
      refine (sat_eq _ _ P (bind_raise x k w) _)
  | |- sat (bind (setattr ?n ?v) ?k (mk_world ?a ?e ?l)) ?P =>
      refine (sat_eq _ _ P (bind_setattr a e l n v k) _); cbv beta
  | |- sat (bind (sdk_do ?c) ?k (mk_world ?a ?e ?l)) ?P =>
      refine (sat_eq _ _ P (bind_sdk_do a e l c k) _); cbv beta; name_reply
  | |- sat (bind (stderr_write ?f ?args) ?k (mk_world ?a ?e ?l)) ?P =>
      refine (sat_eq _ _ P (bind_stderr_write a e l f args k) _); cbv beta
  | |- sat (bind time_now ?k (mk_world ?a ?e ?l)) ?P =>
      refine (sat_eq _ _ P (bind_time_now a e l k) _); cbv beta
  | |- sat (bind (sdk_h ?f) ?k (mk_world ?a ?e ?l)) ?P =>
      refine (sat_eq _ _ P (bind_sdk_h a e l f k _ _) _);
      [lookup_tac|]; cbv beta; name_reply
  | |- sat (bind (getattr ?n) ?k (mk_world ?a ?e ?l)) ?P =>
      refine (sat_eq _ _ P (bind_getattr a e l n k _ _) _);
      [lookup_tac|]; cbv beta
  | |- sat (bind (match int_of _ with _ => _ end) _ _) _ => progress cbn [int_of]
  | |- sat (bind (match num_of _ with _ => _ end) _ _) _ => progress cbn [num_of]
  | |- sat (?m _) _ =>
      lazymatch m with
      | bind _ _ => fail
      | ret _ => fail
      | raise _ => fail
      | (if _ then _ else _) => fail
      | _ => refine (sat_eq _ _ _ (bind_ret_r _ _) _)
      end
  end.

(** *** Shutdown *)

Lemma turn_off_laser_run (w : World Env) (h : pyval) :
  attrs w !! "handle" = Some h ->
  exists w', turn_off_laser w = Ret tt w' /\
    attrs w' = attrs w /\
    exists evs, log w' = (log w ++ evs)%list /\
      calls_of evs = off_calls h /\ stderr_of evs = ["Laser off"].
Proof.
  destruct w as [a e l]. cbn [attrs log]. intros Hh.
  unfold turn_off_laser. run. rewrite !Hh. run.
  eexists. split; [reflexivity|]. split; [reflexivity|].
  eexists. split.
  - rewrite <- !app_assoc. reflexivity.
  - split; reflexivity.
Qed.

Lemma turn_off_laser_unbound (w : World Env) :
  attrs w !! "handle" = None ->
  turn_off_laser w = Raise (mk_exn AttributeError [VStr "handle"]) w.
Proof.
  destruct w as [a e l]. cbn [attrs]. intros Hh.
  unfold turn_off_laser. run. rewrite !Hh. reflexivity.
Qed.

Lemma calls_of_app (l1 l2 : list event) :
  calls_of (l1 ++ l2) = (calls_of l1 ++ calls_of l2)%list.
Proof. apply omap_app. Qed.

(** C9 (as amended): a second [turn_off_laser] in succession returns
    normally, like the first, and issues the same five commands once more
    on the same handle, the one the first call disconnected. *)
Theorem turn_off_laser_twice (w : World Env) (h : pyval) :
  attrs w !! "handle" = Some h ->
  exists w1 w2,
    turn_off_laser w = Ret tt w1 /\
    turn_off_laser w1 = Ret tt w2 /\
    calls_of (log w1) = (calls_of (log w) ++ off_calls h)%list /\
    calls_of (log w2) = (calls_of (log w1) ++ off_calls h)%list /\
    attrs w2 !! "handle" = Some h.
Proof.
  intros Hh.
  destruct (turn_off_laser_run w h Hh) as (w1 & E1 & A1 & evs1 & L1 & C1 & _).
  assert (Hh1 : attrs w1 !! "handle" = Some h) by (rewrite A1; exact Hh).
  destruct (turn_off_laser_run w1 h Hh1) as (w2 & E2 & A2 & evs2 & L2 & C2 & _).
  exists w1, w2. repeat split; try assumption.
  - rewrite L1, calls_of_app, C1. reflexivity.
  - rewrite L2, calls_of_app, C2. reflexivity.
  - rewrite A2. exact Hh1.
Qed.

(** *** The failure policy of [startup] *)

Lemma startup_assign_run (wave waveunit current pulsewid pulserate : pyval) (w : World Env) :
  startup_assign wave waveunit current pulsewid pulserate w =
  Ret tt (mk_world
            (<["qcl_pulse_rate_hz" := pulserate]>
               (<["qcl_pulse_width_ns" := pulsewid]>
                  (<["qcl_current_ma_ma" := current]>
                     (<["qcl_wvlen_units" := waveunit]>
                        (<["qcl_wavelength" := wave]> (attrs w))))))
            (env w) (log w)).
Proof. destruct w. reflexivity. Qed.

(** The [except] branch: shutdown from the world the fault left, then a
    fresh exception of the fault's class. *)
Lemma startup_raise_run
  (ns : string -> option (M unit))
  (wave waveunit current pulsewid pulserate : pyval)
  (w w0 w1 w2 : World Env) (x : exn) :
  startup_assign wave waveunit current pulsewid pulserate w = Ret tt w0 ->
  startup_stages ns w0 = Raise x w1 ->
  turn_off_laser w1 = Ret tt w2 ->
  startup ns wave waveunit current pulsewid pulserate w
    = Raise (instantiate (exn_cls x)) w2.
Proof.
  intros Ha Hs Ho.
  unfold startup, bind at 1. rewrite Ha.
  unfold try_except. rewrite Hs.
  unfold startup_except, bind. rewrite Ho. reflexivity.
Qed.

(** What [raise e] raises is never the fault that was caught, once that
    fault carried arguments: it is a new instance without any, or the
    [TypeError] of a constructor that wants some. *)
Lemma instantiate_drops_args (x : exn) :
  exn_args x <> [] -> instantiate (exn_cls x) <> x.
Proof.
  destruct x as [c args]. cbn [exn_args exn_cls]. intros Hargs Heq.
  destruct c as [| | | | | | | | |name []]; cbn [instantiate] in Heq;
    first [ discriminate Heq | injection Heq as Heq; apply Hargs; symmetry; exact Heq ].
Qed.

(** C1: when the stage sequence raises a fault [x] and the driver holds a
    handle, [startup] runs [turn_off_laser] exactly once from the world the
    fault left (five commands on the handle, one "Laser off" line) and then
    raises what [raise e] makes of the class of [x]: a new instance built
    from no argument, or [TypeError] for a class that cannot be built so.
    What the caller gets is therefore not [x] whenever [x] carried a
    message.  The attributes are those the failed stage left: a handle, or
    a [laser_on], that an earlier stage set stays set after the shutdown. *)
Theorem startup_failure_policy
  (ns : string -> option (M unit))
  (wave waveunit current pulsewid pulserate : pyval)
  (w w0 w1 : World Env) (x : exn) (h : pyval) :
  startup_assign wave waveunit current pulsewid pulserate w = Ret tt w0 ->
  startup_stages ns w0 = Raise x w1 ->
  attrs w1 !! "handle" = Some h ->
  exists w2 evs,
    startup ns wave waveunit current pulsewid pulserate w
      = Raise (instantiate (exn_cls x)) w2 /\
    (exn_args x <> [] -> instantiate (exn_cls x) <> x) /\
    attrs w2 = attrs w1 /\
    log w2 = (log w1 ++ evs)%list /\
    calls_of evs = off_calls h /\
    stderr_of evs = ["Laser off"].
Proof.
  intros Ha Hs Hh.
  destruct (turn_off_laser_run w1 h Hh) as (w2 & E2 & A2 & evs & L2 & C2 & S2).
  exists w2, evs.
  split; [exact (startup_raise_run _ _ _ _ _ _ _ _ _ _ _ Ha Hs E2)|].
  split; [apply instantiate_drops_args|].
  repeat split; assumption.
Qed.

(** A sequence that completes is returned from as it is: no shutdown. *)
Lemma startup_success
  (ns : string -> option (M unit))
  (wave waveunit current pulsewid pulserate : pyval)
  (w w0 w1 : World Env) :
  startup_assign wave waveunit current pulsewid pulserate w = Ret tt w0 ->
  startup_stages ns w0 = Ret tt w1 ->
  startup ns wave waveunit current pulsewid pulserate w = Ret tt w1.
Proof.
  intros Ha Hs. unfold startup, bind at 1. rewrite Ha.
  unfold try_except. rewrite Hs. reflexivity.
Qed.

(** *** The stage calls of [startup] in the class as written *)

Lemma private_names_unbound (fuel : nat) :
  Laser_Driver_ns fuel (mangle "__connect_laser") = None.
Proof. reflexivity. Qed.

(** C2: in the class as written the first stage call of [startup] already
    fails: the name [_Laser_Driver__connect_laser] is bound nowhere.  Every
    invocation raises [AttributeError], and the only hardware commands it
    issues are those of [turn_off_laser]: none of the seven stages runs. *)
Theorem startup_runs_no_stage
  (fuel : nat) (wave waveunit current pulsewid pulserate : pyval) (w : World Env) :
  exists e w' evs,
    startup (Laser_Driver_ns fuel) wave waveunit current pulsewid pulserate w
      = Raise e w' /\
    exn_cls e = AttributeError /\
    log w' = (log w ++ evs)%list /\
    forallb is_off_call (calls_of evs) = true.
Proof.
  set (w0 := world_of (startup_assign wave waveunit current pulsewid pulserate w)).
  assert (Ha : startup_assign wave waveunit current pulsewid pulserate w = Ret tt w0).
  { unfold w0. rewrite startup_assign_run. reflexivity. }
  assert (Hl : log w0 = log w).
  { unfold w0. rewrite startup_assign_run. reflexivity. }
  assert (Hs : startup_stages (Laser_Driver_ns fuel) w0
               = Raise (mk_exn AttributeError [VStr (mangle "__connect_laser")]) w0).
  { unfold startup_stages, bind at 1, call_method.
    rewrite private_names_unbound. reflexivity. }
  destruct (attrs w0 !! "handle") as [h|] eqn:Hh.
  - destruct (turn_off_laser_run w0 h Hh) as (w2 & E & _ & evs & L & C & _).
    exists (instantiate AttributeError), w2, evs.
    split; [exact (startup_raise_run _ _ _ _ _ _ _ _ _ _ _ Ha Hs E)|].
    split; [reflexivity|]. split; [congruence|].
    rewrite C. reflexivity.
  - exists (mk_exn AttributeError [VStr "handle"]), w0, [].
    split.
    + unfold startup, bind at 1. rewrite Ha. unfold try_except. rewrite Hs.
      unfold startup_except, bind. rewrite (turn_off_laser_unbound w0 Hh). reflexivity.
    + split; [reflexivity|]. split; [rewrite app_nil_r; congruence|reflexivity].
Qed.

(** *** Verification after connecting *)

(** A verification read that comes back false: the handle is disconnected,
    then [SDK_Exception] is raised. *)
Lemma _call_sdk_bool_ptr_false
  (sdk_fn : pyval -> sdk_call) (success_msg error_msg : string)
  (w : World Env) (h : pyval) :
  attrs w !! "handle" = Some h ->
  out_flag (fst (sdk (sdk_fn h) (env w))) = false ->
  exists r r' e',
    _call_sdk_bool_ptr sdk_fn success_msg error_msg w
      = Raise (mk_exn SDK_Exception [VStr error_msg])
              (mk_world (attrs w) e'
                 (log w ++ [EvSdk (sdk_fn h) r; EvSdk (SidekickSDK_Disconnect h) r'])%list) /\
    out_flag r = false.
Proof.
  destruct w as [a e l]. cbn [attrs env log]. intros Hh Hf.
  unfold _call_sdk_bool_ptr. run. rewrite !Hh. run. rewrite Hf. run.
  rewrite Hh. run. rewrite <- app_assoc.
  do 3 eexists. split; [reflexivity | exact Hf].
Qed.


(** *** [set_qcl_params]: the timeout is never signalled *)

(** A computation none of whose runs raises [QCL_Exception]. *)
Definition quiet {A} (m : M A) : Prop :=
  forall w, raises QCL_Exception (m w) = false.

Lemma quiet_bind {A B} (m : M A) (k : A -> M B) :
  quiet m -> (forall a, quiet (k a)) -> quiet (bind m k).
Proof.
  intros Hm Hk w. unfold bind. specialize (Hm w).
  destruct (m w) as [a w'|e w'|w']; [apply Hk | exact Hm | reflexivity].
Qed.

Lemma quiet_ret {A} (a : A) : quiet (ret a).
Proof. intros w. reflexivity. Qed.

Lemma quiet_getattr (name : string) : quiet (getattr name).
Proof. intros w. unfold getattr. destruct (attrs w !! name); reflexivity. Qed.

Lemma quiet_sdk_do (c : sdk_call) : quiet (sdk_do c).
Proof. intros w. reflexivity. Qed.

Lemma quiet_sdk_h (f : pyval -> sdk_call) : quiet (sdk_h f).
Proof. apply quiet_bind; [apply quiet_getattr | intros; apply quiet_sdk_do]. Qed.

Lemma quiet_time_now : quiet time_now.
Proof. intros w. reflexivity. Qed.

Lemma quiet_sleep (v : pyval) : quiet (sleep v).
Proof.
  intros w. unfold sleep. destruct (num_of v); [|reflexivity].
  destruct (Qle_bool 0 q); reflexivity.
Qed.

Lemma quiet_py_gt (q : Q) (v : pyval) : quiet (py_gt q v).
Proof. intros w. unfold py_gt. destruct (num_of v); reflexivity. Qed.

Lemma quiet_c_int_arg (v : pyval) : quiet (c_int_arg v).
Proof. intros w. unfold c_int_arg. destruct (int_of v); reflexivity. Qed.

Lemma quiet_c_float_arg (v : pyval) : quiet (c_float_arg v).
Proof.
  intros w. unfold c_float_arg, c_float.
  destruct v; try reflexivity. destruct (float_of_int z); reflexivity.
Qed.

Ltac quiet_tac :=
  repeat first
    [ apply quiet_ret | apply quiet_getattr | apply quiet_sdk_do
    | apply quiet_sdk_h | apply quiet_time_now | apply quiet_sleep
    | apply quiet_py_gt | apply quiet_c_int_arg | apply quiet_c_float_arg
    | apply quiet_bind; [|intros ?]
    | match goal with |- quiet (if ?b then _ else _) => destruct b end ].

Lemma quiet_read_qcl_params : quiet _read_qcl_params.
Proof. unfold _read_qcl_params. quiet_tac. Qed.

Lemma quiet_update_qcl_params (p : qcl_params) : quiet (_update_qcl_params p).
Proof. unfold _update_qcl_params. quiet_tac. Qed.

Lemma quiet_qcl_differs (p : qcl_params) : quiet (qcl_differs p).
Proof. unfold qcl_differs. quiet_tac. Qed.

Lemma quiet_set_qcl_params_loop (fuel : nat) (old_t : Q) (p : qcl_params) :
  quiet (set_qcl_params_loop fuel old_t p).
Proof.
  revert p. induction fuel as [|fuel IH]; intros p; cbn [set_qcl_params_loop].
  - apply quiet_bind; [apply quiet_qcl_differs|]. intros [|]; [|apply quiet_ret].
    intros w. reflexivity.
  - apply quiet_bind; [apply quiet_qcl_differs|]. intros [|]; [|apply quiet_ret].
    apply quiet_bind; [apply quiet_read_qcl_params|]. intros p'.
    quiet_tac; apply IH.
Qed.

(** C3: whatever the link answers and however long it takes,
    [set_qcl_params] never ends by raising [QCL_Exception]: the branch
    taken once the elapsed time exceeds [qcl_set_params_timeout] builds the
    exception and drops it. *)
Theorem set_qcl_params_never_signals_timeout (fuel : nat) (w : World Env) :
  raises QCL_Exception (set_qcl_params fuel w) = false.
Proof.
  revert w. change (quiet (set_qcl_params fuel)). unfold set_qcl_params.
  apply quiet_bind; [apply quiet_read_qcl_params|]. intros p0.
  quiet_tac; first [apply quiet_update_qcl_params | apply quiet_set_qcl_params_loop].
Qed.

(** *** [set_qcl_params]: the commanded values *)

(** [startup] stores the requested current under [qcl_current_ma_ma]; the
    attributes [set_qcl_params] reads are left as they were. *)
Lemma startup_assign_other (wave waveunit current pulsewid pulserate : pyval)
  (w : World Env) (name : string) :
  name <> "qcl_wavelength" -> name <> "qcl_wvlen_units" ->
  name <> "qcl_current_ma_ma" -> name <> "qcl_pulse_width_ns" ->
  name <> "qcl_pulse_rate_hz" ->
  attrs (world_of (startup_assign wave waveunit current pulsewid pulserate w)) !! name
  = attrs w !! name.
Proof.
  intros. rewrite startup_assign_run. cbn [world_of attrs].
  rewrite !lookup_insert_ne by congruence. reflexivity.
Qed.

(** C4: on a driver whose attribute [qcl_temp_c] is unbound, as the
    constructor and [startup] leave it (they bind [qcl_temp]),
    [set_qcl_params] reads the parameter block once and then raises
    [AttributeError]: no parameter is commanded, nothing is polled, and the
    stage does not succeed. *)
Theorem set_qcl_params_unbound_attribute
  (fuel : nat) (w : World Env) (h rw rate : pyval) (z : Z) :
  attrs w !! "handle" = Some h ->
  attrs w !! "qcl_read_is_write" = Some rw ->
  attrs w !! "qcl_pulse_rate_hz" = Some rate ->
  int_of rate = Some z ->
  attrs w !! "qcl_temp_c" = None ->
  exists w' evs,
    set_qcl_params fuel w = Raise (mk_exn AttributeError [VStr "qcl_temp_c"]) w' /\
    attrs w' = attrs w /\
    log w' = (log w ++ evs)%list /\
    calls_of evs = [SidekickSDK_ReadWriteLaserQclParams h rw 0;
                    SidekickSDK_GetLaserQclParams h].
Proof.
  destruct w as [a e l]. cbn [attrs log]. intros Hh Hrw Hr Hz Ht.
  unfold set_qcl_params, _read_qcl_params, c_int_arg. runs.
  eexists _, _. split; [reflexivity|]. split; [reflexivity|].
  split; [rewrite <- app_assoc; reflexivity | reflexivity].
Qed.

Lemma py_ne_int_same (z : Z) : py_ne (inject_Z z) (VInt z) = false.
Proof.
  unfold py_ne. cbn [num_of].
  replace (Qeq_bool (inject_Z z) (inject_Z z)) with true; [reflexivity|].
  symmetry. apply Qeq_bool_iff. reflexivity.
Qed.

Lemma set_qcl_params_loop_exits
  (fuel : nat) (old_t : Q) (p : qcl_params) (w : World Env)
  (temp : pyval) (rate cur wid : Z) :
  attrs w !! "qcl_pulse_rate_hz" = Some (VInt rate) ->
  attrs w !! "qcl_temp_c" = Some temp ->
  attrs w !! "qcl_current_ma" = Some (VInt cur) ->
  attrs w !! "qcl_width_ns" = Some (VInt wid) ->
  pulse_rate_hz_ptr p = rate -> single_ne (temp_c_ptr p) temp = false ->
  current_ma_ptr p = cur -> pulse_width_ns_ptr p = wid ->
  set_qcl_params_loop fuel old_t p w = Ret tt w.
Proof.
  destruct w as [a e l]. cbn [attrs]. intros Hr Ht Hc Hw E1 E2 E3 E4.
  destruct fuel; cbn [set_qcl_params_loop]; unfold qcl_differs; run;
    rewrite Hr, E1, py_ne_int_same; run; rewrite Ht, E2; run;
    rewrite Hc, E3, py_ne_int_same; run; rewrite Hw, E4, py_ne_int_same; reflexivity.
Qed.

(** X10: With the four attributes bound to values their C cells hold
    unchanged (the three integers within the range of their cells, the
    temperature a number that [c_float] hands back equal to itself), the
    loop test compares the block just written with the attributes it was
    written from: the method returns after the write, without reading
    anything back, whatever the link holds. *)
Lemma set_qcl_params_no_readback
  (fuel : nat) (w : World Env) (h rw uw temp : pyval) (rate cur wid : Z) (s : single) :
  attrs w !! "handle" = Some h ->
  attrs w !! "qcl_read_is_write" = Some rw ->
  attrs w !! "qcl_update_is_write" = Some uw ->
  attrs w !! "qcl_pulse_rate_hz" = Some (VInt rate) ->
  attrs w !! "qcl_temp_c" = Some temp ->
  attrs w !! "qcl_current_ma" = Some (VInt cur) ->
  attrs w !! "qcl_width_ns" = Some (VInt wid) ->
  0 <= rate < 2 ^ 32 -> 0 <= cur < 2 ^ 16 -> 0 <= wid < 2 ^ 32 ->
  c_float temp = inr s -> single_ne s temp = false ->
  exists w' evs p,
    set_qcl_params fuel w = Ret tt w' /\
    log w' = (log w ++ evs)%list /\
    calls_of evs = [SidekickSDK_ReadWriteLaserQclParams h rw 0;
                    SidekickSDK_GetLaserQclParams h;
                    SidekickSDK_SetLaserQclParams h p;
                    SidekickSDK_ReadWriteLaserQclParams h uw 0] /\
    pulse_rate_hz_ptr p = rate /\ temp_c_ptr p = s /\
    current_ma_ptr p = cur /\ pulse_width_ns_ptr p = wid.
Proof.
  destruct w as [a e l]. cbn [attrs log].
  intros Hh Hrw Huw Hr Ht Hc Hw Rr Rc Rw Hs Hne.
  start (set_qcl_params fuel (mk_world a e l)).
  unfold set_qcl_params, _read_qcl_params, _update_qcl_params,
    c_int_arg, c_float_arg.
  repeat step. rewrite Hs. repeat step.
  unfold bind at 1.
  erewrite set_qcl_params_loop_exits; cbn [attrs]; try eassumption;
    cbn [pulse_rate_hz_ptr temp_c_ptr current_ma_ptr pulse_width_ns_ptr];
    unfold c_uint32, c_uint16; rewrite ?Z.mod_small by assumption; try reflexivity.
  unfold sat, ret. eexists _, _, _. split; [reflexivity|].
  cbn [log]. split; [rewrite <- !app_assoc; reflexivity|].
  split; [reflexivity|].
  cbn [pulse_rate_hz_ptr temp_c_ptr current_ma_ptr pulse_width_ns_ptr].
  unfold c_uint32, c_uint16. rewrite ?Z.mod_small by assumption.
  repeat apply conj; reflexivity.
Qed.

(** *** The lock-in helpers, stepwise *)

(** A computation that yields [x] and leaves the world as it is. *)
Definition pure_at {A} (m : M A) (w : World Env) (x : A) : Prop := m w = Ret x w.

Lemma bind_pure {A B} (m : M A) (k : A -> M B) (w : World Env) (x : A) :
  pure_at m w x -> bind m k w = k x w.
Proof. unfold pure_at, bind. intros ->. reflexivity. Qed.

Lemma pure_ret {A} (x : A) (w : World Env) : pure_at (ret x) w x.
Proof. reflexivity. Qed.

Lemma pure_getattr (name : string) (w : World Env) (v : pyval) :
  attrs w !! name = Some v -> pure_at (getattr name) w v.
Proof. unfold pure_at, getattr. intros ->. reflexivity. Qed.

Lemma pure_daq_method (name : string) (w : World Env) (id : Z) :
  attrs w !! "daq" = Some (VObj id) -> pure_at (daq_method name) w tt.
Proof.
  intros H. unfold daq_method. unfold pure_at.
  rewrite (bind_pure _ _ _ _ (pure_getattr _ _ _ H)). reflexivity.
Qed.

Lemma pure_dev_path (suffix : string) (w : World Env) (d : string) :
  attrs w !! "device" = Some (VStr d) -> pure_at (dev_path suffix) w (node d suffix).
Proof.
  intros H. unfold dev_path, pure_at.
  rewrite (bind_pure _ _ _ _ (pure_getattr _ _ _ H)). reflexivity.
Qed.

Lemma pure_chan_path (mid chan suffix : string) (w : World Env) (d c : string) :
  attrs w !! "device" = Some (VStr d) ->
  attrs w !! chan = Some (VStr c) ->
  pure_at (chan_path mid chan suffix) w (chan_node d mid c suffix).
Proof.
  intros H Hc. unfold chan_path, pure_at.
  rewrite (bind_pure _ _ _ _ (pure_getattr _ _ _ H)). cbn [str_add].
  rewrite bind_ret. rewrite (bind_pure _ _ _ _ (pure_getattr _ _ _ Hc)). reflexivity.
Qed.

Section LockinSteps.

Variables (a : gmap string pyval) (e : Env) (l : list event) (id : Z).
Hypothesis Hdaq : a !! "daq" = Some (VObj id).

Local Abbreviation w := (mk_world a e l).

Lemma bind_setInt {B} (path : M string) (value : M pyval) (k : unit -> M B)
  (p : string) (v r : pyval) :
  pure_at path w p -> pure_at value w v ->
  fst (zi (daq_setInt p v) e) = inr r ->
  bind (setInt path value) k w
  = k tt (mk_world a (snd (zi (daq_setInt p v) e))
            (l ++ [EvZi (daq_setInt p v) (inr r)])%list).
Proof.
  intros Hp Hv Hr. unfold setInt.
  rewrite bind_bind.
  rewrite (bind_pure _ _ _ _ (pure_daq_method "setInt" w id Hdaq)).
  rewrite bind_bind, (bind_pure _ _ _ _ Hp).
  rewrite bind_bind, (bind_pure _ _ _ _ Hv).
  rewrite bind_bind, (bind_zi_do _ _ _ _ _ _ Hr). apply bind_ret.
Qed.

Lemma bind_setDouble {B} (path : M string) (value : M pyval) (k : unit -> M B)
  (p : string) (v r : pyval) :
  pure_at path w p -> pure_at value w v ->
  fst (zi (daq_setDouble p v) e) = inr r ->
  bind (setDouble path value) k w
  = k tt (mk_world a (snd (zi (daq_setDouble p v) e))
            (l ++ [EvZi (daq_setDouble p v) (inr r)])%list).
Proof.
  intros Hp Hv Hr. unfold setDouble.
  rewrite bind_bind.
  rewrite (bind_pure _ _ _ _ (pure_daq_method "setDouble" w id Hdaq)).
  rewrite bind_bind, (bind_pure _ _ _ _ Hp).
  rewrite bind_bind, (bind_pure _ _ _ _ Hv).
  rewrite bind_bind, (bind_zi_do _ _ _ _ _ _ Hr). apply bind_ret.
Qed.

Lemma bind_getByte {B} (path : M string) (k : pyval -> M B) (p : string) (r : pyval) :
  pure_at path w p ->
  fst (zi (daq_getByte p) e) = inr r ->
  bind (getByte path) k w
  = k r (mk_world a (snd (zi (daq_getByte p) e))
           (l ++ [EvZi (daq_getByte p) (inr r)])%list).
Proof.
  intros Hp Hr. unfold getByte.
  rewrite bind_bind.
  rewrite (bind_pure _ _ _ _ (pure_daq_method "getByte" w id Hdaq)).
  rewrite bind_bind, (bind_pure _ _ _ _ Hp).
  apply bind_zi_do. exact Hr.
Qed.

Lemma bind_getInt {B} (path : M string) (k : pyval -> M B) (p : string) (r : pyval) :
  pure_at path w p ->
  fst (zi (daq_getInt p) e) = inr r ->
  bind (getInt path) k w
  = k r (mk_world a (snd (zi (daq_getInt p) e))
           (l ++ [EvZi (daq_getInt p) (inr r)])%list).
Proof.
  intros Hp Hr. unfold getInt.
  rewrite bind_bind.
  rewrite (bind_pure _ _ _ _ (pure_daq_method "getInt" w id Hdaq)).
  rewrite bind_bind, (bind_pure _ _ _ _ Hp).
  apply bind_zi_do. exact Hr.
Qed.

Lemma bind_unsubscribe {B} (path : string) (k : unit -> M B) (r : pyval) :
  fst (zi (daq_unsubscribe path) e) = inr r ->
  bind (unsubscribe path) k w
  = k tt (mk_world a (snd (zi (daq_unsubscribe path) e))
            (l ++ [EvZi (daq_unsubscribe path) (inr r)])%list).
Proof.
  intros Hr. unfold unsubscribe.
  rewrite bind_bind.
  rewrite (bind_pure _ _ _ _ (pure_daq_method "unsubscribe" w id Hdaq)).
  rewrite bind_bind, (bind_zi_do _ _ _ _ _ _ Hr). apply bind_ret.
Qed.

Lemma bind_sync {B} (k : unit -> M B) (r : pyval) :
  fst (zi daq_sync e) = inr r ->
  bind sync k w
  = k tt (mk_world a (snd (zi daq_sync e)) (l ++ [EvZi daq_sync (inr r)])%list).
Proof.
  intros Hr. unfold sync.
  rewrite bind_bind.
  rewrite (bind_pure _ _ _ _ (pure_daq_method "sync" w id Hdaq)).
  rewrite bind_bind, (bind_zi_do _ _ _ _ _ _ Hr). apply bind_ret.
Qed.

End LockinSteps.

Ltac pure_tac :=
  first [ apply pure_ret
        | apply pure_getattr; cbn [attrs]; lookup_tac
        | eapply pure_dev_path; cbn [attrs]; lookup_tac
        | eapply pure_chan_path; cbn [attrs]; lookup_tac ].

Ltac forget_env :=
  lazymatch goal with
  | |- context [snd (zi ?c ?e)] =>
      let e' := fresh "e" in
      generalize (snd (zi c e)); intros e'
  | |- context [snd (zi_poll ?x ?y ?e)] =>
      let e' := fresh "e" in
      generalize (snd (zi_poll x y e)); intros e'
  end.

(** One step of a run whose head is a call on [self.daq].  [reply c e k]
    hands the proof of the link's answer to call [c] in state [e] to [k]. *)
Ltac zi_step Hdaq reply :=
  lazymatch goal with
  | |- sat (bind (setInt ?path ?value) ?k (mk_world ?a ?e ?l)) ?P =>
      let Hp := fresh "Hp" in
      let Hv := fresh "Hv" in
      eassert (Hp : pure_at path (mk_world a e l) _) by pure_tac;
      eassert (Hv : pure_at value (mk_world a e l) _) by pure_tac;
      lazymatch type of Hp with
      | pure_at _ _ ?p =>
          lazymatch type of Hv with
          | pure_at _ _ ?v =>
              reply (daq_setInt p v) e
                ltac:(fun Hr =>
                  refine (sat_eq _ _ P (bind_setInt a e l _ Hdaq path value k p v _ Hp Hv Hr) _))
          end
      end;
      clear Hp Hv; cbv beta; forget_env
  | |- sat (bind (setDouble ?path ?value) ?k (mk_world ?a ?e ?l)) ?P =>
      let Hp := fresh "Hp" in
      let Hv := fresh "Hv" in
      eassert (Hp : pure_at path (mk_world a e l) _) by pure_tac;
      eassert (Hv : pure_at value (mk_world a e l) _) by pure_tac;
      lazymatch type of Hp with
      | pure_at _ _ ?p =>
          lazymatch type of Hv with
          | pure_at _ _ ?v =>
              reply (daq_setDouble p v) e
                ltac:(fun Hr =>
                  refine (sat_eq _ _ P (bind_setDouble a e l _ Hdaq path value k p v _ Hp Hv Hr) _))
          end
      end;
      clear Hp Hv; cbv beta; forget_env
  | |- sat (bind (getByte ?path) ?k (mk_world ?a ?e ?l)) ?P =>
      let Hp := fresh "Hp" in
      eassert (Hp : pure_at path (mk_world a e l) _) by pure_tac;
      lazymatch type of Hp with
      | pure_at _ _ ?p =>
          reply (daq_getByte p) e
            ltac:(fun Hr =>
              refine (sat_eq _ _ P (bind_getByte a e l _ Hdaq path k p _ Hp Hr) _))
      end;
      clear Hp; cbv beta; forget_env
  | |- sat (bind (unsubscribe ?path) ?k (mk_world ?a ?e ?l)) ?P =>
      reply (daq_unsubscribe path) e
        ltac:(fun Hr => refine (sat_eq _ _ P (bind_unsubscribe a e l _ Hdaq path k _ Hr) _));
      cbv beta; forget_env
  | |- sat (bind sync ?k (mk_world ?a ?e ?l)) ?P =>
      reply daq_sync e
        ltac:(fun Hr => refine (sat_eq _ _ P (bind_sync a e l _ Hdaq k _ Hr) _));
      cbv beta; forget_env
  | |- sat (bind (zi_do ?c) ?k (mk_world ?a ?e ?l)) ?P =>
      reply c e
        ltac:(fun Hr => refine (sat_eq _ _ P (bind_zi_do a e l c k _ Hr) _));
      cbv beta; forget_env
  | |- sat (bind (daq_method ?n) ?k (mk_world ?a ?e ?l)) ?P =>
      refine (sat_eq _ _ P (bind_pure _ k _ _ (pure_daq_method n (mk_world a e l) _ Hdaq)) _);
      cbv beta
  | |- sat (bind (chan_path ?m ?ch ?sfx) ?k (mk_world ?a ?e ?l)) ?P =>
      let Hp := fresh "Hp" in
      eassert (Hp : pure_at (chan_path m ch sfx) (mk_world a e l) _) by pure_tac;
      refine (sat_eq _ _ P (bind_pure _ k _ _ Hp) _); clear Hp; cbv beta
  | |- sat (bind (dev_path ?sfx) ?k (mk_world ?a ?e ?l)) ?P =>
      let Hp := fresh "Hp" in
      eassert (Hp : pure_at (dev_path sfx) (mk_world a e l) _) by pure_tac;
      refine (sat_eq _ _ P (bind_pure _ k _ _ Hp) _); clear Hp; cbv beta
  end.

(** *** [initialize_lockin] on a device of an unknown family *)

(** The family branch does nothing for a device type of none of the three
    families: no command, no fault. *)
Lemma family_config_unknown (devtype : string) (w : World Env) :
  unknown_family devtype = true ->
  family_config (VStr devtype) w = Ret tt w.
Proof.
  unfold unknown_family. intros H.
  apply andb_prop in H as [H H3]. apply andb_prop in H as [H1 H2].
  apply negb_true_iff in H1, H2, H3.
  unfold family_config, py_in, bind, ret. rewrite H1, H2, H3. reflexivity.
Qed.

Section UnknownFamily.

Variables (d in_c demod_c osc_c devtype options : string).
Variables (demod_rate time_constant osc_freq : pyval) (tc : Q).

(** The detector link answers every call, and reports [devtype] and
    [options] as the device's type and options. *)
Hypothesis zi_answers : forall c e, exists v, fst (zi c e) = inr v.
Hypothesis zi_devtype :
  forall e, fst (zi (daq_getByte (node d "/features/devtype")) e) = inr (VStr devtype).
Hypothesis zi_options :
  forall e, fst (zi (daq_getByte (node d "/features/options")) e) = inr (VStr options).

(** The reply of the detector link to call [c] in state [e]. *)
Ltac zi_reply c e k :=
  first
    [ let H := constr:(zi_devtype e : fst (zi c e) = inr _) in k H
    | let H := constr:(zi_options e : fst (zi c e) = inr _) in k H
    | let v := fresh "v" in
      let Hv := fresh "Hv" in
      destruct (zi_answers c e) as [v Hv]; k Hv ].

Lemma bind_family_config_unknown {B} (k : unit -> M B) (w : World Env) :
  unknown_family devtype = true ->
  bind (family_config (VStr devtype)) k w = k tt w.
Proof. intros H. unfold bind. rewrite family_config_unknown by exact H. reflexivity. Qed.

(** C8 (as amended): on a device whose type names none of UHF, HF2 and MF,
    [initialize_lockin] sends no family-specific command and raises no
    fault: it sends the common configuration and returns. *)
Theorem initialize_lockin_unknown_family (w : World Env) (id : Z) :
  attrs w !! "daq" = Some (VObj id) ->
  attrs w !! "device" = Some (VStr d) ->
  attrs w !! "lockin_in_c" = Some (VStr in_c) ->
  attrs w !! "lockin_demod_c" = Some (VStr demod_c) ->
  attrs w !! "lockin_osc_c" = Some (VStr osc_c) ->
  attrs w !! "demod_rate" = Some demod_rate ->
  attrs w !! "lockin_time_constant" = Some time_constant ->
  attrs w !! "lockin_osc_freq" = Some osc_freq ->
  num_of time_constant = Some tc ->
  Qle_bool 0 (10 * tc) = true ->
  unknown_family devtype = true ->
  str_contains "MF" options = false ->
  exists w' evs,
    initialize_lockin w = Ret tt w' /\
    log w' = (log w ++ evs)%list /\
    zi_calls_of evs = common_config d in_c demod_c osc_c demod_rate time_constant osc_freq.
Proof.
  destruct w as [a e l]. cbn [attrs log].
  intros Hdaq Hdev Hin Hdem Hosc Hrate Htc Hfreq Hnum Hpos Hfam Hopt.
  assert (Huhf : str_contains "UHF" devtype = false).
  { unfold unknown_family in Hfam. apply andb_prop in Hfam as [Hf _].
    apply andb_prop in Hf as [Hf _]. apply negb_true_iff in Hf. exact Hf. }
  start (initialize_lockin (mk_world a e l)).
  unfold initialize_lockin.
  repeat first
    [ step | zi_step Hdaq zi_reply
    | lazymatch goal with
      | |- sat (bind (family_config (VStr devtype)) ?k ?w) ?P =>
          refine (sat_eq _ _ P (bind_family_config_unknown k w Hfam) _)
      | |- sat (bind (py_in _ (VStr _)) _ _) _ => unfold py_in at 1
      | |- sat (bind (if str_contains "UHF" devtype then _ else _) _ _) _ =>
          rewrite Huhf
      | |- sat (bind (if str_contains "MF" options then _ else _) _ _) _ =>
          rewrite Hopt
      | |- sat (bind (match num_of time_constant with _ => _ end) _ _) _ =>
          rewrite Hnum
      | |- sat (bind (sleep (VFloat ?q)) ?k (mk_world ?a ?e ?l)) ?P =>
          refine (sat_eq _ _ P (bind_sleep a e l (VFloat q) q k eq_refl Hpos) _)
      end ].
  unfold sat, ret. eexists _, _. split; [reflexivity|].
  cbn [log]. split.
  - rewrite <- !app_assoc. reflexivity.
  - reflexivity.
Qed.

End UnknownFamily.

(** *** [_collect_data] and the sample node *)

Section CollectData.

Variables (d c : string) (len tmo : pyval) (poll : poll_data) (id : Z).

(** The detector link answers every call; the poll returns [poll]. *)
Hypothesis zi_answers : forall c e, exists v, fst (zi c e) = inr v.
Hypothesis zi_polled : forall e, fst (zi_poll len tmo e) = inr poll.

Variables (a : gmap string pyval).
Hypothesis Hdaq : a !! "daq" = Some (VObj id).
Hypothesis Hdev : a !! "device" = Some (VStr d).
Hypothesis Hc : a !! "lockin_demod_c" = Some (VStr c).
Hypothesis Hlen : a !! "lockin_poll_length" = Some len.
Hypothesis Htmo : a !! "poll_timeout" = Some tmo.

Ltac zi_any c e k :=
  let v := fresh "v" in
  let Hv := fresh "Hv" in
  destruct (zi_answers c e) as [v Hv]; k Hv.

(** The ladder of [if]s leaves [data] and [time_axis] unbound when the
    device and its ['demods'] entry are present but the channel has no
    ['sample'] entry. *)
Lemma bind_locals_missing_sample (w : World Env)
  (node : gmap string (gmap string (gmap string sample)))
  (demods : gmap string (gmap string sample)) (chan : gmap string sample) (n : Z) :
  attrs w = a ->
  py_int c = Some n ->
  poll !! d = Some node ->
  node !! "demods" = Some demods ->
  n <= Z.of_nat (size demods) ->
  demods !! c = Some chan ->
  chan !! "sample" = None ->
  pure_at (bind_locals poll) w None.
Proof.
  intros Ha Hn Hp Hnode Hsize Hchan Hs.
  assert (Hdev' : attrs w !! "device" = Some (VStr d)) by (rewrite Ha; exact Hdev).
  assert (Hc' : attrs w !! "lockin_demod_c" = Some (VStr c)) by (rewrite Ha; exact Hc).
  unfold pure_at, bind_locals.
  rewrite (bind_pure _ _ _ _ (pure_getattr _ _ _ Hdev')).
  cbn [lookup_key]. rewrite Hp, Hnode.
  rewrite (bind_pure _ _ _ _ (pure_getattr _ _ _ Hc')).
  cbn [int_conv]. rewrite Hn, bind_ret.
  replace (Z.of_nat (size demods) >=? n) with true
    by (symmetry; apply Z.geb_le; exact Hsize).
  rewrite (bind_pure _ _ _ _ (pure_getattr _ _ _ Hc')).
  cbn [lookup_key]. rewrite Hchan, Hs. reflexivity.
Qed.

(** The [else] branch: with the device absent from the poll response both
    locals are bound to the empty list. *)
Lemma bind_locals_missing_device (w : World Env) :
  attrs w = a ->
  poll !! d = None ->
  pure_at (bind_locals poll) w (Some ([], [])).
Proof.
  intros Ha Hp.
  assert (Hdev' : attrs w !! "device" = Some (VStr d)) by (rewrite Ha; exact Hdev).
  unfold pure_at, bind_locals.
  rewrite (bind_pure _ _ _ _ (pure_getattr _ _ _ Hdev')).
  cbn [lookup_key]. rewrite Hp. reflexivity.
Qed.

(** C7: a poll response that holds the device, its ['demods'] entry and the
    channel, but no ['sample'] entry under the channel, makes
    [_collect_data] raise [UnboundLocalError] at [data_list.append(data)]:
    nothing is appended to either list. *)
Theorem collect_data_missing_sample
  (e : Env) (l : list event) (data_list time_list : list (list Q))
  (node : gmap string (gmap string (gmap string sample)))
  (demods : gmap string (gmap string sample)) (chan : gmap string sample) (n : Z) :
  py_int c = Some n ->
  poll !! d = Some node ->
  node !! "demods" = Some demods ->
  n <= Z.of_nat (size demods) ->
  demods !! c = Some chan ->
  chan !! "sample" = None ->
  exists w',
    _collect_data data_list time_list (mk_world a e l)
    = Raise (mk_exn UnboundLocalError [VStr "data"]) w'.
Proof.
  intros Hn Hp Hnode Hsize Hchan Hs.
  start (_collect_data data_list time_list (mk_world a e l)).
  unfold _collect_data.
  repeat first
    [ step | zi_step Hdaq zi_any
    | lazymatch goal with
      | |- sat (bind (poll_do ?x ?y) ?k (mk_world ?a ?e ?l)) ?P =>
          refine (sat_eq _ _ P (bind_poll_do a e l x y k _ (zi_polled e)) _);
          cbv beta; forget_env
      | |- sat (bind (bind_locals poll) ?k ?w) ?P =>
          refine (sat_eq _ _ P (bind_pure _ k w _
                    (bind_locals_missing_sample w node demods chan n eq_refl
                       Hn Hp Hnode Hsize Hchan Hs)) _);
          cbv beta
      end ].
  unfold sat, raise. eexists. reflexivity.
Qed.

End CollectData.

(** *** [turn_on_laser]: what any run does *)

Lemma firing_after_app (cur : option bool) (l1 l2 : list event) :
  firing_after cur (l1 ++ l2) = firing_after (firing_after cur l1) l2.
Proof. apply fold_left_app. Qed.

Lemma count_on_app (l1 l2 : list event) :
  count_on (l1 ++ l2) = (count_on l1 + count_on l2)%nat.
Proof. unfold count_on. rewrite List.filter_app, length_app. reflexivity. Qed.

(** Rules for runs about which nothing is assumed: every step that can
    raise splits the proof. *)
Section AnyRun.

Variables (a : gmap string pyval) (e : Env) (l : list event).

Lemma sat_bind {A B} (m : M A) (k : A -> M B) (w : World Env)
  (S : Res Env A -> Prop) (P : Res Env B -> Prop) :
  sat (m w) S ->
  (forall r, S r ->
     match r with
     | Ret x w' => sat (k x w') P
     | Raise x w' => P (Raise x w')
     | OutOfFuel w' => P (OutOfFuel w')
     end) ->
  sat (bind m k w) P.
Proof.
  unfold sat, bind. intros Hm Hk. specialize (Hk _ Hm).
  destruct (m w); exact Hk.
Qed.

Lemma sat_getattr {B} (name : string) (k : pyval -> M B) (P : Res Env B -> Prop) :
  (forall v, a !! name = Some v -> sat (k v (mk_world a e l)) P) ->
  (forall x, builtin_error x -> P (Raise x (mk_world a e l))) ->
  sat (bind (getattr name) k (mk_world a e l)) P.
Proof.
  intros Hs Hr. unfold sat, bind, getattr. cbn [attrs].
  destruct (a !! name) as [v|]; [apply Hs; reflexivity | apply Hr; left; reflexivity].
Qed.

Lemma sat_sdk_h {B} (f : pyval -> sdk_call) (k : sdk_reply -> M B) (P : Res Env B -> Prop) :
  (forall h r e', a !! "handle" = Some h ->
     sat (k r (mk_world a e' (l ++ [EvSdk (f h) r])%list)) P) ->
  (forall x, builtin_error x -> P (Raise x (mk_world a e l))) ->
  sat (bind (sdk_h f) k (mk_world a e l)) P.
Proof.
  intros Hs Hr. unfold sdk_h.
  refine (sat_eq _ _ P (bind_bind _ _ _ _) _).
  apply sat_getattr; [|exact Hr].
  intros h Hh. refine (sat_eq _ _ P (bind_sdk_do _ _ _ _ _) _).
  apply Hs. exact Hh.
Qed.

Lemma sat_sleep {B} (v : pyval) (k : unit -> M B) (P : Res Env B -> Prop) :
  (forall d e', sat (k tt (mk_world a e' (l ++ [EvSleep d])%list)) P) ->
  (forall x, builtin_error x -> P (Raise x (mk_world a e l))) ->
  sat (bind (sleep v) k (mk_world a e l)) P.
Proof.
  intros Hs Hr. unfold sat, bind, sleep.
  destruct (num_of v) as [d|]; [|apply Hr; right; left; reflexivity].
  destruct (Qle_bool 0 d); [apply Hs | apply Hr; right; right; reflexivity].
Qed.

Lemma sat_py_gt {B} (q : Q) (v : pyval) (k : bool -> M B) (P : Res Env B -> Prop) :
  (forall b, sat (k b (mk_world a e l)) P) ->
  (forall x, builtin_error x -> P (Raise x (mk_world a e l))) ->
  sat (bind (py_gt q v) k (mk_world a e l)) P.
Proof.
  intros Hs Hr. unfold sat, bind, py_gt.
  destruct (num_of v); [apply Hs | apply Hr; right; left; reflexivity].
Qed.

Lemma sat_py_lt {B} (z : Z) (v : pyval) (k : bool -> M B) (P : Res Env B -> Prop) :
  (forall t, num_of v = Some t ->
     sat (k (negb (Qle_bool t (inject_Z z))) (mk_world a e l)) P) ->
  (forall x, builtin_error x -> P (Raise x (mk_world a e l))) ->
  sat (bind (py_lt z v) k (mk_world a e l)) P.
Proof.
  intros Hs Hr. unfold sat, bind, py_lt.
  destruct (num_of v); [apply Hs; reflexivity | apply Hr; right; left; reflexivity].
Qed.

End AnyRun.

(** One step of a run about which nothing is assumed. *)
Ltac any_step :=
  lazymatch goal with
  | |- sat (bind (bind ?m ?f) ?g ?w) ?P =>
      refine (sat_eq _ _ P (bind_bind m f g w) _)
  | |- sat (bind (ret ?x) ?k ?w) ?P =>
      refine (sat_eq _ _ P (bind_ret x k w) _); cbv beta
  | |- sat (bind (setattr ?n ?v) ?k (mk_world ?a ?e ?l)) ?P =>
      refine (sat_eq _ _ P (bind_setattr a e l n v k) _); cbv beta
  | |- sat (bind (stderr_write ?f ?args) ?k (mk_world ?a ?e ?l)) ?P =>
      refine (sat_eq _ _ P (bind_stderr_write a e l f args k) _); cbv beta
  | |- sat (bind time_now ?k (mk_world ?a ?e ?l)) ?P =>
      refine (sat_eq _ _ P (bind_time_now a e l k) _); cbv beta
  | |- sat (bind (getattr ?n) ?k (mk_world ?a ?e ?l)) ?P =>
      apply sat_getattr; [intros ? ? | intros ? ?]
  | |- sat (bind (sdk_h ?f) ?k (mk_world ?a ?e ?l)) ?P =>
      apply sat_sdk_h; [intros ? ? ? ? | intros ? ?]
  | |- sat (bind (sleep ?v) ?k (mk_world ?a ?e ?l)) ?P =>
      apply sat_sleep; [intros ? ? | intros ? ?]
  | |- sat (bind (py_gt ?q ?v) ?k (mk_world ?a ?e ?l)) ?P =>
      apply sat_py_gt; [intros ? | intros ? ?]
  end.

Lemma sat_weaken {A} (r : Res Env A) (S P : Res Env A -> Prop) :
  sat r S -> (forall r', S r' -> P r') -> sat r P.
Proof. unfold sat. intros Hs H. apply H, Hs. Qed.

(** [l ++ ... = l ++ ?E]: put the left side in the shape of the right. *)
Ltac log_eq :=
  lazymatch goal with
  | |- _ = ?rhs =>
      let R := fresh "R" in
      set (R := rhs); rewrite <- ?app_assoc; subst R; reflexivity
  end.

(** A run that stopped in world [mk_world a e' (l ++ E)]. *)
Ltac stopped :=
  cbv beta; unfold sat, ret, out_of_fuel; cbn [world_of];
  eexists _, _; split; [f_equal; first [log_eq | symmetry; apply app_nil_r] |].

(** The inner loop of [turn_on_laser]: it leaves the attributes alone,
    commands nothing, and the flag it yields is the one last read. *)
Lemma emitting_loop_any (fuel : nat) (old_t : Q) (em : bool)
  (a : gmap string pyval) (e : Env) (l : list event) :
  sat (emitting_loop fuel old_t em (mk_world a e l))
    (fun r => exists e' E,
       world_of r = mk_world a e' (l ++ E)%list /\
       count_on E = 0%nat /\
       match r with
       | Ret (em', tf) _ =>
           firing_after (Some em) E = Some em' /\ (tf = false -> em' = true)
       | Raise x _ => builtin_error x
       | OutOfFuel _ => True
       end).
Proof.
  revert em e l. induction fuel as [|fuel IH]; intros em e l;
    cbn [emitting_loop]; destruct em.
  - stopped. repeat split; reflexivity.
  - stopped. repeat split; reflexivity.
  - stopped. repeat split; reflexivity.
  - repeat any_step; try (stopped; split; [reflexivity | assumption]).
    destruct b.
    + stopped. repeat split; try reflexivity; discriminate.
    + eapply sat_weaken; [apply IH|]. cbv beta.
      intros r' (e2 & E2 & Hw & Hc & Hr).
      eexists _, _.
      split; [rewrite Hw; f_equal; log_eq|].
      split; [rewrite !count_on_app, Hc; reflexivity|].
      destruct r' as [[em' tf] w'| |]; [|exact Hr|exact I].
      rewrite !firing_after_app. exact Hr.
Qed.

(** Once [laser_on] is true the outer loop is left at its next test. *)
Lemma turn_on_loop_exit (fuel n : nat) (att : Z) (em : bool)
  (a : gmap string pyval) (e : Env) (l : list event) (v : pyval) :
  a !! "laser_on" = Some v -> truthy v = true ->
  turn_on_loop fuel n att em (mk_world a e l) = Ret em (mk_world a e l).
Proof.
  intros Hv Ht.
  destruct fuel; cbn [turn_on_loop];
    rewrite (bind_getattr a e l _ _ _ Hv), Ht, bind_ret; reflexivity.
Qed.

Lemma py_lt_true (z mx : Z) (t : Q) :
  num_of (VInt mx) = Some t ->
  negb (Qle_bool t (inject_Z z)) = true -> z < mx.
Proof.
  cbn [num_of]. intros [= <-] H. apply negb_true_iff in H.
  destruct (Z.lt_ge_cases z mx) as [Hlt|Hge]; [exact Hlt|].
  exfalso. apply (proj2 (not_true_iff_false _) H).
  apply Qle_bool_iff. rewrite <- Zle_Qle. exact Hge.
Qed.

Lemma firing_after_one (cur : option bool) (ev : event) :
  firing_after cur [ev] = fire_step cur ev.
Proof. reflexivity. Qed.

(** Compute [firing_after] over the events that are known. *)
Ltac fire_simpl :=
  rewrite ?firing_after_app, ?firing_after_one; cbn [fire_step].

Ltac stopped3 :=
  cbv beta; unfold sat, ret, out_of_fuel; cbn [world_of];
  eexists _, _, _; split; [f_equal; first [log_eq | symmetry; apply app_nil_r] |].

(** The outer loop of [turn_on_laser].  [cur] is the emission status last
    read before the loop is entered. *)
Lemma turn_on_loop_any (fuel n : nat) (a : gmap string pyval) :
  forall (att : Z) (em : bool) (cur : option bool) (e : Env) (l : list event),
  (em = true <-> cur = Some true) ->
  sat (turn_on_loop fuel n att em (mk_world a e l))
    (fun r => exists a' e' E,
       world_of r = mk_world a' e' (l ++ E)%list /\
       (a' = a \/ a' = <["laser_on" := VBool true]> a /\ firing_after cur E = Some true) /\
       (forall mx, a !! "laser_on_attempts" = Some (VInt mx) ->
          Z.of_nat (count_on E) <= Z.max 0 (mx - att)) /\
       match r with
       | Ret em' _ => em' = true <-> firing_after cur E = Some true
       | Raise x _ => builtin_error x
       | OutOfFuel _ => True
       end).
Proof.
  induction fuel as [|fuel IH]; intros att em cur e l Hem; cbn [turn_on_loop].
  - apply sat_getattr; [intros lo Hlo | intros x Hx].
    2:{ stopped3. split; [left; reflexivity|]. split; [intros; cbn; lia | first [assumption | exact I]]. }
    destruct (truthy lo) eqn:Hlo'.
    + repeat any_step. stopped3.
      split; [left; reflexivity|]. split; [intros; cbn; lia | exact Hem].
    + any_step. apply sat_getattr; [intros mxv Hmx | intros x Hx].
      2:{ stopped3. split; [left; reflexivity|]. split; [intros; cbn; lia | first [assumption | exact I]]. }
      apply sat_py_lt; [intros t Ht | intros x Hx].
      2:{ stopped3. split; [left; reflexivity|]. split; [intros; cbn; lia | first [assumption | exact I]]. }
      destruct (negb (Qle_bool t (inject_Z att))).
      * stopped3. split; [left; reflexivity|]. split; [intros; cbn; lia | exact I].
      * stopped3. split; [left; reflexivity|]. split; [intros; cbn; lia | exact Hem].
  - apply sat_getattr; [intros lo Hlo | intros x Hx].
    2:{ stopped3. split; [left; reflexivity|]. split; [intros; cbn; lia | first [assumption | exact I]]. }
    destruct (truthy lo) eqn:Hlo'.
    { repeat any_step. stopped3.
      split; [left; reflexivity|]. split; [intros; cbn; lia | exact Hem]. }
    any_step. apply sat_getattr; [intros mxv Hmx | intros x Hx].
    2:{ stopped3. split; [left; reflexivity|]. split; [intros; cbn; lia | first [assumption | exact I]]. }
    apply sat_py_lt; [intros t Ht | intros x Hx].
    2:{ stopped3. split; [left; reflexivity|]. split; [intros; cbn; lia | first [assumption | exact I]]. }
    destruct (negb (Qle_bool t (inject_Z att))) eqn:Hgo.
    2:{ stopped3. split; [left; reflexivity|]. split; [intros; cbn; lia | exact Hem]. }
    assert (Hlt : forall mx, a !! "laser_on_attempts" = Some (VInt mx) -> att < mx).
    { intros mx Hmx'. rewrite Hmx in Hmx'. injection Hmx' as ->.
      eapply py_lt_true; eassumption. }
    clear Hgo Ht Hmx Hlo Hlo'.
    repeat (any_step;
            try solve [ stopped3; split; [left; reflexivity|];
                        split; [intros mx0 Hmx0; specialize (Hlt mx0 Hmx0); cbn; lia
                               | assumption] ]).
    eapply sat_bind; [apply emitting_loop_any|]. cbv beta.
    intros res (e2 & E2 & Hw & Hc & Hr).
    destruct res as [[em' tf] w'|x w'|w']; cbn [world_of] in Hw; subst w'.
    2,3: stopped3; (split; [left; reflexivity|]);
         (split; [intros mx0 Hmx0; specialize (Hlt mx0 Hmx0);
                  rewrite !count_on_app, Hc; cbn; lia | first [exact Hr | exact I]]).
    destruct Hr as [Hr Htf].
    repeat (any_step;
            try solve [ stopped3; split; [left; reflexivity|];
                        split; [intros mx0 Hmx0; specialize (Hlt mx0 Hmx0);
                                rewrite !count_on_app, Hc; cbn; lia
                               | assumption] ]).
    cbn [fst snd]. destruct tf.
    + eapply sat_weaken.
      { apply (IH (att + 1) em' (Some em')).
        split; [intros ->; reflexivity | intros [= ->]; reflexivity]. }
      cbv beta. intros res (a' & e3 & E3 & Hw3 & Hd & Hcnt & Hret).
      eexists _, _, _. split; [rewrite Hw3; f_equal; log_eq|].
      fire_simpl. rewrite Hr. fire_simpl.
      split; [destruct Hd as [->|[-> Hf]];
              [left; reflexivity | right; split; [reflexivity|exact Hf]]|].
      split.
      * intros mx0 Hmx0. specialize (Hlt mx0 Hmx0). specialize (Hcnt mx0 Hmx0).
        rewrite !count_on_app, Hc. cbn. lia.
      * destruct res; [exact Hret | exact Hret | exact I].
    + specialize (Htf eq_refl). subst em'.
      any_step.
      refine (sat_eq _ _ _ (turn_on_loop_exit _ _ _ _ _ _ _ (VBool true) _ eq_refl) _);
        [apply lookup_insert_eq|].
      stopped3.
      fire_simpl. rewrite Hr. fire_simpl.
      split; [right; split; reflexivity|].
      split; [|split; intros _; reflexivity].
      intros mx0 Hmx0. specialize (Hlt mx0 Hmx0).
      rewrite !count_on_app, Hc. cbn. lia.
Qed.

(** [turn_on_laser] as a whole, for any link and any driver state. *)
Lemma turn_on_laser_any (fuel : nat) (a : gmap string pyval) (e : Env) (l : list event) :
  sat (turn_on_laser fuel (mk_world a e l))
    (fun r => exists a' e' E,
       world_of r = mk_world a' e' (l ++ E)%list /\
       (a' = a \/ a' = <["laser_on" := VBool true]> a /\ last_firing E = Some true) /\
       (forall mx, a !! "laser_on_attempts" = Some (VInt mx) ->
          Z.of_nat (count_on E) <= Z.max 0 mx) /\
       match r with
       | Ret _ _ => last_firing E = Some true
       | Raise x _ =>
           exn_cls x = Laser_Exception ->
           x = mk_exn Laser_Exception [VStr "Laser failed to turn on"] /\
           last_firing E <> Some true
       | OutOfFuel _ => True
       end).
Proof.
  unfold turn_on_laser.
  eapply sat_bind.
  { apply (turn_on_loop_any fuel fuel a 0 false None). split; discriminate. }
  cbv beta. intros res (a' & e' & E & Hw & Hd & Hcnt & Hret).
  assert (Hcnt' : forall mx, a !! "laser_on_attempts" = Some (VInt mx) ->
                             Z.of_nat (count_on E) <= Z.max 0 mx).
  { intros mx Hmx. specialize (Hcnt mx Hmx). lia. }
  destruct res as [em' w'|x w'|w']; cbn [world_of] in Hw; subst w'.
  - destruct em'; cbn [negb].
    + refine (sat_eq _ _ _ (bind_ret_r _ _) _).
      refine (sat_eq _ _ _ (bind_stderr_write _ _ _ _ _ _) _).
      stopped3. fold (last_firing E) in *.
      unfold last_firing in *. fire_simpl.
      assert (Hf : firing_after None E = Some true) by (apply Hret; reflexivity).
      split; [destruct Hd as [->|[-> _]]; [left; reflexivity | right; split; [reflexivity|exact Hf]]|].
      split; [|exact Hf].
      intros mx Hmx. rewrite count_on_app. specialize (Hcnt' mx Hmx). cbn. lia.
    + unfold sat, raise. cbn [world_of].
      exists a', e', E. split; [reflexivity|].
      split; [exact Hd|]. split; [exact Hcnt'|].
      intros _. split; [reflexivity|].
      intros Hf. apply Hret in Hf. discriminate Hf.
  - cbn [world_of]. exists a', e', E. split; [reflexivity|].
    split; [exact Hd|]. split; [exact Hcnt'|].
    intros Hx. destruct Hret as [H|[H|H]]; rewrite H in Hx; discriminate Hx.
  - cbn [world_of]. exists a', e', E. split; [reflexivity|].
    split; [exact Hd|]. split; [exact Hcnt'|exact I].
Qed.

(** C6: if a run of [turn_on_laser] changes [laser_on], however it ends,
    then [laser_on] is now [True] and the emission status read last, during
    this run, returned true. *)
Theorem laser_on_only_after_confirmation (fuel : nat) (w : World Env) :
  attrs (world_of (turn_on_laser fuel w)) !! "laser_on" <> attrs w !! "laser_on" ->
  attrs (world_of (turn_on_laser fuel w)) !! "laser_on" = Some (VBool true) /\
  exists E, log (world_of (turn_on_laser fuel w)) = (log w ++ E)%list /\
            last_firing E = Some true.
Proof.
  destruct w as [a e l]. cbn [attrs log].
  destruct (turn_on_laser_any fuel a e l) as (a' & e' & E & Hw & Hd & _ & _).
  rewrite Hw. cbn [attrs log]. intros Hne.
  destruct Hd as [->|[-> Hf]]; [contradiction Hne; reflexivity|].
  split; [apply lookup_insert_eq|]. exists E. split; [reflexivity | exact Hf].
Qed.

(** *** [turn_on_laser]: termination and the attempt count *)

Lemma py_gt_int (q : Q) (z : Z) :
  (py_gt q (VInt z) : M bool) = ret (negb (Qle_bool q (inject_Z z))).
Proof. reflexivity. Qed.

Section Clock.

(** The clock does not run backwards, and sleeping takes at least the time
    asked for. *)
Hypothesis clock_sleep : forall d e, (time_time e + d <= time_time (time_sleep d e))%Q.
Hypothesis clock_sdk : forall c e, (time_time e <= time_time (snd (sdk c e)))%Q.

Variables (a : gmap string pyval) (h : pyval) (mx wt T : Z).
Hypothesis Hh : a !! "handle" = Some h.
Hypothesis Hmx : a !! "laser_on_attempts" = Some (VInt mx).
Hypothesis Hwt : a !! "laser_on_wait" = Some (VInt wt).
Hypothesis HT : a !! "turn_on_laser_timeout" = Some (VInt T).
Hypothesis wt_pos : 0 < wt.

Lemma wait_ok : Qle_bool 0 (inject_Z wt) = true.
Proof. apply Qle_bool_iff. change 0%Q with (inject_Z 0). rewrite <- Zle_Qle. lia. Qed.

(** One more poll of the inner loop. *)
Lemma emitting_loop_iter (fuel : nat) (old_t : Q) (e : Env) (l : list event) :
  let e1 := time_sleep (inject_Z wt) e in
  let r := fst (sdk (SidekickSDK_isLaserFiring h) e1) in
  let e2 := snd (sdk (SidekickSDK_isLaserFiring h) e1) in
  let w2 := mk_world a e2
              ((l ++ [EvSleep (inject_Z wt)])
                 ++ [EvSdk (SidekickSDK_isLaserFiring h) r])%list in
  emitting_loop (S fuel) old_t false (mk_world a e l) =
  if negb (Qle_bool (time_time e2 - old_t) (inject_Z T))
  then Ret (out_flag r, true) w2
  else emitting_loop fuel old_t (out_flag r) w2.
Proof.
  cbv zeta. cbn [emitting_loop].
  rewrite (bind_getattr a e l _ _ _ Hwt).
  rewrite (bind_sleep a e l (VInt wt) (inject_Z wt) _ eq_refl wait_ok).
  rewrite (bind_sdk_h _ _ _ _ _ _ Hh).
  rewrite bind_time_now.
  rewrite (bind_getattr a _ _ _ _ _ HT).
  rewrite py_gt_int, bind_ret.
  destruct (negb _); reflexivity.
Qed.

Lemma clock_after_poll (e : Env) :
  (time_time e + inject_Z wt <=
   time_time (snd (sdk (SidekickSDK_isLaserFiring h) (time_sleep (inject_Z wt) e))))%Q.
Proof.
  eapply Qle_trans; [apply clock_sleep | apply clock_sdk].
Qed.

Lemma wait_pos : (0 < inject_Z wt)%Q.
Proof. change 0%Q with (inject_Z 0). rewrite <- Zlt_Qlt. exact wt_pos. Qed.

(** The inner loop, entered while the time is not yet over and with room
    for the polls that can still come: it returns; it has slept and read
    once per poll and done nothing else; it has polled as long as the flag
    was false and no longer, and not once the time was over; and it yields
    [trial_fail] only after a poll that ended later than the timeout. *)
Lemma emitting_loop_trace (n : nat) (old_t : Q) :
  forall (em : bool) (e : Env) (l : list event),
  (time_time e - old_t <= inject_Z T)%Q ->
  (inject_Z T - (time_time e - old_t) < inject_Z (Z.of_nat n * wt))%Q ->
  exists rs tf e',
    emitting_loop n old_t em (mk_world a e l)
    = Ret (last_flag_of em (map out_flag rs), tf)
          (mk_world a e' (l ++ poll_events h (inject_Z wt) rs)%list) /\
    polled_while_dark em (map out_flag rs) = true /\
    (inject_Z (Z.of_nat (length rs) * wt)
     <= inject_Z T - (time_time e - old_t) + inject_Z wt)%Q /\
    (time_time e <= time_time e')%Q /\
    (if tf then rs <> [] /\ (inject_Z T < time_time e' - old_t)%Q
     else last_flag_of em (map out_flag rs) = true).
Proof.
  pose proof wait_pos as Hwp.
  assert (Hstop : forall (e : Env) (l : list event) (k : nat),
            (time_time e - old_t <= inject_Z T)%Q ->
            exists rs tf e',
              emitting_loop k old_t true (mk_world a e l)
              = Ret (last_flag_of true (map out_flag rs), tf)
                    (mk_world a e' (l ++ poll_events h (inject_Z wt) rs)%list) /\
              polled_while_dark true (map out_flag rs) = true /\
              (inject_Z (Z.of_nat (length rs) * wt)
               <= inject_Z T - (time_time e - old_t) + inject_Z wt)%Q /\
              (time_time e <= time_time e')%Q /\
              (if tf then rs <> [] /\ (inject_Z T < time_time e' - old_t)%Q
               else last_flag_of true (map out_flag rs) = true)).
  { intros e l k Hle. exists [], false, e.
    split; [destruct k; cbn [emitting_loop poll_events flat_map]; rewrite app_nil_r; reflexivity|].
    split; [reflexivity|].
    split; [cbn [length]; change (inject_Z (Z.of_nat 0 * wt)) with 0%Q; lra|].
    split; [apply Qle_refl | reflexivity]. }
  induction n as [|n IH]; intros em e l Hle Hbud.
  - destruct em; [apply Hstop; exact Hle|].
    exfalso. change (inject_Z (Z.of_nat 0 * wt)) with 0%Q in Hbud. lra.
  - destruct em; [apply Hstop; exact Hle|].
    rewrite emitting_loop_iter. cbv zeta.
    pose proof (clock_after_poll e) as Hc.
    set (r := fst (sdk (SidekickSDK_isLaserFiring h) (time_sleep (inject_Z wt) e))) in *.
    set (e2 := snd (sdk (SidekickSDK_isLaserFiring h) (time_sleep (inject_Z wt) e))) in *.
    destruct (Qle_bool (time_time e2 - old_t) (inject_Z T)) eqn:Hlate; cbn [negb].
    + apply Qle_bool_iff in Hlate.
      destruct (IH (out_flag r) e2
                  ((l ++ [EvSleep (inject_Z wt)])
                     ++ [EvSdk (SidekickSDK_isLaserFiring h) r])%list Hlate)
        as (rs & tf & e' & Hrun & Hpd & Hlen & Hmono & Htf).
      { replace (Z.of_nat (S n) * wt) with (Z.of_nat n * wt + wt) in Hbud by lia.
        rewrite inject_Z_plus in Hbud. lra. }
      exists (r :: rs), tf, e'.
      split.
      { rewrite Hrun. cbn [map last_flag_of poll_events flat_map app].
        do 2 f_equal. rewrite <- !app_assoc. reflexivity. }
      split; [cbn [map polled_while_dark negb andb]; exact Hpd|].
      split.
      { cbn [length]. replace (Z.of_nat (S (length rs)) * wt)
          with (Z.of_nat (length rs) * wt + wt) by lia.
        rewrite inject_Z_plus. lra. }
      split; [lra|].
      destruct tf; [|exact Htf].
      split; [discriminate | exact (proj2 Htf)].
    + exists [r], true, e2.
      split.
      { cbn [map last_flag_of poll_events flat_map app].
        do 2 f_equal. rewrite <- !app_assoc. reflexivity. }
      split; [reflexivity|].
      split.
      { cbn [length]. replace (Z.of_nat 1 * wt) with wt by lia. lra. }
      split; [lra|].
      split; [discriminate|].
      destruct (Qlt_le_dec (inject_Z T) (time_time e2 - old_t)) as [Hgt|Hle'];
        [exact Hgt|].
      apply Qle_bool_iff in Hle'. rewrite Hle' in Hlate. discriminate Hlate.
Qed.

Lemma py_lt_int (z m : Z) :
  (py_lt z (VInt m) : M bool) = ret (z <? m).
Proof.
  unfold py_lt. cbn [num_of]. f_equal.
  destruct (z <? m) eqn:Hlt.
  - apply Z.ltb_lt in Hlt. apply negb_true_iff.
    apply not_true_iff_false. intros H. apply Qle_bool_iff in H.
    rewrite <- Zle_Qle in H. lia.
  - apply Z.ltb_ge in Hlt. apply negb_false_iff.
    apply Qle_bool_iff. rewrite <- Zle_Qle. exact Hlt.
Qed.

Hypothesis Hoff : a !! "laser_on" = Some (VBool false).

Lemma emitting_after_snoc (cur : bool) (ts : list attempt) (t : attempt) :
  emitting_after cur (ts ++ [t]) = att_confirmed t.
Proof. revert cur. induction ts as [|t' ts IH]; intros cur; [reflexivity | apply IH]. Qed.

(** The clock after a command, from the equation that names its reply. *)
Ltac clock_facts :=
  repeat match goal with
         | H : sdk ?c ?e0 = (_, ?e1) |- _ =>
             lazymatch goal with
             | _ : (time_time e0 <= time_time e1)%Q |- _ => fail
             | _ => let Hc := fresh "Hclk" in
                    pose proof (clock_sdk c e0) as Hc;
                    rewrite H in Hc; cbn [snd] in Hc
             end
         end.

(** The attempt whose events end the log of the goal, [rs] being the
    replies to its polls. *)
Ltac this_attempt rs k :=
  lazymatch goal with
  | |- context [((((_ ++ [EvSdk (SidekickSDK_SetLaserOnOff _ _ _) ?r1])
                    ++ [EvSdk (SidekickSDK_ExecLaserOnOff _) ?r2])
                   ++ [EvSdk (SidekickSDK_ReadInfoStatusMask _) ?r3])
                  ++ [EvSdk (SidekickSDK_isLaserFiring _) ?r4])%list] =>
      lazymatch goal with
      | |- context [[EvSdk (SidekickSDK_ReadStatusMask _) ?r5]] =>
          k (mk_attempt r1 r2 r3 r4 rs r5)
      end
  end.

(** The outer loop, entered with [laser_on] false after [att] attempts:
    it returns.  The attempts it makes are [failed], each ended by the
    timeout, and then at most one more, [won], ended by a true read in
    time, after which [laser_on] is set and the loop left; without such an
    attempt every attempt up to [laser_on_attempts] is made. *)
Lemma turn_on_loop_trace (fuel n : nat) :
  forall (att : Z) (em : bool) (e : Env) (l : list event),
  T < Z.of_nat n * wt -> 0 <= T ->
  att <= mx -> (Z.to_nat (mx - att) <= fuel)%nat ->
  exists failed won e',
    turn_on_loop fuel n att em (mk_world a e l)
    = Ret (emitting_after em (failed ++ option_list won))
          (mk_world (match won with
                     | Some _ => <["laser_on" := VBool true]> a
                     | None => a
                     end) e'
             (l ++ attempts_events h (inject_Z wt) (att + 1)
                     (failed ++ option_list won))%list) /\
    Z.of_nat (length (failed ++ option_list won)) <= mx - att /\
    Forall (fun t => att_polled_ok t = true /\
                     (Z.of_nat (length (att_polls t)) - 1) * wt <= T)
           (failed ++ option_list won) /\
    Forall (fun t => att_polls t <> []) failed /\
    (time_time e <= time_time e')%Q /\
    (failed <> [] ->
     (inject_Z (Z.of_nat (length failed) * T) < time_time e' - time_time e)%Q) /\
    match won with
    | Some t => att_confirmed t = true
    | None => Z.of_nat (length failed) = mx - att
    end.
Proof.
  induction fuel as [|fuel IH]; intros att em e l Hn HT0 Hatt Hfuel.
  - assert (att = mx) by lia. subst att.
    cbn [turn_on_loop].
    rewrite (bind_getattr a e l _ _ _ Hoff). cbn [truthy].
    rewrite bind_bind, (bind_getattr a e l _ _ _ Hmx), py_lt_int, !bind_ret.
    rewrite Z.ltb_irrefl.
    exists [], None, e. cbn [app option_list option_rect attempts_events emitting_after length].
    rewrite app_nil_r. split; [reflexivity|].
    split; [lia|]. split; [constructor|]. split; [constructor|].
    split; [apply Qle_refl|]. split; [intros H; contradiction H; reflexivity | cbn; lia].
  - cbn [turn_on_loop].
    rewrite (bind_getattr a e l _ _ _ Hoff). cbn [truthy].
    rewrite bind_bind, (bind_getattr a e l _ _ _ Hmx), py_lt_int, !bind_ret.
    destruct (att <? mx) eqn:Hlt.
    2:{ apply Z.ltb_ge in Hlt. assert (att = mx) by lia. subst att.
        exists [], None, e.
        cbn [app option_list option_rect attempts_events emitting_after length].
        rewrite app_nil_r. split; [reflexivity|].
        split; [lia|]. split; [constructor|]. split; [constructor|].
        split; [apply Qle_refl|].
        split; [intros H; contradiction H; reflexivity | cbn; lia]. }
    apply Z.ltb_lt in Hlt.
    start (bind (sdk_h (fun h0 => SidekickSDK_SetLaserOnOff h0 0 true))
             (fun _ => bind (sdk_h SidekickSDK_ExecLaserOnOff)
             (fun _ => bind (sdk_h SidekickSDK_ReadInfoStatusMask)
             (fun _ => bind (sdk_h SidekickSDK_isLaserFiring)
             (fun r => bind (stderr_write "Turn on attempts: {}" [VInt (att + 1)])
             (fun _ => bind time_now
             (fun old_t => bind (emitting_loop n old_t (out_flag r))
             (fun et => bind (sdk_h SidekickSDK_ReadStatusMask)
             (fun st => bind (stderr_write
                "Status Word is {}, Error Word is {}, Warning Word is {}"
                [VInt (c_uint32 (fst (fst (out_words st))));
                 VInt (c_uint16 (snd (fst (out_words st))));
                 VInt (c_uint16 (snd (out_words st)))])
             (fun _ => if snd et
                       then turn_on_loop fuel n (att + 1) (fst et)
                       else bind (setattr "laser_on" (VBool true))
                              (fun _ => turn_on_loop fuel n (att + 1) (fst et)))))))))))
             (mk_world a e l)).
    repeat step.
    match goal with
    | |- sat (bind (emitting_loop n (time_time ?e0) ?em0) _ (mk_world a ?e0 ?l0)) _ =>
        destruct (emitting_loop_trace n (time_time e0) em0 e0 l0)
          as (rs & tf & e5 & Hrun & Hpd & Hlen & Hmono & Htf)
    end.
    { rewrite Zle_Qle in HT0. change (inject_Z 0) with 0%Q in HT0. lra. }
    { rewrite Zlt_Qlt in Hn. lra. }
    refine (sat_eq _ _ _ (bind_Ret _ _ _ _ _ Hrun) _).
    repeat step. cbn [fst snd].
    clock_facts.
    assert (Hpolls : (Z.of_nat (length rs) - 1) * wt <= T).
    { rewrite Zle_Qle.
      replace ((Z.of_nat (length rs) - 1) * wt)
        with (Z.of_nat (length rs) * wt + - wt) by lia.
      rewrite inject_Z_plus, inject_Z_opp. lra. }
    destruct tf.
    + destruct Htf as [Hrs Hover].
      match goal with
      | |- sat (turn_on_loop fuel n (att + 1) ?em1 (mk_world a ?e0 ?l0)) _ =>
          destruct (IH (att + 1) em1 e0 l0 Hn HT0)
            as (failed & won & e' & Hrun' & Hcnt & Hok & Hfl & Hmono' & Hel & Hwon);
            [lia | lia |]
      end.
      unfold sat. rewrite Hrun'.
      this_attempt rs ltac:(fun t => exists (t :: failed), won, e').
      split.
      { unfold att_confirmed.
        cbn [app emitting_after attempts_events attempt_events
             att_set att_exec att_info att_first att_polls att_words].
        do 2 f_equal. rewrite <- !app_assoc. cbn [app]. reflexivity. }
      split; [cbn [app length]; lia|].
      split.
      { cbn [app]. constructor; [|exact Hok].
        cbn [att_polled_ok att_first att_polls]. split; [exact Hpd | exact Hpolls]. }
      split; [constructor; [exact Hrs | exact Hfl]|].
      split; [lra|].
      split.
      { intros _. cbn [length].
        replace (Z.of_nat (S (length failed)) * T)
          with (Z.of_nat (length failed) * T + T) by lia.
        rewrite inject_Z_plus.
        destruct failed as [|t0 failed0].
        - cbn [length]. change (inject_Z (Z.of_nat 0 * T)) with 0%Q. lra.
        - assert (Hel' := Hel ltac:(discriminate)). lra. }
      destruct won; [exact Hwon | cbn [length]; lia].
    + step.
      refine (sat_eq _ _ _ (turn_on_loop_exit _ _ _ _ _ _ _ (VBool true) _ eq_refl) _);
        [apply lookup_insert_eq|].
      unfold sat.
      this_attempt rs ltac:(fun t => exists [], (Some t); eexists).
      split.
      { cbn [app option_list option_rect emitting_after attempts_events attempt_events
             att_set att_exec att_info att_first att_polls att_words].
        unfold att_confirmed. cbn [att_first att_polls].
        rewrite Htf. do 2 f_equal.
        rewrite ?app_nil_r, <- ?app_assoc. cbn [app]. reflexivity. }
      split; [cbn [app option_list option_rect length]; lia|].
      split.
      { cbn [app option_list option_rect]. constructor; [|constructor].
        cbn [att_polled_ok att_first att_polls]. split; [exact Hpd | exact Hpolls]. }
      split; [constructor|].
      split; [lra|].
      split; [intros H; contradiction H; reflexivity|].
      cbn [att_confirmed att_first att_polls]. exact Htf.
Qed.

(** C5: [turn_on_laser] on a driver whose [laser_on] is false, against a
    clock that moves, given room for [laser_on_attempts] attempts of
    [timeout / wait + 1] polls each.  The run is a sequence of attempts,
    numbered from 1, at most [laser_on_attempts] of them.  Each commands
    emission on (set, exec), reads the status and the emission flag, and
    then polls: a wait of [laser_on_wait] and an emission read, as long as
    the flag read is false and not once the time is over; then it reads
    the diagnostic words.  The attempts [failed] each ended by a poll that
    came back later than [turn_on_laser_timeout], whatever that poll read.
    An attempt [won] that ended by a true read in time is the last one:
    [laser_on] is set and no command follows.  Without such an attempt
    every one of the [laser_on_attempts] attempts is made and [laser_on]
    stays false.  Whether the method then returns or raises is decided by
    the flag read last alone: it raises [Laser_Exception] when that flag is
    false, and it writes "Laser is on." and returns when it is true, also
    when that read closed an attempt that had failed by its time. *)
Theorem turn_on_laser_attempts (fuel : nat) (e : Env) (l : list event) :
  0 <= mx -> 0 <= T ->
  (Z.to_nat mx <= fuel)%nat -> T < Z.of_nat fuel * wt ->
  exists (failed : list attempt) (won : option attempt) (e' : Env),
    let ts := (failed ++ option_list won)%list in
    let E := attempts_events h (inject_Z wt) 1 ts in
    turn_on_laser fuel (mk_world a e l)
    = (if emitting_after false ts
       then Ret tt (mk_world (match won with
                              | Some _ => <["laser_on" := VBool true]> a
                              | None => a
                              end) e' (l ++ E ++ [EvStderr "Laser is on." []])%list)
       else Raise (mk_exn Laser_Exception [VStr "Laser failed to turn on"])
                  (mk_world a e' (l ++ E)%list)) /\
    Z.of_nat (length ts) <= mx /\
    Forall (fun t => att_polled_ok t = true /\
                     (Z.of_nat (length (att_polls t)) - 1) * wt <= T) ts /\
    Forall (fun t => att_polls t <> []) failed /\
    (time_time e <= time_time e')%Q /\
    (failed <> [] ->
     (inject_Z (Z.of_nat (length failed) * T) < time_time e' - time_time e)%Q) /\
    match won with
    | Some t => att_confirmed t = true
    | None => Z.of_nat (length failed) = mx
    end.
Proof.
  intros Hmx0 HT0 Hfuel Hn.
  destruct (turn_on_loop_trace fuel fuel 0 false e l Hn HT0 Hmx0)
    as (failed & won & e' & Hrun & Hcnt & Hok & Hfl & Hmono & Hel & Hwon); [lia|].
  exists failed, won, e'. cbv zeta.
  split.
  { unfold turn_on_laser. rewrite (bind_Ret _ _ _ _ _ Hrun).
    change (0 + 1) with 1.
    destruct won as [t|].
    - cbn [option_list option_rect] in *.
      rewrite emitting_after_snoc, Hwon. cbn [negb].
      unfold stderr_write, emit. cbn [attrs env log].
      rewrite <- app_assoc. reflexivity.
    - cbn [option_list option_rect] in *.
      destruct (emitting_after false (failed ++ [])); cbn [negb].
      + unfold stderr_write, emit. cbn [attrs env log].
        rewrite <- app_assoc. reflexivity.
      + reflexivity. }
  split; [lia|]. split; [exact Hok|]. split; [exact Hfl|].
  split; [exact Hmono|]. split; [exact Hel|].
  destruct won; [exact Hwon | lia].
Qed.

End Clock.

(** *** [connect_laser]: the connection itself *)

(** X1: A run of [connect_laser] that returns has issued exactly the seven
    commands of the method, in order, each followed by its success line
    where it has one.  The device asked for is the count reported, less
    one, in 16 bits; the handle kept is the one the link gave, in 32 bits;
    no [SidekickSDK_Disconnect] is sent. *)
Theorem connect_laser_returns (w w' : World Env) :
  connect_laser w = Ret tt w' ->
  exists r1 r2 rc r4 r5 r6 r7,
    attrs w' = <["handle" := VInt (c_uint32 (out_handle rc))]> (attrs w) /\
    log w' = (log w ++ connect_events r1 r2 rc r4 r5 r6 r7)%list /\
    out_flag r5 = true /\ out_flag r6 = true /\ out_flag r7 = true.
Proof.
  destruct w as [a e l]. cbn [attrs env log]. intros Hc.
  unfold connect_laser, _call_sdk_bool, _call_sdk_bool_ptr in Hc.
  steps_in Hc.
  all: try discriminate Hc.
  injection Hc as <-. cbn [attrs log].
  eexists _, _, _, _, _, _, _.
  split; [reflexivity|].
  split; [rewrite <- !app_assoc; reflexivity|].
  repeat split; assumption.
Qed.

(** X2: When [connect_laser] raises with the message of one of its first three
    calls, no handle has been stored, and no command of the run was issued
    on a handle: there is nothing to disconnect, and nothing is. *)
Theorem connect_laser_failed_connection (w w' : World Env) (x : exn) (m : pyval) :
  connect_laser w = Raise x w' ->
  exn_args x = [m] ->
  In m connection_msgs ->
  exn_cls x = SDK_Exception /\
  attrs w' = attrs w /\
  exists E, log w' = (log w ++ E)%list /\
    forallb (fun c => match handle_of c with None => true | Some _ => false end)
            (calls_of E) = true.
Proof.
  destruct w as [a e l]. cbn [attrs env log]. intros Hc Hm Hin.
  unfold connect_laser, _call_sdk_bool, _call_sdk_bool_ptr in Hc.
  steps_in Hc.
  all: try discriminate Hc.
  all: injection Hc as <- <-; cbn [exn_args exn_cls attrs log] in *.
  all: injection Hm as <-.
  all: unfold connection_msgs in Hin; cbn [In] in Hin.
  all: destruct Hin as [Hin|[Hin|[Hin|[]]]].
  all: try discriminate Hin.
  all: split; [reflexivity|].
  all: split; [reflexivity|].
  all: eexists; split; [log_eq | reflexivity].
Qed.

(** *** [_call_sdk_bool] and the device number *)

Lemma py_eq_int (z s : Z) : py_eq (inject_Z z) (VInt s) = (z =? s).
Proof.
  unfold py_eq, py_ne. cbn [num_of]. rewrite negb_involutive.
  destruct (z =? s) eqn:E.
  - apply Z.eqb_eq in E. subst. apply Qeq_bool_iff. reflexivity.
  - apply Z.eqb_neq in E. apply not_true_is_false. intros H.
    apply Qeq_bool_iff in H. apply E. apply inject_Z_injective. exact H.
Qed.

(** [_call_sdk_bool] issues its one call and compares the return code with
    [sidekick_sdk_ret_success]: on equality it writes the success line and
    hands the reply back, otherwise it raises [SDK_Exception] with the
    error message.  The attributes are not touched. *)
Lemma call_sdk_bool_run
  (c : sdk_call) (success_msg error_msg : string) (s : Z)
  (a : gmap string pyval) (e : Env) (l : list event) :
  a !! "sidekick_sdk_ret_success" = Some (VInt s) ->
  _call_sdk_bool c success_msg error_msg (mk_world a e l) =
  let r := fst (sdk c e) in
  if sdk_ret r =? s
  then Ret r (mk_world a (snd (sdk c e))
                 (l ++ [EvSdk c r; EvStderr success_msg []])%list)
  else Raise (mk_exn SDK_Exception [VStr error_msg])
             (mk_world a (snd (sdk c e)) (l ++ [EvSdk c r])%list).
Proof.
  intros Hs. cbv zeta. unfold _call_sdk_bool.
  rewrite bind_sdk_do, (bind_getattr a _ _ _ _ _ Hs), py_eq_int.
  destruct (sdk_ret (fst (sdk c e)) =? s); [|reflexivity].
  rewrite bind_stderr_write. unfold ret. rewrite <- app_assoc. reflexivity.
Qed.

(** A computation that only appends to the log. *)
Definition extends {A} (m : M A) : Prop :=
  forall w, exists E, log (world_of (m w)) = (log w ++ E)%list.

Lemma extends_bind {A B} (m : M A) (k : A -> M B) :
  extends m -> (forall x, extends (k x)) -> extends (bind m k).
Proof.
  intros Hm Hk w. unfold bind. destruct (Hm w) as [E1 H1].
  destruct (m w) as [x w1|x w1|w1]; cbn [world_of] in *.
  - destruct (Hk x w1) as [E2 H2]. exists (E1 ++ E2)%list.
    rewrite H2, H1, app_assoc. reflexivity.
  - exists E1. exact H1.
  - exists E1. exact H1.
Qed.

Lemma extends_still {A} (m : M A) :
  (forall w, world_of (m w) = w) -> extends m.
Proof. intros H w. exists []. rewrite H, app_nil_r. reflexivity. Qed.

Lemma extends_ret {A} (x : A) : extends (ret x).
Proof. apply extends_still. reflexivity. Qed.

Lemma extends_raise {A} (x : exn) : extends (raise x : M A).
Proof. apply extends_still. reflexivity. Qed.

Lemma extends_getattr (name : string) : extends (getattr name).
Proof.
  apply extends_still. intros w. unfold getattr.
  destruct (attrs w !! name); reflexivity.
Qed.

Lemma extends_setattr (name : string) (v : pyval) : extends (setattr name v).
Proof. intros w. exists []. cbn. rewrite app_nil_r. reflexivity. Qed.

Lemma extends_sdk_do (c : sdk_call) : extends (sdk_do c).
Proof. intros w. eexists. reflexivity. Qed.

Lemma extends_sdk_h (f : pyval -> sdk_call) : extends (sdk_h f).
Proof. apply extends_bind; [apply extends_getattr | intros; apply extends_sdk_do]. Qed.

Lemma extends_stderr_write (fmt : string) (args : list pyval) :
  extends (stderr_write fmt args).
Proof. intros w. eexists. reflexivity. Qed.

Ltac extends_tac :=
  repeat first
    [ apply extends_ret | apply extends_raise | apply extends_getattr
    | apply extends_setattr | apply extends_sdk_do | apply extends_sdk_h
    | apply extends_stderr_write
    | apply extends_bind; [|intros ?]
    | match goal with |- extends (if ?b then _ else _) => destruct b end ].

(** X3: When the search succeeds and the link reports a count of zero devices,
    [connect_laser] does not stop: the count less one wraps around in its
    16-bit cell, and the third command of the run asks for device 65535. *)
Theorem connect_laser_no_device (w : World Env) (s : Z) :
  attrs w !! "sidekick_sdk_ret_success" = Some (VInt s) ->
  sdk_ret (fst (sdk SidekickSDK_SearchForUsbDevices (env w))) = s ->
  sdk_ret (fst (sdk SidekickSDK_GetNumOfDevices
                  (snd (sdk SidekickSDK_SearchForUsbDevices (env w))))) = s ->
  out_count (fst (sdk SidekickSDK_GetNumOfDevices
                    (snd (sdk SidekickSDK_SearchForUsbDevices (env w))))) = 0 ->
  exists E,
    log (world_of (connect_laser w)) = (log w ++ E)%list /\
    nth_error (calls_of E) 2 = Some (SidekickSDK_ConnectToDeviceNumber 65535).
Proof.
  destruct w as [a e l]. cbn [attrs env log]. intros Hs H1 H2 H3.
  unfold connect_laser.
  unfold bind at 1. rewrite (call_sdk_bool_run _ _ _ s a e l Hs).
  cbv zeta. rewrite H1, Z.eqb_refl.
  unfold bind at 1. rewrite (call_sdk_bool_run _ _ _ s a _ _ Hs).
  cbv zeta. rewrite H2, Z.eqb_refl, H3.
  unfold _call_sdk_bool at 1.
  rewrite !bind_bind, bind_sdk_do.
  match goal with
  | |- context [?k (mk_world a ?e3 ?l3)] =>
      lazymatch l3 with
      | (_ ++ [EvSdk (SidekickSDK_ConnectToDeviceNumber _) _])%list =>
          assert (Hk : extends k)
      end
  end.
  { unfold _call_sdk_bool_ptr. extends_tac. }
  match goal with
  | |- context [world_of (?k ?w3)] => destruct (Hk w3) as [E HE]; rewrite HE
  end.
  cbn [log]. eexists. split; [log_eq|].
  rewrite !calls_of_app. reflexivity.
Qed.

(** *** [_collect_data]: what is appended *)

Lemma bind_Ret_inv {A B} (m : M A) (k : A -> M B) (w w' : World Env) (y : B) :
  bind m k w = Ret y w' ->
  exists x w1, m w = Ret x w1 /\ k x w1 = Ret y w'.
Proof.
  unfold bind. destruct (m w) as [x w1|x w1|w1]; try discriminate.
  intros H. exists x, w1. split; [reflexivity | exact H].
Qed.

(** Peel the first step off a run known to return. *)
Ltac peel H :=
  let x := fresh "x" in
  let w := fresh "w" in
  let Hx := fresh "Hx" in
  apply bind_Ret_inv in H as (x & w & Hx & H).

Section CollectEdges.

Variables (d c : string) (len tmo : pyval) (poll : poll_data) (id : Z).

(** The detector link answers every call; the poll returns [poll]. *)
Hypothesis zi_answers : forall c e, exists v, fst (zi c e) = inr v.
Hypothesis zi_polled : forall e, fst (zi_poll len tmo e) = inr poll.

Variables (a : gmap string pyval).
Hypothesis Hdaq : a !! "daq" = Some (VObj id).
Hypothesis Hdev : a !! "device" = Some (VStr d).
Hypothesis Hc : a !! "lockin_demod_c" = Some (VStr c).
Hypothesis Hlen : a !! "lockin_poll_length" = Some len.
Hypothesis Htmo : a !! "poll_timeout" = Some tmo.

Ltac zi_any c e k :=
  let v := fresh "v" in
  let Hv := fresh "Hv" in
  destruct (zi_answers c e) as [v Hv]; k Hv.

(** The run of [_collect_data] up to the ladder of [if]s, and after it. *)
Ltac collect_run locals_rule :=
  unfold _collect_data;
  repeat first
    [ step | zi_step Hdaq zi_any
    | lazymatch goal with
      | |- sat (bind (poll_do ?x ?y) ?k (mk_world ?a ?e ?l)) ?P =>
          refine (sat_eq _ _ P (bind_poll_do a e l x y k _ (zi_polled e)) _);
          cbv beta; forget_env
      | |- sat (bind (bind_locals poll) ?k ?w) ?P => locals_rule k w P
      end ].

Lemma bind_locals_missing_demods (w : World Env)
  (node : gmap string (gmap string (gmap string sample))) :
  attrs w = a ->
  poll !! d = Some node ->
  node !! "demods" = None ->
  pure_at (bind_locals poll) w (Some ([], [])).
Proof.
  intros Ha Hp Hnode.
  assert (Hdev' : attrs w !! "device" = Some (VStr d)) by (rewrite Ha; exact Hdev).
  unfold pure_at, bind_locals.
  rewrite (bind_pure _ _ _ _ (pure_getattr _ _ _ Hdev')).
  cbn [lookup_key]. rewrite Hp, Hnode. reflexivity.
Qed.

Lemma bind_locals_else (w : World Env) :
  attrs w = a ->
  poll !! d = None \/
  (exists node, poll !! d = Some node /\ node !! "demods" = None) ->
  pure_at (bind_locals poll) w (Some ([], [])).
Proof.
  intros Ha [Hp|(node & Hp & Hnode)].
  - unfold pure_at, bind_locals.
    assert (Hdev' : attrs w !! "device" = Some (VStr d)) by (rewrite Ha; exact Hdev).
    rewrite (bind_pure _ _ _ _ (pure_getattr _ _ _ Hdev')).
    cbn [lookup_key]. rewrite Hp. reflexivity.
  - eapply bind_locals_missing_demods; eassumption.
Qed.

(** X12: The [else] branch: when the poll response lacks the device, or the
    device's ['demods'] entry, an empty magnitude list and an empty time list
    are appended, after the unsubscribe, and the call returns. *)
Theorem collect_data_absent_device
  (e : Env) (l : list event) (data_list time_list : list (list Q)) :
  poll !! d = None \/
  (exists node, poll !! d = Some node /\ node !! "demods" = None) ->
  exists e' E,
    _collect_data data_list time_list (mk_world a e l)
    = Ret ((data_list ++ [[]])%list, (time_list ++ [[]])%list)
          (mk_world a e' (l ++ E)%list) /\
    zi_calls_of E = [daq_sync; daq_subscribe (chan_node d "/demods/" c "/sample");
                     daq_unsubscribe "*"].
Proof.
  intros Habs.
  start (_collect_data data_list time_list (mk_world a e l)).
  collect_run ltac:(fun k w P =>
    refine (sat_eq _ _ P (bind_pure _ k w _ (bind_locals_else w eq_refl Habs)) _);
    cbv beta).
  unfold sat, ret. eexists _, _. split; [do 2 f_equal; log_eq | reflexivity].
Qed.

Lemma bind_locals_missing_channel (w : World Env)
  (node : gmap string (gmap string (gmap string sample)))
  (demods : gmap string (gmap string sample)) (n : Z) :
  attrs w = a ->
  py_int c = Some n ->
  poll !! d = Some node ->
  node !! "demods" = Some demods ->
  n <= Z.of_nat (size demods) ->
  demods !! c = None ->
  bind_locals poll w = Raise (mk_exn KeyError [VStr c]) w.
Proof.
  intros Ha Hn Hp Hnode Hsize Hchan.
  assert (Hdev' : attrs w !! "device" = Some (VStr d)) by (rewrite Ha; exact Hdev).
  assert (Hc' : attrs w !! "lockin_demod_c" = Some (VStr c)) by (rewrite Ha; exact Hc).
  unfold bind_locals.
  rewrite (bind_pure _ _ _ _ (pure_getattr _ _ _ Hdev')).
  cbn [lookup_key]. rewrite Hp, Hnode.
  rewrite (bind_pure _ _ _ _ (pure_getattr _ _ _ Hc')).
  cbn [int_conv]. rewrite Hn, bind_ret.
  replace (Z.of_nat (size demods) >=? n) with true
    by (symmetry; apply Z.geb_le; exact Hsize).
  rewrite (bind_pure _ _ _ _ (pure_getattr _ _ _ Hc')).
  cbn [lookup_key]. rewrite Hchan. reflexivity.
Qed.

(** X13: A ['demods'] entry that is long enough for the channel number but does
    not hold the channel: the subscript raises [KeyError] inside the ladder,
    before [unsubscribe] is reached, so the subscription of this call is
    left in place and nothing is appended. *)
Theorem collect_data_missing_channel
  (e : Env) (l : list event) (data_list time_list : list (list Q))
  (node : gmap string (gmap string (gmap string sample)))
  (demods : gmap string (gmap string sample)) (n : Z) :
  py_int c = Some n ->
  poll !! d = Some node ->
  node !! "demods" = Some demods ->
  n <= Z.of_nat (size demods) ->
  demods !! c = None ->
  exists e' E,
    _collect_data data_list time_list (mk_world a e l)
    = Raise (mk_exn KeyError [VStr c]) (mk_world a e' (l ++ E)%list) /\
    zi_calls_of E = [daq_sync; daq_subscribe (chan_node d "/demods/" c "/sample")].
Proof.
  intros Hn Hp Hnode Hsize Hchan.
  start (_collect_data data_list time_list (mk_world a e l)).
  collect_run ltac:(fun k w P =>
    refine (sat_eq _ _ P
              (f_equal (fun r => match r with
                                 | Ret x w' => k x w'
                                 | Raise x w' => Raise x w'
                                 | OutOfFuel w' => OutOfFuel w'
                                 end)
                 (bind_locals_missing_channel w node demods n eq_refl
                    Hn Hp Hnode Hsize Hchan)) _);
    cbv beta iota).
  unfold sat. eexists _, _. split; [do 2 f_equal; log_eq | reflexivity].
Qed.

Lemma bind_eq {A B} (m m' : M A) (k : A -> M B) (w : World Env) :
  m w = m' w -> bind m k w = bind m' k w.
Proof. unfold bind. intros ->. reflexivity. Qed.

(** The ladder on a response that holds the sample block of the channel:
    it comes down to the body of the innermost [if]. *)
Lemma bind_locals_sample (w : World Env)
  (dev_node : gmap string (gmap string (gmap string sample)))
  (demods : gmap string (gmap string sample)) (chan : gmap string sample)
  (smp : sample) (n : Z) :
  attrs w = a ->
  py_int c = Some n ->
  poll !! d = Some dev_node ->
  dev_node !! "demods" = Some demods ->
  n <= Z.of_nat (size demods) ->
  demods !! c = Some chan ->
  chan !! "sample" = Some smp ->
  bind_locals poll w = bind (read_sample smp) (fun dt => ret (Some dt)) w.
Proof.
  intros Ha Hn Hp Hnode Hsize Hchan Hs.
  assert (Hdev' : attrs w !! "device" = Some (VStr d)) by (rewrite Ha; exact Hdev).
  assert (Hc' : attrs w !! "lockin_demod_c" = Some (VStr c)) by (rewrite Ha; exact Hc).
  unfold bind_locals.
  rewrite (bind_pure _ _ _ _ (pure_getattr _ _ _ Hdev')).
  cbn [lookup_key]. rewrite Hp, Hnode.
  rewrite (bind_pure _ _ _ _ (pure_getattr _ _ _ Hc')).
  cbn [int_conv]. rewrite Hn, bind_ret.
  replace (Z.of_nat (size demods) >=? n) with true
    by (symmetry; apply Z.geb_le; exact Hsize).
  rewrite (bind_pure _ _ _ _ (pure_getattr _ _ _ Hc')).
  cbn [lookup_key]. rewrite Hchan, Hs. reflexivity.
Qed.

(** X11: A poll response that holds the sample block of the channel, its
    [x] and [y] arrays equally long.  [_collect_data] returns, having
    appended the magnitudes [hypot(x, y)], element by element, to the one
    list and the timestamps divided by [float(clockbase)] to the other; it
    reads the clock base once, after the poll, and unsubscribes last.  A
    block flagged for data loss adds one warning line on stderr and changes
    nothing else: the block is appended all the same. *)
Theorem collect_data_sample_block
  (e : Env) (l : list event) (data_list time_list : list (list Q))
  (dev_node : gmap string (gmap string (gmap string sample)))
  (demods : gmap string (gmap string sample)) (chan : gmap string sample)
  (smp : sample) (n cb : Z) (q : Q) :
  py_int c = Some n ->
  poll !! d = Some dev_node ->
  dev_node !! "demods" = Some demods ->
  n <= Z.of_nat (size demods) ->
  demods !! c = Some chan ->
  chan !! "sample" = Some smp ->
  length (sample_x smp) = length (sample_y smp) ->
  (forall e0, fst (zi (daq_getInt (node d "/clockbase")) e0) = inr (VInt cb)) ->
  float_of_int cb = Some q ->
  exists e' E,
    _collect_data data_list time_list (mk_world a e l)
    = Ret ((data_list ++ [zip_with np_hypot (sample_x smp) (sample_y smp)])%list,
           (time_list ++ [map (fun t => np_divide t q) (sample_timestamp smp)])%list)
          (mk_world a e' (l ++ E)%list) /\
    zi_calls_of E = [daq_sync; daq_subscribe (chan_node d "/demods/" c "/sample");
                     daq_getInt (node d "/clockbase"); daq_unsubscribe "*"] /\
    stderr_of E = if sample_dataloss smp then ["warning: Sample loss detected."] else [].
Proof.
  intros Hn Hp Hnode Hsize Hchan Hs Hxy Hcb Hq.
  start (_collect_data data_list time_list (mk_world a e l)).
  collect_run ltac:(fun k w P =>
    refine (sat_eq _ _ P
              (bind_eq _ _ k w
                 (bind_locals_sample w dev_node demods chan smp n eq_refl
                    Hn Hp Hnode Hsize Hchan Hs)) _);
    unfold read_sample, hypot_arrays;
    rewrite Hxy, Nat.eqb_refl).
  lazymatch goal with
  | |- sat (bind (getInt ?path) ?k (mk_world ?a0 ?e0 ?l0)) ?P =>
      let Hpa := fresh "Hpa" in
      eassert (Hpa : pure_at path (mk_world a0 e0 l0) _) by pure_tac;
      refine (sat_eq _ _ P (bind_getInt a0 e0 l0 _ Hdaq path k _ _ Hpa (Hcb e0)) _);
      clear Hpa; cbv beta; forget_env
  end.
  unfold float_of at 1. rewrite Hq.
  repeat first [ step | zi_step Hdaq zi_any ].
  destruct (sample_dataloss smp).
  - repeat first [ step | zi_step Hdaq zi_any ].
    unfold sat, ret. eexists _, _.
    split; [do 2 f_equal; log_eq|]. split; reflexivity.
  - repeat first [ step | zi_step Hdaq zi_any ].
    unfold sat, ret. eexists _, _.
    split; [do 2 f_equal; log_eq|]. split; reflexivity.
Qed.

End CollectEdges.

(** *** [initialize_lockin] on any device *)

Lemma pure_float_attr (name s : string) (q : Q) (w : World Env) :
  attrs w !! name = Some (VStr s) ->
  py_float s = Some q ->
  pure_at (bind (getattr name) (fun c => float_of c)) w (VFloat q).
Proof.
  intros Hn Hq. unfold pure_at.
  rewrite (bind_pure _ _ _ _ (pure_getattr _ _ _ Hn)).
  unfold float_of. rewrite Hq. reflexivity.
Qed.

Section AnyFamily.

Variables (d in_c demod_c osc_c devtype options : string).
Variables (demod_rate time_constant osc_freq : pyval) (tc fo fi : Q).

(** The detector link answers every call, and reports [devtype] and
    [options] as the device's type and options. *)
Hypothesis zi_answers : forall c e, exists v, fst (zi c e) = inr v.
Hypothesis zi_devtype :
  forall e, fst (zi (daq_getByte (node d "/features/devtype")) e) = inr (VStr devtype).
Hypothesis zi_options :
  forall e, fst (zi (daq_getByte (node d "/features/options")) e) = inr (VStr options).

Ltac zi_reply c e k :=
  first
    [ let H := constr:(zi_devtype e : fst (zi c e) = inr _) in k H
    | let H := constr:(zi_options e : fst (zi c e) = inr _) in k H
    | let v := fresh "v" in
      let Hv := fresh "Hv" in
      destruct (zi_answers c e) as [v Hv]; k Hv ].

(** X19: on a detector link that answers, whatever type and options the
    device reports, [initialize_lockin] raises nothing and sends exactly
    [lockin_config]: the two queries and three resets, the settings of the
    first family named in the device type, the input and demodulator
    settings, the enable of the chosen demodulator for a UHF device only,
    the two selections for options that name MF, and the rest; it ends with
    [unsubscribe] and [sync]. *)
Theorem initialize_lockin_sends (w : World Env) (id : Z) :
  attrs w !! "daq" = Some (VObj id) ->
  attrs w !! "device" = Some (VStr d) ->
  attrs w !! "lockin_in_c" = Some (VStr in_c) ->
  attrs w !! "lockin_demod_c" = Some (VStr demod_c) ->
  attrs w !! "lockin_osc_c" = Some (VStr osc_c) ->
  attrs w !! "demod_rate" = Some demod_rate ->
  attrs w !! "lockin_time_constant" = Some time_constant ->
  attrs w !! "lockin_osc_freq" = Some osc_freq ->
  num_of time_constant = Some tc ->
  Qle_bool 0 (10 * tc) = true ->
  py_float osc_c = Some fo ->
  py_float in_c = Some fi ->
  exists w' evs,
    initialize_lockin w = Ret tt w' /\
    attrs w' = attrs w /\
    log w' = (log w ++ evs)%list /\
    zi_calls_of evs
    = lockin_config d in_c demod_c osc_c demod_rate time_constant osc_freq
        devtype options fo fi.
Proof.
  destruct w as [a e l]. cbn [attrs log].
  intros Hdaq Hdev Hin Hdem Hosc Hrate Htc Hfreq Hnum Hpos Hfo Hfi.
  start (initialize_lockin (mk_world a e l)).
  unfold initialize_lockin, family_config, lockin_config, family_calls, option_calls.
  repeat first
    [ step
    | lazymatch goal with
      | |- sat (bind (setInt ?path (bind (getattr "lockin_osc_c") ?f)) ?k
                  (mk_world ?a0 ?e0 ?l0)) ?P =>
          let Hp := fresh "Hp" in
          eassert (Hp : pure_at path (mk_world a0 e0 l0) _) by pure_tac;
          lazymatch type of Hp with
          | pure_at _ _ ?p =>
              zi_reply (daq_setInt p (VFloat fo)) e0
                ltac:(fun Hr =>
                  refine (sat_eq _ _ P
                            (bind_setInt a0 e0 l0 _ Hdaq path _ k p (VFloat fo) _ Hp
                               (pure_float_attr "lockin_osc_c" osc_c fo (mk_world a0 e0 l0) Hosc Hfo)
                               Hr) _))
          end;
          clear Hp; cbv beta; forget_env
      | |- sat (bind (setInt ?path (bind (getattr "lockin_in_c") ?f)) ?k
                  (mk_world ?a0 ?e0 ?l0)) ?P =>
          let Hp := fresh "Hp" in
          eassert (Hp : pure_at path (mk_world a0 e0 l0) _) by pure_tac;
          lazymatch type of Hp with
          | pure_at _ _ ?p =>
              zi_reply (daq_setInt p (VFloat fi)) e0
                ltac:(fun Hr =>
                  refine (sat_eq _ _ P
                            (bind_setInt a0 e0 l0 _ Hdaq path _ k p (VFloat fi) _ Hp
                               (pure_float_attr "lockin_in_c" in_c fi (mk_world a0 e0 l0) Hin Hfi)
                               Hr) _))
          end;
          clear Hp; cbv beta; forget_env
      end
    | zi_step Hdaq zi_reply
    | lazymatch goal with
      | |- sat (bind (py_in _ (VStr _)) _ _) _ => unfold py_in at 1
      | |- sat (bind (if ?b then _ else _) _ _) _ =>
          first [ match goal with H : b = _ |- _ => rewrite H end
                | destruct b eqn:? ]
      | |- sat (bind (match num_of time_constant with _ => _ end) _ _) _ =>
          rewrite Hnum
      | |- sat (bind (sleep (VFloat ?q)) ?k (mk_world ?a ?e ?l)) ?P =>
          refine (sat_eq _ _ P (bind_sleep a e l (VFloat q) q k eq_refl Hpos) _)
      end ].
  all: unfold sat, ret; eexists _, _; split; [reflexivity|];
    cbn [attrs log]; split; [reflexivity|]; split;
    [ rewrite <- !app_assoc; reflexivity | reflexivity ].
Qed.

End AnyFamily.

(** *** The lock-in methods before [connect_to_lockin] *)

(** X14: While [daq] holds no session object, as after the constructor,
    [initialize_lockin] and [_collect_data] fail on their first use of it
    with [AttributeError]; nothing is sent to the detector. *)
Theorem lockin_methods_need_session
  (w : World Env) (v : pyval) (data_list time_list : list (list Q)) :
  attrs w !! "daq" = Some v ->
  (forall id, v <> VObj id) ->
  initialize_lockin w
    = Raise (mk_exn AttributeError [VStr "getByte"])
            (mk_world (attrs w) (env w)
               (log w ++ [EvStderr "Initializing lock-in amp" []])%list) /\
  _collect_data data_list time_list w
    = Raise (mk_exn AttributeError [VStr "sync"]) w.
Proof.
  destruct w as [a e l]. cbn [attrs env log]. intros Hv Hno.
  assert (Hm : forall name l0,
             daq_method name (mk_world a e l0)
             = Raise (mk_exn AttributeError [VStr name]) (mk_world a e l0)).
  { intros name l0. unfold daq_method.
    rewrite (bind_getattr a e l0 _ _ _ Hv).
    destruct v; try reflexivity. contradiction (Hno id eq_refl). }
  split.
  - unfold initialize_lockin. rewrite bind_stderr_write.
    unfold getByte. rewrite !bind_bind. unfold bind at 1. rewrite Hm. reflexivity.
  - unfold _collect_data, sync. rewrite !bind_bind. unfold bind at 1.
    rewrite Hm. reflexivity.
Qed.

(** *** The constructor *)

(** Look a name up in a pile of assignments. *)
Ltac lookup_pile :=
  lazymatch goal with
  | H : ?P |- ?P => exact H
  | |- <[?i:=_]> _ !! ?j = _ =>
      first [ constr_eq i j; apply lookup_insert_eq
            | rewrite lookup_insert_ne by discriminate; lookup_pile ]
  | |- ∅ !! _ = None => apply lookup_empty
  end.

(** X15: The constructor on a new object.  When [SidekickSDK_Initialize] returns
    the success code 0, it returns with [handle], [device] and [daq] set to
    [None] and [laser_on] false, and with neither [qcl_temp_c] nor
    [qcl_width_ns] bound.  On any other code it raises [SDK_Exception]
    before [handle] is bound, so a [turn_off_laser] on that object raises
    [AttributeError]. *)
Theorem init_outcome (e : Env) (l : list event) (q : Q) :
  py_float "0" = Some q ->
  (sdk_ret (fst (sdk SidekickSDK_Initialize e)) = 0 ->
   exists w',
     __init__ (mk_world ∅ e l) = Ret tt w' /\
     attrs w' !! "handle" = Some VNone /\
     attrs w' !! "device" = Some VNone /\
     attrs w' !! "daq" = Some VNone /\
     attrs w' !! "laser_on" = Some (VBool false) /\
     attrs w' !! "qcl_temp_c" = None /\
     attrs w' !! "qcl_width_ns" = None /\
     calls_of (log w') = (calls_of l ++ [SidekickSDK_Initialize])%list) /\
  (sdk_ret (fst (sdk SidekickSDK_Initialize e)) <> 0 ->
   exists w',
     __init__ (mk_world ∅ e l)
       = Raise (mk_exn SDK_Exception [VStr "Unable to initialize SDK"]) w' /\
     attrs w' !! "handle" = None /\
     turn_off_laser w' = Raise (mk_exn AttributeError [VStr "handle"]) w').
Proof.
  intros Hq.
  assert (Hrun : exists a0 : gmap string pyval,
    a0 !! "handle" = None /\ a0 !! "device" = None /\ a0 !! "daq" = None /\
    a0 !! "laser_on" = Some (VBool false) /\
    a0 !! "qcl_temp_c" = None /\ a0 !! "qcl_width_ns" = None /\
    a0 !! "sidekick_sdk_ret_success" = Some (VInt 0) /\
    __init__ (mk_world ∅ e l) =
    bind (_call_sdk_bool SidekickSDK_Initialize
            "SDK initialization successful" "Unable to initialize SDK")
         (fun _ => bind (setattr "handle" VNone)
         (fun _ => bind (setattr "device" VNone)
         (fun _ => setattr "daq" VNone))) (mk_world a0 e l)).
  { eexists. repeat (apply conj; [shelve|]).
    unfold __init__. rewrite !bind_setattr.
    erewrite bind_getattr by lookup_pile.
    unfold float_of. rewrite Hq, bind_ret. cbn [num_of].
    rewrite !bind_setattr. reflexivity.
    Unshelve. all: lookup_pile. }
  destruct Hrun as (a0 & Hh & Hd & Hq0 & Hon & Ht & Hw & Hs & Hrun).
  split; intros Hret; rewrite Hrun; unfold bind at 1;
    rewrite (call_sdk_bool_run _ _ _ 0 a0 e l Hs); cbv zeta.
  - rewrite Hret. cbn [Z.eqb].
    rewrite !bind_setattr. unfold setattr. cbn [attrs env log].
    eexists. split; [reflexivity|]. cbn [attrs log].
    repeat apply conj; try lookup_pile.
    rewrite calls_of_app. reflexivity.
  - apply Z.eqb_neq in Hret. rewrite Hret.
    eexists. split; [reflexivity|]. cbn [attrs].
    split; [exact Hh|]. apply turn_off_laser_unbound. exact Hh.
Qed.

(** *** [connect_to_lockin] *)

Lemma getattr_Ret_inv (name : string) (w w' : World Env) (v : pyval) :
  getattr name w = Ret v w' -> attrs w !! name = Some v /\ w' = w.
Proof.
  unfold getattr. destruct (attrs w !! name); [|discriminate].
  intros [= -> ->]. split; reflexivity.
Qed.

Lemma zi_do_Ret_inv (c : zi_call) (w w' : World Env) (v : pyval) :
  zi_do c w = Ret v w' ->
  fst (zi c (env w)) = inr v /\
  w' = mk_world (attrs w) (snd (zi c (env w))) (log w ++ [EvZi c (inr v)])%list.
Proof.
  unfold zi_do. cbv zeta. destruct (fst (zi c (env w))) as [x|u] eqn:E; [discriminate|].
  intros [= -> <-]. split; reflexivity.
Qed.

(** X16: A run of [connect_to_lockin] that returns has opened a session at
    [lockin_ip], [lockin_port], stored it in [daq], asked the library to
    detect the device on that very session, and stored the answer in
    [device]: two calls, in this order, and one line on stderr. *)
Theorem connect_to_lockin_returns (w w' : World Env) :
  connect_to_lockin w = Ret tt w' ->
  exists ip port d dev e',
    attrs w !! "lockin_ip" = Some ip /\
    attrs w !! "lockin_port" = Some port /\
    w' = mk_world (<["device" := dev]> (<["daq" := d]> (attrs w))) e'
           (log w ++ [EvZi (ziDAQServer ip port) (inr d);
                      EvZi (autoDetect d) (inr dev);
                      EvStderr "Connected to lock-In device {}" [dev]])%list.
Proof.
  destruct w as [a e l]. unfold connect_to_lockin. intros H.
  peel H. apply getattr_Ret_inv in Hx as [Hip ->].
  peel H. apply getattr_Ret_inv in Hx as [Hport ->].
  peel H. apply zi_do_Ret_inv in Hx as [Hd ->].
  rewrite bind_setattr in H. cbn [attrs env log] in H.
  erewrite bind_getattr in H by apply lookup_insert_eq.
  peel H. apply zi_do_Ret_inv in Hx as [Hdev ->].
  rewrite bind_setattr in H. cbn [attrs env log] in H.
  erewrite bind_getattr in H by apply lookup_insert_eq.
  unfold stderr_write, emit in H. cbn [attrs env log] in H.
  injection H as <-.
  eexists _, _, _, _, _. cbn [attrs log].
  split; [exact Hip|]. split; [exact Hport|].
  rewrite <- !app_assoc. reflexivity.
Qed.

(** *** The setters *)

(** X17: In the class as written [set_pulserate] and [set_current] store the new
    value in the driver's attribute and then fail on the lookup of
    [__read_qcl_params]: [AttributeError] is raised, and no command reaches
    the hardware. *)
Theorem setters_store_then_fail (value : pyval) (w : World Env) :
  set_pulserate Laser_Driver_readers Laser_Driver_writers value w
    = Raise (mk_exn AttributeError [VStr "_Laser_Driver__read_qcl_params"])
            (mk_world (<["qcl_pulse_rate_hz" := value]> (attrs w)) (env w) (log w)) /\
  set_current Laser_Driver_readers Laser_Driver_writers value w
    = Raise (mk_exn AttributeError [VStr "_Laser_Driver__read_qcl_params"])
            (mk_world (<["qcl_current_ma" := value]> (attrs w)) (env w) (log w)).
Proof. destruct w as [a e l]. split; reflexivity. Qed.

(** *** [turn_on_laser] on a laser that is already on *)

(** X7: With [laser_on] already true the loop is not entered, the emission flag
    is still its initial [False], and the method raises: it commands
    nothing and reads nothing. *)
Theorem turn_on_laser_already_on (fuel : nat) (w : World Env) (v : pyval) :
  attrs w !! "laser_on" = Some v ->
  truthy v = true ->
  turn_on_laser fuel w
  = Raise (mk_exn Laser_Exception [VStr "Laser failed to turn on"]) w.
Proof.
  destruct w as [a e l]. cbn [attrs]. intros Hv Ht.
  unfold turn_on_laser, bind.
  rewrite (turn_on_loop_exit fuel fuel 0 false a e l v Hv Ht). reflexivity.
Qed.

(** X8: [turn_off_laser] leaves [laser_on] as it was.  So after a shutdown of a
    laser that was on, the next [turn_on_laser] raises at once, without a
    command to the hardware. *)
Theorem turn_on_after_turn_off (fuel : nat) (w : World Env) (h v : pyval) :
  attrs w !! "handle" = Some h ->
  attrs w !! "laser_on" = Some v ->
  truthy v = true ->
  exists w1,
    turn_off_laser w = Ret tt w1 /\
    attrs w1 !! "laser_on" = Some v /\
    turn_on_laser fuel w1
    = Raise (mk_exn Laser_Exception [VStr "Laser failed to turn on"]) w1.
Proof.
  intros Hh Hv Ht.
  destruct (turn_off_laser_run w h Hh) as (w1 & Hoff & Ha & _).
  assert (Hv1 : attrs w1 !! "laser_on" = Some v) by (rewrite Ha; exact Hv).
  exists w1. split; [exact Hoff|]. split; [exact Hv1|].
  destruct w1 as [a1 e1 l1]. cbn [attrs] in Hv1.
  unfold turn_on_laser, bind.
  rewrite (turn_on_loop_exit fuel fuel 0 false a1 e1 l1 v Hv1 Ht). reflexivity.
Qed.

(** *** [startup] cannot complete *)

(** A computation that, when it returns, has left the name [k] as it was:
    bound to the same value ([o] is [Some v]) or unbound ([o] is [None]). *)
Definition keeps {A} (k : string) (o : option pyval) (m : M A) : Prop :=
  forall w x w', attrs w !! k = o -> m w = Ret x w' -> attrs w' !! k = o.

Lemma keeps_bind {A B} (k : string) (o : option pyval) (m : M A) (f : A -> M B) :
  keeps k o m -> (forall x, keeps k o (f x)) -> keeps k o (bind m f).
Proof.
  intros Hm Hf w y w' Hk. unfold bind.
  destruct (m w) as [x w1|x w1|w1] eqn:Hrun; try discriminate.
  apply (Hf x). exact (Hm _ _ _ Hk Hrun).
Qed.

Lemma keeps_ret {A} (k : string) (o : option pyval) (x : A) : keeps k o (ret x).
Proof. intros w y w' Hk [= _ <-]. exact Hk. Qed.

Lemma keeps_raise {A} (k : string) (o : option pyval) (x : exn) : keeps k o (raise x : M A).
Proof. intros w y w' _ H. discriminate H. Qed.

Lemma keeps_out_of_fuel {A} (k : string) (o : option pyval) : keeps k o (out_of_fuel : M A).
Proof. intros w y w' _ H. discriminate H. Qed.

Lemma keeps_getattr (k name : string) (o : option pyval) : keeps k o (getattr name).
Proof.
  intros w y w' Hk. unfold getattr.
  destruct (attrs w !! name); [intros [= _ <-]; exact Hk | discriminate].
Qed.

Lemma keeps_setattr (k name : string) (o : option pyval) (v : pyval) :
  name <> k -> keeps k o (setattr name v).
Proof.
  intros Hne w y w' Hk [= _ <-]. cbn [attrs].
  rewrite lookup_insert_ne by exact Hne. exact Hk.
Qed.

Lemma keeps_sdk_do (k : string) (o : option pyval) (c : sdk_call) : keeps k o (sdk_do c).
Proof. intros w y w' Hk [= _ <-]. exact Hk. Qed.

Lemma keeps_sdk_h (k : string) (o : option pyval) (f : pyval -> sdk_call) : keeps k o (sdk_h f).
Proof. apply keeps_bind; [apply keeps_getattr | intros; apply keeps_sdk_do]. Qed.

Lemma keeps_stderr_write (k fmt : string) (o : option pyval) (args : list pyval) :
  keeps k o (stderr_write fmt args).
Proof. intros w y w' Hk [= _ <-]. exact Hk. Qed.

Lemma keeps_time_now (k : string) (o : option pyval) : keeps k o time_now.
Proof. intros w y w' Hk [= _ <-]. exact Hk. Qed.

Lemma keeps_sleep (k : string) (o : option pyval) (v : pyval) : keeps k o (sleep v).
Proof.
  intros w y w' Hk. unfold sleep. destruct (num_of v); [|discriminate].
  destruct (Qle_bool 0 q); [intros [= _ <-]; exact Hk | discriminate].
Qed.

Lemma keeps_c_int_arg (k : string) (o : option pyval) (v : pyval) : keeps k o (c_int_arg v).
Proof.
  intros w y w' Hk. unfold c_int_arg.
  destruct (int_of v); [intros [= _ <-]; exact Hk | discriminate].
Qed.

Lemma keeps_c_float_arg (k : string) (o : option pyval) (v : pyval) : keeps k o (c_float_arg v).
Proof.
  intros w y w' Hk. unfold c_float_arg.
  destruct (c_float v); [discriminate | intros [= _ <-]; exact Hk].
Qed.

Lemma keeps_py_gt (k : string) (o : option pyval) (q : Q) (v : pyval) : keeps k o (py_gt q v).
Proof.
  intros w y w' Hk. unfold py_gt.
  destruct (num_of v); [intros [= _ <-]; exact Hk | discriminate].
Qed.

Lemma keeps_getattr_then {A} (k : string) (o : option pyval) (name : string)
  (f : pyval -> M A) :
  (forall v, keeps k o (f v)) -> keeps k o (bind (getattr name) (fun v => f v)).
Proof. intros Hf. apply keeps_bind; [apply keeps_getattr | exact Hf]. Qed.

Ltac keeps_tac :=
  repeat first
    [ apply keeps_ret | apply keeps_raise | apply keeps_out_of_fuel
    | apply keeps_getattr | apply keeps_sdk_do | apply keeps_sdk_h
    | apply keeps_stderr_write | apply keeps_time_now | apply keeps_sleep
    | apply keeps_py_gt | apply keeps_c_int_arg | apply keeps_c_float_arg
    | apply keeps_setattr; discriminate
    | apply keeps_bind; [|intros ?]
    | match goal with |- keeps _ _ (if ?b then _ else _) => destruct b end ].

Lemma keeps_connect_laser : keeps "qcl_temp_c" None connect_laser.
Proof. unfold connect_laser, _call_sdk_bool, _call_sdk_bool_ptr. keeps_tac. Qed.

Lemma keeps_arm_laser_loop (fuel : nat) (old_t : Q) (flag : bool) :
  keeps "qcl_temp_c" None (arm_laser_loop fuel old_t flag).
Proof.
  revert flag. induction fuel as [|fuel IH]; intros flag;
    cbn [arm_laser_loop]; destruct flag; keeps_tac. apply IH.
Qed.

Lemma keeps_arm_laser (fuel : nat) : keeps "qcl_temp_c" None (arm_laser fuel).
Proof. unfold arm_laser. keeps_tac. apply keeps_arm_laser_loop. Qed.

Lemma keeps_read_qcl_params (k : string) (o : option pyval) : keeps k o _read_qcl_params.
Proof. unfold _read_qcl_params. keeps_tac. Qed.

Lemma returns_bind {A B} (m : M A) (k : A -> M B) (w : World Env) :
  returns (bind m k w) = true ->
  exists x w1, m w = Ret x w1 /\ returns (k x w1) = true.
Proof.
  unfold bind. destruct (m w) as [x w1|x w1|w1]; try discriminate.
  intros H. exists x, w1. split; [reflexivity | exact H].
Qed.

(** Without [qcl_temp_c], [set_qcl_params] does not return, whatever the
    link answers. *)
Lemma set_qcl_params_needs_temp (fuel : nat) (w : World Env) :
  attrs w !! "qcl_temp_c" = None ->
  returns (set_qcl_params fuel w) = false.
Proof.
  intros Hk. apply not_true_is_false. intros Hret.
  unfold set_qcl_params in Hret.
  apply returns_bind in Hret as (p0 & w1 & H1 & Hret).
  apply (keeps_read_qcl_params _ _ _ _ _ Hk) in H1.
  apply returns_bind in Hret as (rate & w2 & H2 & Hret).
  assert (Hk2 : keeps "qcl_temp_c" None
                  (bind (getattr "qcl_pulse_rate_hz") (fun v => c_int_arg v))).
  { apply keeps_bind; [apply keeps_getattr|]. intros v.
    unfold c_int_arg. destruct (int_of v); [apply keeps_ret | apply keeps_raise]. }
  assert (H2' : attrs w2 !! "qcl_temp_c" = None) by exact (Hk2 _ _ _ H1 H2).
  apply returns_bind in Hret as (temp & w3 & H3 & _).
  unfold bind, getattr in H3. rewrite H2' in H3. discriminate H3.
Qed.

Lemma private_ns_stages (fuel : nat) :
  private_ns fuel (mangle "__connect_laser") = Some connect_laser /\
  private_ns fuel (mangle "__arm_laser") = Some (arm_laser fuel) /\
  private_ns fuel (mangle "__set_qcl_params") = Some (set_qcl_params fuel).
Proof. repeat split; reflexivity. Qed.

(** X9: Even where the seven stage names lead to the methods of the class,
    [startup] never returns on a driver that lacks [qcl_temp_c], as every
    driver the constructor made does: whatever the link answers, the run
    fails in one of the first three stages. *)
Theorem startup_never_completes
  (fuel : nat) (wave waveunit current pulsewid pulserate : pyval) (w : World Env) :
  attrs w !! "qcl_temp_c" = None ->
  returns (startup (private_ns fuel) wave waveunit current pulsewid pulserate w) = false.
Proof.
  intros Hk. apply not_true_is_false. intros Hret.
  unfold startup in Hret.
  apply returns_bind in Hret as ([] & w0 & H0 & Hret).
  assert (Hk0 : attrs w0 !! "qcl_temp_c" = None).
  { rewrite startup_assign_run in H0. injection H0 as <-. cbn [attrs].
    rewrite !lookup_insert_ne by discriminate. exact Hk. }
  unfold try_except in Hret.
  destruct (startup_stages (private_ns fuel) w0) as [[] w1|x w1|w1] eqn:Hst.
  - unfold startup_stages, call_method in Hst.
    destruct (private_ns_stages fuel) as (E1 & E2 & E3).
    rewrite E1, E2, E3 in Hst.
    assert (Hr : returns (Ret tt w1 : Res Env unit) = true) by reflexivity.
    rewrite <- Hst in Hr. clear Hst.
    apply returns_bind in Hr as (u1 & w2 & H1 & Hr).
    apply (keeps_connect_laser _ _ _ Hk0) in H1.
    apply returns_bind in Hr as (u2 & w3 & H2 & Hr).
    apply (keeps_arm_laser fuel _ _ _ H1) in H2.
    apply returns_bind in Hr as (u3 & w4 & H3 & _).
    pose proof (set_qcl_params_needs_temp fuel w3 H2) as Hn.
    rewrite H3 in Hn. discriminate Hn.
  - unfold startup_except in Hret.
    apply returns_bind in Hret as (u & w2 & _ & Hret). discriminate Hret.
  - discriminate Hret.
Qed.

(** *** A current that does not fit its field *)

Lemma read_qcl_params_in_range (w w' : World Env) (p : qcl_params) :
  _read_qcl_params w = Ret p w' -> 0 <= current_ma_ptr p < 2 ^ 16.
Proof.
  unfold _read_qcl_params. intros H. do 4 peel H. injection H as <- _.
  cbn [as_ctypes current_ma_ptr]. apply Z.mod_pos_bound. lia.
Qed.

Lemma py_ne_int (z s : Z) : py_ne (inject_Z z) (VInt s) = negb (z =? s).
Proof. rewrite <- py_eq_int. unfold py_eq. rewrite negb_involutive. reflexivity. Qed.

(** The loop test, when the current held by the driver is one no 16-bit
    cell can hold: if it yields at all, it yields true. *)
Lemma qcl_differs_out_of_range (p : qcl_params) (w w' : World Env) (b : bool) (cur : Z) :
  attrs w !! "qcl_current_ma" = Some (VInt cur) ->
  0 <= current_ma_ptr p < 2 ^ 16 ->
  ~ (0 <= cur < 2 ^ 16) ->
  qcl_differs p w = Ret b w' ->
  b = true /\ w' = w.
Proof.
  intros Hc Hp Hcur H. unfold qcl_differs in H.
  peel H. apply getattr_Ret_inv in Hx as [_ ->].
  destruct (py_ne _ x); [injection H as <- <-; split; reflexivity|].
  peel H. apply getattr_Ret_inv in Hx as [_ ->].
  destruct (single_ne _ x0); [injection H as <- <-; split; reflexivity|].
  peel H. apply getattr_Ret_inv in Hx as [Hx ->].
  rewrite Hc in Hx. injection Hx as <-.
  rewrite py_ne_int in H.
  replace (current_ma_ptr p =? cur) with false in H
    by (symmetry; apply Z.eqb_neq; lia).
  injection H as <- <-. split; reflexivity.
Qed.

Lemma set_qcl_params_loop_spins (fuel : nat) (old_t : Q) (cur : Z) :
  ~ (0 <= cur < 2 ^ 16) ->
  forall (p : qcl_params) (w : World Env),
  attrs w !! "qcl_current_ma" = Some (VInt cur) ->
  0 <= current_ma_ptr p < 2 ^ 16 ->
  returns (set_qcl_params_loop fuel old_t p w) = false.
Proof.
  intros Hcur. induction fuel as [|fuel IH]; intros p w Hc Hp;
    apply not_true_is_false; intros Hret; cbn [set_qcl_params_loop] in Hret;
    apply returns_bind in Hret as (b & w1 & Hd & Hret);
    destruct (qcl_differs_out_of_range p w w1 b cur Hc Hp Hcur Hd) as [-> ->].
  - discriminate Hret.
  - apply returns_bind in Hret as (p' & w2 & Hr & Hret).
    pose proof (read_qcl_params_in_range _ _ _ Hr) as Hp'.
    apply (keeps_read_qcl_params _ _ _ _ _ Hc) in Hr.
    apply returns_bind in Hret as (t & w3 & H3 & Hret).
    apply (keeps_time_now _ _ _ _ _ Hr) in H3.
    apply returns_bind in Hret as (tmo & w4 & H4 & Hret).
    apply (keeps_getattr _ _ _ _ _ _ H3) in H4.
    apply returns_bind in Hret as (late & w5 & H5 & Hret).
    apply (keeps_py_gt _ _ _ _ _ _ _ H4) in H5.
    apply returns_bind in Hret as (u & w6 & H6 & Hret).
    assert (H6' : attrs w6 !! "qcl_current_ma" = Some (VInt cur)).
    { destruct late; injection H6 as _ <-; exact H5. }
    apply returns_bind in Hret as (u' & w7 & H7 & Hret).
    apply (keeps_sleep _ _ _ _ _ _ H6') in H7.
    rewrite (IH p' w7 H7 Hp') in Hret. discriminate Hret.
Qed.

(** X18: With a current outside 0..65535 in [qcl_current_ma], [set_qcl_params]
    never returns, whatever the link answers and however many rounds it is
    given: the value written and every value read back are 16-bit values,
    so the loop test stays true. *)
Theorem set_qcl_params_current_out_of_range (fuel : nat) (w : World Env) (cur : Z) :
  attrs w !! "qcl_current_ma" = Some (VInt cur) ->
  ~ (0 <= cur < 2 ^ 16) ->
  returns (set_qcl_params fuel w) = false.
Proof.
  intros Hc Hcur. apply not_true_is_false. intros Hret.
  unfold set_qcl_params in Hret.
  apply returns_bind in Hret as (p0 & w1 & H1 & Hret).
  apply (keeps_read_qcl_params _ _ _ _ _ Hc) in H1.
  pose proof (fun A => @keeps_getattr_then A "qcl_current_ma" (Some (VInt cur))) as Hget.
  apply returns_bind in Hret as (rate & w2 & H2 & Hret).
  apply (Hget _ _ _ (keeps_c_int_arg _ _) _ _ _ H1) in H2.
  apply returns_bind in Hret as (temp & w3 & H3 & Hret).
  apply (Hget _ _ _ (keeps_c_float_arg _ _) _ _ _ H2) in H3.
  apply returns_bind in Hret as (c & w4 & H4 & Hret).
  pose proof (Hget _ _ _ (keeps_c_int_arg _ _) _ _ _ H3 H4) as H4'.
  apply returns_bind in Hret as (wid & w5 & H5 & Hret).
  apply (Hget _ _ _ (keeps_c_int_arg _ _) _ _ _ H4') in H5.
  apply returns_bind in Hret as (u & w6 & H6 & Hret).
  assert (H6' : attrs w6 !! "qcl_current_ma" = Some (VInt cur)).
  { revert H6. apply (fun K => K w5 u w6 H5).
    unfold _update_qcl_params. keeps_tac. }
  apply returns_bind in Hret as (t & w7 & H7 & Hret).
  apply (keeps_time_now _ _ _ _ _ H6') in H7.
  rewrite (set_qcl_params_loop_spins fuel t cur Hcur _ w7 H7) in Hret;
    [discriminate Hret|].
  cbn [current_ma_ptr]. apply Z.mod_pos_bound. lia.
Qed.

(** *** The polled stages: armed, tuned, cooled *)

Ltac same_run IH :=
  unfold bind;
  repeat first
    [ reflexivity
    | apply IH
    | match goal with
      | |- match ?x with _ => _ end = match ?x with _ => _ end => destruct x
      | |- (if ?b then _ else _) = (if ?b then _ else _) => destruct b
      | |- (if ?b then _ else _) _ = (if ?b then _ else _) _ => destruct b
      end ].

Lemma arm_laser_loop_poll (fuel : nat) (old_t : Q) (flag : bool) (w : World Env) :
  arm_laser_loop fuel old_t flag w
  = poll_loop SidekickSDK_ReadInfoStatusMask SidekickSDK_isLaserArmed
      "arm_laser_timeout" "Unable to arm laser" fuel old_t flag w.
Proof.
  revert flag w. induction fuel as [|fuel IH]; intros flag w;
    cbn [arm_laser_loop poll_loop]; destruct flag; try reflexivity.
  same_run IH.
Qed.

Lemma set_wavelength_loop_poll (fuel : nat) (old_t : Q) (flag : bool) (w : World Env) :
  set_wavelength_loop fuel old_t flag w
  = poll_loop SidekickSDK_ExecTuneToWW SidekickSDK_isTuned
      "parameter_timeout" "Wavelength not tuned." fuel old_t flag w.
Proof.
  revert flag w. induction fuel as [|fuel IH]; intros flag w;
    cbn [set_wavelength_loop poll_loop]; destruct flag; try reflexivity.
  same_run IH.
Qed.

Lemma cool_tecs_loop_poll (fuel : nat) (old_t : Q) (flag : bool) (w : World Env) :
  cool_tecs_loop fuel old_t flag w
  = poll_loop SidekickSDK_ReadInfoStatusMask SidekickSDK_isTempStatusSet
      "cool_tecs_timeout" "TECs unable to cool" fuel old_t flag w.
Proof.
  revert flag w. induction fuel as [|fuel IH]; intros flag w;
    cbn [cool_tecs_loop poll_loop]; destruct flag; try reflexivity.
  same_run IH.
Qed.

Lemma flag_after_app (sel : sdk_call -> bool) (cur : option bool) (l1 l2 : list event) :
  flag_after sel cur (l1 ++ l2) = flag_after sel (flag_after sel cur l1) l2.
Proof. apply fold_left_app. Qed.

Section Polled.

Hypothesis clock_sleep : forall d e, (time_time e + d <= time_time (time_sleep d e))%Q.
Hypothesis clock_sdk : forall c e, (time_time e <= time_time (snd (sdk c e)))%Q.

Variables (pre read : pyval -> sdk_call) (tmo msg : string) (sel : sdk_call -> bool).
Variables (a : gmap string pyval) (h : pyval) (T : Z).
Hypothesis Hh : a !! "handle" = Some h.
Hypothesis HT : a !! tmo = Some (VInt T).
Hypothesis sel_read : sel (read h) = true.
Hypothesis sel_pre : sel (pre h) = false.

(** One more round of the loop. *)
Lemma poll_loop_iter (fuel : nat) (old_t : Q) (e : Env) (l : list event) :
  let e1 := time_sleep (inject_Z 1) e in
  let r0 := fst (sdk (pre h) e1) in
  let e2 := snd (sdk (pre h) e1) in
  let r := fst (sdk (read h) e2) in
  let e3 := snd (sdk (read h) e2) in
  let w3 := mk_world a e3
              (((l ++ [EvSleep (inject_Z 1)]) ++ [EvSdk (pre h) r0])
                 ++ [EvSdk (read h) r])%list in
  poll_loop pre read tmo msg (S fuel) old_t false (mk_world a e l) =
  if negb (Qle_bool (time_time e3 - old_t) (inject_Z T))
  then Raise (mk_exn Laser_Exception [VStr msg]) w3
  else poll_loop pre read tmo msg fuel old_t (out_flag r) w3.
Proof.
  cbv zeta. cbn [poll_loop].
  rewrite (bind_sleep a e l (VInt 1) (inject_Z 1) _ eq_refl eq_refl).
  rewrite (bind_sdk_h _ _ _ _ _ _ Hh).
  rewrite (bind_sdk_h _ _ _ _ _ _ Hh).
  rewrite bind_time_now.
  rewrite (bind_getattr a _ _ _ _ _ HT).
  rewrite py_gt_int, bind_ret.
  destruct (negb _); reflexivity.
Qed.

Lemma clock_after_round (e : Env) :
  (time_time e + 1 <=
   time_time (snd (sdk (read h) (snd (sdk (pre h) (time_sleep (inject_Z 1) e))))))%Q.
Proof.
  eapply Qle_trans; [apply (clock_sleep (inject_Z 1))|].
  eapply Qle_trans; apply clock_sdk.
Qed.

(** The loop ends within [T + 1] rounds: it returns once a read came back
    true, and raises once a round ends later than [T] after [old_t]. *)
Lemma poll_loop_ends (fuel : nat) (old_t : Q) :
  forall (flag : bool) (e : Env) (l : list event),
  (time_time e - old_t <= inject_Z T)%Q ->
  (inject_Z T - (time_time e - old_t) < inject_Z (Z.of_nat fuel))%Q ->
  exists e' E,
    poll_loop pre read tmo msg fuel old_t flag (mk_world a e l)
      = Ret tt (mk_world a e' (l ++ E)%list) /\
    flag_after sel (Some flag) E = Some true /\
    (flag = true \/ exists e0, out_flag (fst (sdk (read h) e0)) = true)
    \/
    poll_loop pre read tmo msg fuel old_t flag (mk_world a e l)
      = Raise (mk_exn Laser_Exception [VStr msg]) (mk_world a e' (l ++ E)%list) /\
    (inject_Z T < time_time e' - old_t)%Q.
Proof.
  induction fuel as [|fuel IH]; intros flag e l Hnot Hbud.
  - destruct flag.
    + exists e, []. left. rewrite app_nil_r.
      split; [reflexivity|]. split; [reflexivity | left; reflexivity].
    + exfalso. change (inject_Z (Z.of_nat 0)) with 0%Q in Hbud. lra.
  - destruct flag.
    + exists e, []. left. rewrite app_nil_r.
      split; [reflexivity|]. split; [reflexivity | left; reflexivity].
    + rewrite poll_loop_iter. cbv zeta.
      pose proof (clock_after_round e) as Hc.
      set (e2 := snd (sdk (pre h) (time_sleep (inject_Z 1) e))) in *.
      set (e3 := snd (sdk (read h) e2)) in *.
      destruct (Qle_bool (time_time e3 - old_t) (inject_Z T)) eqn:Hlate; cbn [negb].
      * apply Qle_bool_iff in Hlate.
        destruct (IH (out_flag (fst (sdk (read h) e2))) e3
                    (((l ++ [EvSleep (inject_Z 1)])
                        ++ [EvSdk (pre h) (fst (sdk (pre h) (time_sleep (inject_Z 1) e)))])
                       ++ [EvSdk (read h) (fst (sdk (read h) e2))])%list Hlate)
          as (e' & E & [(Hrun & Hf & Hsrc) | (Hrun & Hlt)]).
        { rewrite Nat2Z.inj_succ in Hbud. unfold Z.succ in Hbud.
          rewrite inject_Z_plus in Hbud. change (inject_Z 1) with 1%Q in Hbud. lra. }
        -- exists e', ([EvSleep (inject_Z 1);
                        EvSdk (pre h) (fst (sdk (pre h) (time_sleep (inject_Z 1) e)));
                        EvSdk (read h) (fst (sdk (read h) e2))] ++ E)%list.
           left. split; [rewrite Hrun; do 2 f_equal; log_eq|].
           split.
           ++ rewrite flag_after_app. cbn [flag_after fold_left flag_step].
              rewrite sel_pre, sel_read. exact Hf.
           ++ right. destruct Hsrc as [Hsrc|Hsrc]; [exists e2; exact Hsrc | exact Hsrc].
        -- exists e', ([EvSleep (inject_Z 1);
                        EvSdk (pre h) (fst (sdk (pre h) (time_sleep (inject_Z 1) e)));
                        EvSdk (read h) (fst (sdk (read h) e2))] ++ E)%list.
           right. split; [rewrite Hrun; do 2 f_equal; log_eq | exact Hlt].
      * exists e3, [EvSleep (inject_Z 1);
                    EvSdk (pre h) (fst (sdk (pre h) (time_sleep (inject_Z 1) e)));
                    EvSdk (read h) (fst (sdk (read h) e2))].
        right. split; [do 2 f_equal; log_eq|].
        destruct (Qlt_le_dec (inject_Z T) (time_time e3 - old_t)) as [Hgt|Hle];
          [exact Hgt|].
        apply Qle_bool_iff in Hle. rewrite Hle in Hlate. discriminate Hlate.
Qed.

End Polled.

Section Stages.

Hypothesis clock_sleep : forall d e, (time_time e + d <= time_time (time_sleep d e))%Q.
Hypothesis clock_sdk : forall c e, (time_time e <= time_time (snd (sdk c e)))%Q.

Variables (a : gmap string pyval) (h : pyval).
Hypothesis Hh : a !! "handle" = Some h.

Lemma budget_at_entry (T : Z) (fuel : nat) (t : Q) :
  0 <= T -> T < Z.of_nat fuel ->
  (t - t <= inject_Z T)%Q /\ (inject_Z T - (t - t) < inject_Z (Z.of_nat fuel))%Q.
Proof.
  intros H0 Hf. rewrite Zle_Qle in H0. rewrite Zlt_Qlt in Hf.
  change (inject_Z 0) with 0%Q in H0. split; lra.
Qed.

(** X4: [arm_laser] against a clock that moves: given [arm_laser_timeout + 1]
    rounds it ends.  It returns only after the link has answered an armed
    read with true, and then the last such read of the run was true;
    otherwise it raises [Laser_Exception], later than the timeout after the
    call.  The attributes are left as they were. *)
Theorem arm_laser_ends (T : Z) (fuel : nat) (e : Env) (l : list event) :
  a !! "arm_laser_timeout" = Some (VInt T) ->
  0 <= T -> T < Z.of_nat fuel ->
  exists e' E,
    arm_laser fuel (mk_world a e l) = Ret tt (mk_world a e' (l ++ E)%list) /\
    last_flag is_armed_read E = Some true /\
    (exists e0, out_flag (fst (sdk (SidekickSDK_isLaserArmed h) e0)) = true)
    \/
    arm_laser fuel (mk_world a e l)
      = Raise (mk_exn Laser_Exception [VStr "Unable to arm laser"])
              (mk_world a e' (l ++ E)%list) /\
    (inject_Z T < time_time e' - time_time e)%Q.
Proof.
  intros HT H0 Hf.
  pose (e1 := snd (sdk (SidekickSDK_SetLaserArmDisarm h true) e)).
  pose (e2 := snd (sdk (SidekickSDK_ExecLaserArmDisarm h) e1)).
  pose (e3 := snd (sdk (SidekickSDK_ReadInfoStatusMask h) e2)).
  pose (e4 := snd (sdk (SidekickSDK_isLaserArmed h) e3)).
  assert (C : (time_time e <= time_time e4)%Q).
  { assert (C1 : (time_time e <= time_time e1)%Q) by apply clock_sdk.
    assert (C2 : (time_time e1 <= time_time e2)%Q) by apply clock_sdk.
    assert (C3 : (time_time e2 <= time_time e3)%Q) by apply clock_sdk.
    assert (C4 : (time_time e3 <= time_time e4)%Q) by apply clock_sdk.
    lra. }
  destruct (budget_at_entry T fuel (time_time e4) H0 Hf) as [Hnot Hbud].
  destruct (poll_loop_ends clock_sleep clock_sdk
              SidekickSDK_ReadInfoStatusMask SidekickSDK_isLaserArmed
              "arm_laser_timeout" "Unable to arm laser" is_armed_read
              a h T Hh HT eq_refl eq_refl fuel (time_time e4)
              (out_flag (fst (sdk (SidekickSDK_isLaserArmed h) e3))) e4
              ((((l ++ [EvSdk (SidekickSDK_SetLaserArmDisarm h true)
                          (fst (sdk (SidekickSDK_SetLaserArmDisarm h true) e))])
                   ++ [EvSdk (SidekickSDK_ExecLaserArmDisarm h)
                         (fst (sdk (SidekickSDK_ExecLaserArmDisarm h) e1))])
                  ++ [EvSdk (SidekickSDK_ReadInfoStatusMask h)
                        (fst (sdk (SidekickSDK_ReadInfoStatusMask h) e2))])
                 ++ [EvSdk (SidekickSDK_isLaserArmed h)
                       (fst (sdk (SidekickSDK_isLaserArmed h) e3))])%list Hnot Hbud)
    as (e' & E & [(Hrun & Hfl & Hsrc) | (Hrun & Hlt)]).
  - eexists e', _. left.
    split.
    { unfold arm_laser.
      rewrite !(bind_sdk_h _ _ _ _ _ _ Hh), bind_time_now.
      unfold bind at 1. rewrite arm_laser_loop_poll.
      subst e1 e2 e3 e4. rewrite Hrun.
      unfold stderr_write, emit; cbn [attrs env log]. do 2 f_equal. log_eq. }
    split.
    + unfold last_flag. rewrite !flag_after_app.
      cbn [flag_after fold_left flag_step is_armed_read].
      etransitivity; [|exact Hfl]. reflexivity.
    + destruct Hsrc as [Hsrc|Hsrc]; [exists e3; exact Hsrc | exact Hsrc].
  - eexists e', _. right.
    split; [|lra].
    unfold arm_laser.
    rewrite !(bind_sdk_h _ _ _ _ _ _ Hh), bind_time_now.
    unfold bind at 1. rewrite arm_laser_loop_poll.
    subst e1 e2 e3 e4. rewrite Hrun. do 2 f_equal. log_eq.
Qed.

(** X5: [cool_tecs] against a clock that moves: given
    [cool_tecs_timeout + 1] rounds it ends.  It returns only after the link
    has answered a temperature read with true, having then slept
    [cool_tecs_additional] seconds more and written its line; otherwise it
    raises [Laser_Exception], later than [cool_tecs_timeout] after the
    call.  The attributes are left as they were. *)
Theorem cool_tecs_ends (T X : Z) (fuel : nat) (e : Env) (l : list event) :
  a !! "cool_tecs_timeout" = Some (VInt T) ->
  a !! "cool_tecs_additional" = Some (VInt X) ->
  0 <= X -> 0 <= T -> T < Z.of_nat fuel ->
  exists e' E,
    (exists E0,
       cool_tecs fuel (mk_world a e l) = Ret tt (mk_world a e' (l ++ E)%list) /\
       E = (E0 ++ [EvSleep (inject_Z X); EvStderr "TECs are at Temp" []])%list /\
       last_flag is_temp_read E0 = Some true /\
       (exists e0, out_flag (fst (sdk (SidekickSDK_isTempStatusSet h) e0)) = true))
    \/
    cool_tecs fuel (mk_world a e l)
      = Raise (mk_exn Laser_Exception [VStr "TECs unable to cool"])
              (mk_world a e' (l ++ E)%list) /\
    (inject_Z T < time_time e' - time_time e)%Q.
Proof.
  intros HT HX HX0 H0 Hf.
  pose (e1 := snd (sdk (SidekickSDK_ReadInfoStatusMask h) e)).
  pose (e2 := snd (sdk (SidekickSDK_isTempStatusSet h) e1)).
  assert (C : (time_time e <= time_time e2)%Q).
  { assert (C1 : (time_time e <= time_time e1)%Q) by apply clock_sdk.
    assert (C2 : (time_time e1 <= time_time e2)%Q) by apply clock_sdk.
    lra. }
  destruct (budget_at_entry T fuel (time_time e2) H0 Hf) as [Hnot Hbud].
  destruct (poll_loop_ends clock_sleep clock_sdk
              SidekickSDK_ReadInfoStatusMask SidekickSDK_isTempStatusSet
              "cool_tecs_timeout" "TECs unable to cool" is_temp_read
              a h T Hh HT eq_refl eq_refl fuel (time_time e2)
              (out_flag (fst (sdk (SidekickSDK_isTempStatusSet h) e1))) e2
              ((l ++ [EvSdk (SidekickSDK_ReadInfoStatusMask h)
                        (fst (sdk (SidekickSDK_ReadInfoStatusMask h) e))])
                 ++ [EvSdk (SidekickSDK_isTempStatusSet h)
                       (fst (sdk (SidekickSDK_isTempStatusSet h) e1))])%list Hnot Hbud)
    as (e' & E & [(Hrun & Hfl & Hsrc) | (Hrun & Hlt)]).
  - assert (HXq : Qle_bool 0 (inject_Z X) = true).
    { apply Qle_bool_iff. change 0%Q with (inject_Z 0). rewrite <- Zle_Qle. exact HX0. }
    eexists _, _. left.
    exists ([EvSdk (SidekickSDK_ReadInfoStatusMask h)
               (fst (sdk (SidekickSDK_ReadInfoStatusMask h) e));
             EvSdk (SidekickSDK_isTempStatusSet h)
               (fst (sdk (SidekickSDK_isTempStatusSet h) e1))] ++ E)%list.
    split.
    { unfold cool_tecs.
      rewrite !(bind_sdk_h _ _ _ _ _ _ Hh), bind_time_now.
      unfold bind at 1. rewrite cool_tecs_loop_poll.
      subst e1 e2. rewrite Hrun.
      rewrite (bind_getattr a _ _ _ _ _ HX).
      rewrite (bind_sleep a _ _ (VInt X) (inject_Z X) _ eq_refl HXq).
      unfold stderr_write, emit; cbn [attrs env log]. do 2 f_equal. log_eq. }
    split; [rewrite <- !app_assoc; reflexivity|].
    split.
    + unfold last_flag. rewrite !flag_after_app.
      cbn [flag_after fold_left flag_step is_temp_read]. exact Hfl.
    + destruct Hsrc as [Hsrc|Hsrc]; [exists e1; exact Hsrc | exact Hsrc].
  - eexists e', _. right.
    split; [|lra].
    unfold cool_tecs.
    rewrite !(bind_sdk_h _ _ _ _ _ _ Hh), bind_time_now.
    unfold bind at 1. rewrite cool_tecs_loop_poll.
    subst e1 e2. rewrite Hrun. do 2 f_equal. log_eq.
Qed.

(** X6: [set_wavelength] against a clock that moves, for a unit that is an
    int and a value [c_float] takes (a number that is not an int too large
    for a float): given [parameter_timeout + 1] rounds it ends.  It stores
    its arguments as they are under [wavelength] and [wvlen_units] (not
    under the [qcl_] names the constructor binds); its first command
    carries the unit in 8 bits and the value as the [c_float] cell holds
    it, rounded to single precision; and it returns only after the link
    has answered a tuned read with true; otherwise it raises
    [Laser_Exception], later than [parameter_timeout] after the call. *)
Theorem set_wavelength_ends (units value : pyval) (u : Z) (v : single) (T : Z)
  (fuel : nat) (e : Env) (l : list event) :
  int_of units = Some u ->
  c_float value = inr v ->
  a !! "parameter_timeout" = Some (VInt T) ->
  0 <= T -> T < Z.of_nat fuel ->
  let a' := <["wvlen_units" := units]> (<["wavelength" := value]> a) in
  exists e' E r,
    hd_error E = Some (EvSdk (SidekickSDK_SetTuneToWW h (c_uint8 u) v 0) r) /\
    (set_wavelength fuel units value (mk_world a e l)
       = Ret tt (mk_world a' e' (l ++ E)%list) /\
     last_flag is_tuned_read E = Some true /\
     (exists e0, out_flag (fst (sdk (SidekickSDK_isTuned h) e0)) = true)
     \/
     set_wavelength fuel units value (mk_world a e l)
       = Raise (mk_exn Laser_Exception [VStr "Wavelength not tuned."])
               (mk_world a' e' (l ++ E)%list) /\
     (inject_Z T < time_time e' - time_time e)%Q).
Proof.
  intros Hu Hv HT H0 Hf a'.
  assert (Hh' : a' !! "handle" = Some h).
  { unfold a'. rewrite !lookup_insert_ne by discriminate. exact Hh. }
  assert (HT' : a' !! "parameter_timeout" = Some (VInt T)).
  { unfold a'. rewrite !lookup_insert_ne by discriminate. exact HT. }
  pose (c0 := SidekickSDK_SetTuneToWW h (c_uint8 u) v (c_uint8 0)).
  pose (e1 := snd (sdk c0 e)).
  pose (e2 := snd (sdk (SidekickSDK_ExecTuneToWW h) e1)).
  pose (e3 := snd (sdk (SidekickSDK_isTuned h) e2)).
  assert (C : (time_time e <= time_time e3)%Q).
  { assert (C1 : (time_time e <= time_time e1)%Q) by apply clock_sdk.
    assert (C2 : (time_time e1 <= time_time e2)%Q) by apply clock_sdk.
    assert (C3 : (time_time e2 <= time_time e3)%Q) by apply clock_sdk.
    lra. }
  assert (Hrun0 :
    set_wavelength fuel units value (mk_world a e l) =
    bind (set_wavelength_loop fuel (time_time e3)
            (out_flag (fst (sdk (SidekickSDK_isTuned h) e2))))
         (fun _ => stderr_write "Laser wavelength set successfully." [])
         (mk_world a' e3
            (((l ++ [EvSdk c0 (fst (sdk c0 e))])
                ++ [EvSdk (SidekickSDK_ExecTuneToWW h)
                      (fst (sdk (SidekickSDK_ExecTuneToWW h) e1))])
               ++ [EvSdk (SidekickSDK_isTuned h)
                     (fst (sdk (SidekickSDK_isTuned h) e2))])%list)).
  { unfold set_wavelength.
    rewrite !bind_setattr. fold a'.
    rewrite (bind_getattr a' _ _ _ _ _ Hh').
    unfold c_int_arg, c_float_arg. rewrite Hu, Hv, !bind_ret.
    rewrite bind_sdk_do.
    rewrite !(bind_sdk_h _ _ _ _ _ _ Hh'), bind_time_now. reflexivity. }
  destruct (budget_at_entry T fuel (time_time e3) H0 Hf) as [Hnot Hbud].
  destruct (poll_loop_ends clock_sleep clock_sdk
              SidekickSDK_ExecTuneToWW SidekickSDK_isTuned
              "parameter_timeout" "Wavelength not tuned." is_tuned_read
              a' h T Hh' HT' eq_refl eq_refl fuel (time_time e3)
              (out_flag (fst (sdk (SidekickSDK_isTuned h) e2))) e3
              (((l ++ [EvSdk c0 (fst (sdk c0 e))])
                  ++ [EvSdk (SidekickSDK_ExecTuneToWW h)
                        (fst (sdk (SidekickSDK_ExecTuneToWW h) e1))])
                 ++ [EvSdk (SidekickSDK_isTuned h)
                       (fst (sdk (SidekickSDK_isTuned h) e2))])%list Hnot Hbud)
    as (e' & E & [(Hrun & Hfl & Hsrc) | (Hrun & Hlt)]);
    rewrite <- set_wavelength_loop_poll in Hrun;
    unfold bind in Hrun0; rewrite Hrun in Hrun0.
  - exists e', ([EvSdk c0 (fst (sdk c0 e));
                 EvSdk (SidekickSDK_ExecTuneToWW h)
                   (fst (sdk (SidekickSDK_ExecTuneToWW h) e1));
                 EvSdk (SidekickSDK_isTuned h)
                   (fst (sdk (SidekickSDK_isTuned h) e2))]
                  ++ E ++ [EvStderr "Laser wavelength set successfully." []])%list,
           (fst (sdk c0 e)).
    split; [reflexivity|]. left.
    split; [rewrite Hrun0; unfold stderr_write, emit; cbn [attrs env log];
            do 2 f_equal; log_eq|].
    split.
    + unfold last_flag. rewrite !flag_after_app.
      cbn [flag_after fold_left flag_step is_tuned_read c0].
      etransitivity; [|exact Hfl]. reflexivity.
    + destruct Hsrc as [Hsrc|Hsrc]; [exists e2; exact Hsrc | exact Hsrc].
  - exists e', ([EvSdk c0 (fst (sdk c0 e));
                 EvSdk (SidekickSDK_ExecTuneToWW h)
                   (fst (sdk (SidekickSDK_ExecTuneToWW h) e1));
                 EvSdk (SidekickSDK_isTuned h)
                   (fst (sdk (SidekickSDK_isTuned h) e2))] ++ E)%list,
           (fst (sdk c0 e)).
    split; [reflexivity|]. right.
    split; [rewrite Hrun0; do 2 f_equal; log_eq | lra].
Qed.

End Stages.

End Proofs.

(** ** The theorems at work on the simulated links *)

(** C9, at work: two shutdowns in a row on a driver connected with
    handle 7. *)
Lemma turn_off_laser_twice_connected :
  attrs (connected (ok_script "MFLI")) !! "handle" = Some (VInt 7) /\
  exists w1 w2,
    @turn_off_laser Sim (sim_host (ok_script "MFLI")) (connected (ok_script "MFLI")) = Ret tt w1 /\
    @turn_off_laser Sim (sim_host (ok_script "MFLI")) w1 = Ret tt w2 /\
    calls_of (log w1)
      = (calls_of (log (connected (ok_script "MFLI"))) ++ off_calls (VInt 7))%list /\
    calls_of (log w2) = (calls_of (log w1) ++ off_calls (VInt 7))%list /\
    attrs w2 !! "handle" = Some (VInt 7).
Proof.
  split; [vm_compute; reflexivity|].
  apply (@turn_off_laser_twice Sim (sim_host (ok_script "MFLI"))).
  vm_compute; reflexivity.
Defined.

(** C9 as stated fails: the second shutdown returns, but its five commands
    go out on handle 7, which the first one disconnected.  After the first
    call no released handle had been used. *)
Lemma turn_off_laser_twice_reuses_handle :
  off_once (ok_script "MFLI") = Ret tt (world_of (off_once (ok_script "MFLI"))) /\
  off_twice (ok_script "MFLI") = Ret tt (world_of (off_twice (ok_script "MFLI"))) /\
  reuses_released (calls_of (log (world_of (off_once (ok_script "MFLI"))))) = false /\
  reuses_released (calls_of (log (world_of (off_twice (ok_script "MFLI"))))) = true /\
  calls_of (log (world_of (off_twice (ok_script "MFLI"))))
    = (calls_of (log (world_of (off_once (ok_script "MFLI")))) ++ off_calls (VInt 7))%list.
Proof. repeat apply conj; vm_compute; reflexivity. Qed.

(** C1, at work: the interlock is open, so the connect stage raises after
    it has a handle; [startup] shuts down on handle 7 and raises a bare
    [SDK_Exception], which is not the fault of the stage. *)
Lemma startup_failure_policy_open_interlock :
  stages_run open_interlock_script 3
    = Raise (mk_exn SDK_Exception [VStr "Interlock not set"])
            (world_of (stages_run open_interlock_script 3)) /\
  exists w2 evs,
    startup_run open_interlock_script 3 = Raise (mk_exn SDK_Exception []) w2 /\
    mk_exn SDK_Exception [] <> mk_exn SDK_Exception [VStr "Interlock not set"] /\
    attrs w2 = attrs (world_of (stages_run open_interlock_script 3)) /\
    log w2 = (log (world_of (stages_run open_interlock_script 3)) ++ evs)%list /\
    calls_of evs = off_calls (VInt 7) /\
    stderr_of evs = ["Laser off"].
Proof.
  split; [vm_compute; reflexivity|].
  destruct (@startup_failure_policy Sim (sim_host open_interlock_script)
              (@private_ns Sim (sim_host open_interlock_script) 3)
              (VInt 1000) (VInt 2) (VInt 1500) (VInt 500) (VInt 100000)
              (constructed open_interlock_script) (after_assign open_interlock_script)
              (world_of (stages_run open_interlock_script 3))
              (mk_exn SDK_Exception [VStr "Interlock not set"]) (VInt 7))
    as (w2 & evs & Hrun & Hne & Hrest);
    try (vm_compute; reflexivity).
  exists w2, evs. split; [exact Hrun|]. split; [|exact Hrest].
  apply Hne. discriminate.
Defined.

(** C1, at the failing inputs.  What [startup] raises is not the fault the
    stage raised: with the stage names resolved, the USB search fails with
    a message and [startup] raises an [SDK_Exception] without it; in the
    class as written the lookup of the first stage fails and [startup]
    raises an [AttributeError] without the name. *)
Lemma startup_reraises_without_message :
  stages_run no_usb_script 3
    = Raise (mk_exn SDK_Exception [VStr "Error occured while searching for USB devices"])
            (world_of (stages_run no_usb_script 3)) /\
  startup_run no_usb_script 3
    = Raise (mk_exn SDK_Exception []) (world_of (startup_run no_usb_script 3)) /\
  startup_as_written no_usb_script 3
    = Raise (mk_exn AttributeError []) (world_of (startup_as_written no_usb_script 3)) /\
  mk_exn SDK_Exception []
    <> mk_exn SDK_Exception [VStr "Error occured while searching for USB devices"].
Proof.
  repeat apply conj; try (vm_compute; reflexivity).
  discriminate.
Qed.

(** On a driver whose two missing attributes have been bound by hand the
    stages run up to the detector.  There the library raises an error whose
    class cannot be built without arguments: [startup] shuts the laser
    down and raises a [TypeError] in its place, and the driver still says
    [laser_on] and still holds handle 7, which the shutdown has
    disconnected. *)
Lemma startup_failure_leaves_laser_on :
  raised_by (@startup_stages Sim
               (@private_ns Sim (sim_host (no_detector_script decode_error)) 7)
               (world_of (@startup_assign Sim (VInt 1000) (VInt 2) (VInt 1500) (VInt 500)
                            (VInt 100000) (completed (no_detector_script decode_error)))))
    = Some decode_error /\
  raised_by (@startup Sim (sim_host (no_detector_script decode_error))
               (@private_ns Sim (sim_host (no_detector_script decode_error)) 7)
               (VInt 1000) (VInt 2) (VInt 1500) (VInt 500) (VInt 100000)
               (completed (no_detector_script decode_error)))
    = Some (mk_exn TypeError [VStr "__init__"]) /\
  attrs (world_of (@startup Sim (sim_host (no_detector_script decode_error))
                     (@private_ns Sim (sim_host (no_detector_script decode_error)) 7)
                     (VInt 1000) (VInt 2) (VInt 1500) (VInt 500) (VInt 100000)
                     (completed (no_detector_script decode_error)))) !! "laser_on"
    = Some (VBool true) /\
  attrs (world_of (@startup Sim (sim_host (no_detector_script decode_error))
                     (@private_ns Sim (sim_host (no_detector_script decode_error)) 7)
                     (VInt 1000) (VInt 2) (VInt 1500) (VInt 500) (VInt 100000)
                     (completed (no_detector_script decode_error)))) !! "handle"
    = Some (VInt 7) /\
  last (calls_of (log (world_of (@startup Sim (sim_host (no_detector_script decode_error))
                     (@private_ns Sim (sim_host (no_detector_script decode_error)) 7)
                     (VInt 1000) (VInt 2) (VInt 1500) (VInt 500) (VInt 100000)
                     (completed (no_detector_script decode_error))))))
    = Some (SidekickSDK_Disconnect (VInt 7)).
Proof. repeat apply conj; vm_compute; reflexivity. Qed.


(** C4, at work: a connected driver after the assignments of
    [startup(1000, 2, 1500, 500, 100000)]. *)
Lemma set_qcl_params_after_startup_assignments :
  attrs (assigned (ok_script "MFLI")) !! "qcl_temp_c" = None /\
  exists w' evs,
    @set_qcl_params Sim (sim_host (ok_script "MFLI")) 5 (assigned (ok_script "MFLI"))
      = Raise (mk_exn AttributeError [VStr "qcl_temp_c"]) w' /\
    attrs w' = attrs (assigned (ok_script "MFLI")) /\
    log w' = (log (assigned (ok_script "MFLI")) ++ evs)%list /\
    calls_of evs = [SidekickSDK_ReadWriteLaserQclParams (VInt 7) (VBool false) 0;
                    SidekickSDK_GetLaserQclParams (VInt 7)].
Proof.
  split; [vm_compute; reflexivity|].
  apply (@set_qcl_params_unbound_attribute Sim (sim_host (ok_script "MFLI")) 5
           (assigned (ok_script "MFLI")) (VInt 7) (VBool false) (VInt 100000) 100000);
    vm_compute; reflexivity.
Defined.

(** The simulated clock is one the attempt bound is stated for: sleeping
    adds the time slept, a command leaves the clock alone. *)
Lemma sim_clock_sleep (sc : Script) (d : Q) (e : Sim) :
  (@time_time Sim (sim_host sc) e + d
   <= @time_time Sim (sim_host sc) (@time_sleep Sim (sim_host sc) d e))%Q.
Proof. apply Qle_refl. Qed.

Lemma sim_clock_sdk (sc : Script) (c : sdk_call) (e : Sim) :
  (@time_time Sim (sim_host sc) e
   <= @time_time Sim (sim_host sc) (snd (@sdk Sim (sim_host sc) c e)))%Q.
Proof. apply Qle_refl. Qed.

Lemma sim_zi_answers (devtype : string) (p : exn + poll_data) (c : zi_call) (e : Sim) :
  exists v, fst (@zi Sim (sim_host (mk_script (fun _ => 0) (fun _ _ => true) true 1 7
                                      (0, 0, 0) (zi_ok devtype) p)) c e) = inr v.
Proof.
  destruct c; cbn; try (eexists; reflexivity).
  destruct (str_contains _ _); eexists; reflexivity.
Qed.

(** C5, at work, with the settings of the constructor (3 attempts, 30 s
    each, polled every 5 s), on the link whose laser takes 35 s. *)
Lemma turn_on_laser_attempts_slow :
  exists failed won e',
    let ts := (failed ++ option_list won)%list in
    let E := attempts_events (VInt 7) (inject_Z 5) 1 ts in
    @turn_on_laser Sim (sim_host slow_script) 7
      (mk_world (attrs (connected slow_script)) (env (connected slow_script))
                (log (connected slow_script)))
    = (if emitting_after false ts
       then Ret tt (mk_world (match won with
                              | Some _ => <["laser_on" := VBool true]>
                                            (attrs (connected slow_script))
                              | None => attrs (connected slow_script)
                              end) e'
                      (log (connected slow_script) ++ E ++ [EvStderr "Laser is on." []])%list)
       else Raise (mk_exn Laser_Exception [VStr "Laser failed to turn on"])
                  (mk_world (attrs (connected slow_script)) e'
                     (log (connected slow_script) ++ E)%list)) /\
    Z.of_nat (length ts) <= 3 /\
    Forall (fun t => att_polled_ok t = true /\
                     (Z.of_nat (length (att_polls t)) - 1) * 5 <= 30) ts /\
    Forall (fun t => att_polls t <> []) failed /\
    (@time_time Sim (sim_host slow_script) (env (connected slow_script))
     <= @time_time Sim (sim_host slow_script) e')%Q /\
    (failed <> [] ->
     (inject_Z (Z.of_nat (length failed) * 30)
      < @time_time Sim (sim_host slow_script) e'
        - @time_time Sim (sim_host slow_script) (env (connected slow_script)))%Q) /\
    match won with
    | Some t => att_confirmed t = true
    | None => Z.of_nat (length failed) = 3
    end.
Proof.
  apply (@turn_on_laser_attempts Sim (sim_host slow_script)
           (sim_clock_sleep slow_script) (sim_clock_sdk slow_script)
           (attrs (connected slow_script)) (VInt 7) 3 5 30);
    try (vm_compute; reflexivity); lia.
Defined.

(** C5, at the failing input: on that link each of the three attempts ends
    by its timeout, 35 s after its command, on the poll that reads true.
    No attempt counts as confirmed and [laser_on] stays false, yet no
    [Laser_Exception] is raised: the method writes "Laser is on." and
    returns, 105 s after the call, having commanded emission on three
    times. *)
Lemma turn_on_laser_slow_link :
  attrs (connected slow_script) !! "laser_on_attempts" = Some (VInt 3) /\
  attrs (connected slow_script) !! "turn_on_laser_timeout" = Some (VInt 30) /\
  value_of (@turn_on_laser Sim (sim_host slow_script) 7 (connected slow_script))
    = Some tt /\
  attrs (world_of (@turn_on_laser Sim (sim_host slow_script) 7 (connected slow_script)))
    !! "laser_on" = Some (VBool false) /\
  count_on (log (world_of (@turn_on_laser Sim (sim_host slow_script) 7
                             (connected slow_script)))) = 3%nat /\
  last (stderr_of (log (world_of (@turn_on_laser Sim (sim_host slow_script) 7
                                    (connected slow_script)))))
    = Some "Laser is on." /\
  (sim_now (env (world_of (@turn_on_laser Sim (sim_host slow_script) 7
                             (connected slow_script))))
   - sim_now (env (connected slow_script)) == 105)%Q.
Proof. repeat apply conj; vm_compute; reflexivity. Qed.

(** On the link on which the laser never fires the same three attempts
    end in [Laser_Exception], more than 90 s after the call. *)
Lemma turn_on_laser_dark_link :
  raised_by (@turn_on_laser Sim (sim_host dark_script) 7 (connected dark_script))
    = Some (mk_exn Laser_Exception [VStr "Laser failed to turn on"]) /\
  count_on (log (world_of (@turn_on_laser Sim (sim_host dark_script) 7
                             (connected dark_script)))) = 3%nat /\
  (sim_now (env (world_of (@turn_on_laser Sim (sim_host dark_script) 7
                             (connected dark_script))))
   - sim_now (env (connected dark_script)) == 105)%Q.
Proof. repeat apply conj; vm_compute; reflexivity. Qed.

(** C6, at work: on a link that confirms at once the flag changes, and the
    last emission read before that was true. *)
Lemma laser_on_after_confirmation_ok :
  attrs (connected (ok_script "MFLI")) !! "laser_on" = Some (VBool false) /\
  attrs (world_of (@turn_on_laser Sim (sim_host (ok_script "MFLI")) 7
                     (connected (ok_script "MFLI")))) !! "laser_on"
    = Some (VBool true) /\
  exists E,
    log (world_of (@turn_on_laser Sim (sim_host (ok_script "MFLI")) 7
                     (connected (ok_script "MFLI"))))
      = (log (connected (ok_script "MFLI")) ++ E)%list /\
    last_firing E = Some true.
Proof.
  split; [vm_compute; reflexivity|].
  apply (@laser_on_only_after_confirmation Sim (sim_host (ok_script "MFLI")) 7
           (connected (ok_script "MFLI"))).
  vm_compute. discriminate.
Defined.

(** C7, at work: the poll answers [{'dev2006': {'demods': {'0': {}}}}]. *)
Lemma collect_data_without_sample_node :
  poll_without_sample !! "dev2006" = Some {[ "demods" := {[ "0" := ∅ ]} ]} /\
  exists w',
    @_collect_data Sim (sim_host no_sample_script) [] []
      (mk_world (attrs (with_lockin no_sample_script)) (env (with_lockin no_sample_script))
                (log (with_lockin no_sample_script)))
      = Raise (mk_exn UnboundLocalError [VStr "data"]) w'.
Proof.
  split; [vm_compute; reflexivity|].
  apply (@collect_data_missing_sample Sim (sim_host no_sample_script)
           "dev2006" "0" (VInt 30) (VInt 500) poll_without_sample 1
           (sim_zi_answers "MFLI" (inr poll_without_sample))
           (fun e => eq_refl)
           (attrs (with_lockin no_sample_script)))
    with (node := {[ "demods" := {[ "0" := ∅ ]} ]})
         (demods := {[ "0" := ∅ ]}) (chan := ∅) (n := 0);
    try (vm_compute; reflexivity).
  vm_compute. discriminate.
Defined.

(** C8, at work: a device of type HDAWG8 with no options. *)
Lemma initialize_lockin_hdawg :
  unknown_family "HDAWG8" = true /\
  exists w' evs,
    @initialize_lockin Sim (sim_host (ok_script "HDAWG8")) (with_lockin (ok_script "HDAWG8"))
      = Ret tt w' /\
    log w' = (log (with_lockin (ok_script "HDAWG8")) ++ evs)%list /\
    zi_calls_of evs
      = common_config "dev2006" "0" "0" "0" (VFloat 2000) (VFloat 0.01) (VInt 100000).
Proof.
  split; [vm_compute; reflexivity|].
  apply (@initialize_lockin_unknown_family Sim (sim_host (ok_script "HDAWG8"))
           "dev2006" "0" "0" "0" "HDAWG8" EmptyString
           (VFloat 2000) (VFloat 0.01) (VInt 100000) 0.01
           (sim_zi_answers "HDAWG8" (inr ∅)) (fun e => eq_refl) (fun e => eq_refl)
           (with_lockin (ok_script "HDAWG8")) 1);
    vm_compute; reflexivity.
Defined.

(** C8 as stated fails: for that device [initialize_lockin] raises nothing;
    it returns, having sent no family-specific setting. *)
Lemma initialize_lockin_unknown_family_returns :
  unknown_family "HDAWG8" = true /\
  @initialize_lockin Sim (sim_host (ok_script "HDAWG8")) (with_lockin (ok_script "HDAWG8"))
    = Ret tt (world_of (@initialize_lockin Sim (sim_host (ok_script "HDAWG8"))
                          (with_lockin (ok_script "HDAWG8")))) /\
  zi_calls_of (log (world_of (@initialize_lockin Sim (sim_host (ok_script "HDAWG8"))
                                (with_lockin (ok_script "HDAWG8")))))
    = ([ziDAQServer (VStr "192.168.48.102") (VInt 8004); autoDetect (VObj 1)] ++
       common_config "dev2006" "0" "0" "0" (VFloat 2000) (VFloat 0.01) (VInt 100000))%list.
Proof. repeat apply conj; vm_compute; reflexivity. Qed.

(** C3, at the failing input: with the attributes bound, a current the
    field cannot hold and a controller that never takes the values over,
    the loop is still running after 40 rounds, 40 s on the clock against a
    timeout of 5 s, and has raised nothing. *)
Lemma set_qcl_params_spins_past_timeout :
  attrs (patched deaf_script) !! "qcl_set_params_timeout" = Some (VInt 5) /\
  @set_qcl_params Sim (sim_host deaf_script) 40 (patched deaf_script)
    = OutOfFuel (world_of (@set_qcl_params Sim (sim_host deaf_script) 40
                             (patched deaf_script))) /\
  sim_now (env (world_of (@set_qcl_params Sim (sim_host deaf_script) 40
                            (patched deaf_script)))) = 40%Q.
Proof. repeat apply conj; vm_compute; reflexivity. Qed.

(** ** The further theorems at work *)

(** A run whose value, or whose exception, is known by evaluation. *)
Lemma returned {Env A} (r : Res Env A) (x : A) :
  value_of r = Some x -> r = Ret x (world_of r).
Proof. destruct r; try discriminate. intros [= ->]. reflexivity. Qed.

Lemma raised {Env A} (r : Res Env A) (x : exn) :
  raised_by r = Some x -> r = Raise x (world_of r).
Proof. destruct r; try discriminate. intros [= ->]. reflexivity. Qed.

(** X1, at work: the link on which everything succeeds. *)
Lemma connect_laser_returns_ok :
  exists r1 r2 rc r4 r5 r6 r7,
    attrs (connected (ok_script "MFLI"))
      = <["handle" := VInt (c_uint32 (out_handle rc))]> (attrs (constructed (ok_script "MFLI"))) /\
    log (connected (ok_script "MFLI"))
      = (log (constructed (ok_script "MFLI")) ++ connect_events r1 r2 rc r4 r5 r6 r7)%list /\
    out_flag r5 = true /\ out_flag r6 = true /\ out_flag r7 = true.
Proof.
  apply (@connect_laser_returns Sim (sim_host (ok_script "MFLI"))).
  apply (returned (@connect_laser Sim (sim_host (ok_script "MFLI"))
                     (constructed (ok_script "MFLI"))) tt).
  vm_compute. reflexivity.
Defined.

(** X2, at work: the USB search fails. *)
Lemma connect_laser_failed_connection_no_usb :
  raised_by (@connect_laser Sim (sim_host no_usb_script) (constructed no_usb_script))
    = Some (mk_exn SDK_Exception [VStr "Error occured while searching for USB devices"]) /\
  attrs (connected no_usb_script) = attrs (constructed no_usb_script) /\
  exists E,
    log (connected no_usb_script) = (log (constructed no_usb_script) ++ E)%list /\
    forallb (fun c => match handle_of c with None => true | Some _ => false end)
            (calls_of E) = true.
Proof.
  assert (Hx : raised_by (@connect_laser Sim (sim_host no_usb_script)
                            (constructed no_usb_script))
               = Some (mk_exn SDK_Exception
                         [VStr "Error occured while searching for USB devices"]))
    by (vm_compute; reflexivity).
  split; [exact Hx|].
  apply (@connect_laser_failed_connection Sim (sim_host no_usb_script)
           (constructed no_usb_script) (connected no_usb_script) _ _
           (raised _ _ Hx) eq_refl).
  left. reflexivity.
Defined.

(** X3, at work: the search succeeds and counts no device. *)
Lemma connect_laser_no_device_found :
  out_count (fst (@sdk Sim (sim_host no_device_script) SidekickSDK_GetNumOfDevices
                    (snd (@sdk Sim (sim_host no_device_script)
                            SidekickSDK_SearchForUsbDevices
                            (env (constructed no_device_script)))))) = 0%Z /\
  exists E,
    log (connected no_device_script) = (log (constructed no_device_script) ++ E)%list /\
    nth_error (calls_of E) 2 = Some (SidekickSDK_ConnectToDeviceNumber 65535).
Proof.
  split; [reflexivity|].
  apply (@connect_laser_no_device Sim (sim_host no_device_script)
           (constructed no_device_script) 0);
    first [reflexivity | vm_compute; reflexivity].
Defined.

(** X4, at work: a link that never reports the laser armed, the timeout of
    the constructor (20 s). *)
Lemma arm_laser_ends_idle :
  exists e' E,
    @arm_laser Sim (sim_host idle_script) 21
      (mk_world (attrs (connected (ok_script "MFLI"))) sim_start [])
      = Ret tt (mk_world (attrs (connected (ok_script "MFLI"))) e' ([] ++ E)%list) /\
    last_flag is_armed_read E = Some true /\
    (exists e0, out_flag (fst (@sdk Sim (sim_host idle_script)
                                 (SidekickSDK_isLaserArmed (VInt 7)) e0)) = true)
    \/
    @arm_laser Sim (sim_host idle_script) 21
      (mk_world (attrs (connected (ok_script "MFLI"))) sim_start [])
      = Raise (mk_exn Laser_Exception [VStr "Unable to arm laser"])
              (mk_world (attrs (connected (ok_script "MFLI"))) e' ([] ++ E)%list) /\
    (inject_Z 20 < @time_time Sim (sim_host idle_script) e'
                   - @time_time Sim (sim_host idle_script) sim_start)%Q.
Proof.
  apply (@arm_laser_ends Sim (sim_host idle_script)
           (sim_clock_sleep idle_script) (sim_clock_sdk idle_script)
           (attrs (connected (ok_script "MFLI"))) (VInt 7));
    try (vm_compute; reflexivity); lia.
Defined.

(** X5, at work: a link that never reports the temperature reached, the
    settings of the constructor (60 s, then 10 s). *)
Lemma cool_tecs_ends_idle :
  exists e' E,
    (exists E0,
       @cool_tecs Sim (sim_host idle_script) 61
         (mk_world (attrs (connected (ok_script "MFLI"))) sim_start [])
         = Ret tt (mk_world (attrs (connected (ok_script "MFLI"))) e' ([] ++ E)%list) /\
       E = (E0 ++ [EvSleep (inject_Z 10); EvStderr "TECs are at Temp" []])%list /\
       last_flag is_temp_read E0 = Some true /\
       (exists e0, out_flag (fst (@sdk Sim (sim_host idle_script)
                                    (SidekickSDK_isTempStatusSet (VInt 7)) e0)) = true))
    \/
    @cool_tecs Sim (sim_host idle_script) 61
      (mk_world (attrs (connected (ok_script "MFLI"))) sim_start [])
      = Raise (mk_exn Laser_Exception [VStr "TECs unable to cool"])
              (mk_world (attrs (connected (ok_script "MFLI"))) e' ([] ++ E)%list) /\
    (inject_Z 60 < @time_time Sim (sim_host idle_script) e'
                   - @time_time Sim (sim_host idle_script) sim_start)%Q.
Proof.
  apply (@cool_tecs_ends Sim (sim_host idle_script)
           (sim_clock_sleep idle_script) (sim_clock_sdk idle_script)
           (attrs (connected (ok_script "MFLI"))) (VInt 7));
    try (vm_compute; reflexivity); lia.
Defined.

(** X6, at work: a link that never reports the laser tuned; the unit 258 is
    sent as 2, the value 1000 as it is. *)
Lemma set_wavelength_ends_idle :
  exists e' E r,
    hd_error E = Some (EvSdk (SidekickSDK_SetTuneToWW (VInt 7) (c_uint8 258)
                                (Finite 1000) 0) r) /\
    (@set_wavelength Sim (sim_host idle_script) 21 (VInt 258) (VInt 1000)
       (mk_world (attrs (connected (ok_script "MFLI"))) sim_start [])
       = Ret tt (mk_world (<["wvlen_units" := VInt 258]>
                             (<["wavelength" := VInt 1000]>
                                (attrs (connected (ok_script "MFLI")))))
                          e' ([] ++ E)%list) /\
     last_flag is_tuned_read E = Some true /\
     (exists e0, out_flag (fst (@sdk Sim (sim_host idle_script)
                                  (SidekickSDK_isTuned (VInt 7)) e0)) = true)
     \/
     @set_wavelength Sim (sim_host idle_script) 21 (VInt 258) (VInt 1000)
       (mk_world (attrs (connected (ok_script "MFLI"))) sim_start [])
       = Raise (mk_exn Laser_Exception [VStr "Wavelength not tuned."])
               (mk_world (<["wvlen_units" := VInt 258]>
                            (<["wavelength" := VInt 1000]>
                               (attrs (connected (ok_script "MFLI")))))
                         e' ([] ++ E)%list) /\
     (inject_Z 20 < @time_time Sim (sim_host idle_script) e'
                    - @time_time Sim (sim_host idle_script) sim_start)%Q).
Proof.
  apply (@set_wavelength_ends Sim (sim_host idle_script)
           (sim_clock_sleep idle_script) (sim_clock_sdk idle_script)
           (attrs (connected (ok_script "MFLI"))) (VInt 7) eq_refl
           (VInt 258) (VInt 1000) 258 (Finite 1000) 20 21 sim_start []);
    try (vm_compute; reflexivity); lia.
Defined.

(** X7, at work: a second [turn_on_laser] on a laser that is on. *)
Lemma turn_on_laser_already_on_lit :
  attrs (lit (ok_script "MFLI")) !! "laser_on" = Some (VBool true) /\
  @turn_on_laser Sim (sim_host (ok_script "MFLI")) 7 (lit (ok_script "MFLI"))
  = Raise (mk_exn Laser_Exception [VStr "Laser failed to turn on"])
          (lit (ok_script "MFLI")).
Proof.
  assert (H : attrs (lit (ok_script "MFLI")) !! "laser_on" = Some (VBool true))
    by (vm_compute; reflexivity).
  split; [exact H|].
  exact (@turn_on_laser_already_on Sim (sim_host (ok_script "MFLI")) 7
           (lit (ok_script "MFLI")) (VBool true) H eq_refl).
Defined.

(** X8, at work: on, off, and on again. *)
Lemma turn_on_after_turn_off_lit :
  exists w1,
    @turn_off_laser Sim (sim_host (ok_script "MFLI")) (lit (ok_script "MFLI")) = Ret tt w1 /\
    attrs w1 !! "laser_on" = Some (VBool true) /\
    @turn_on_laser Sim (sim_host (ok_script "MFLI")) 7 w1
    = Raise (mk_exn Laser_Exception [VStr "Laser failed to turn on"]) w1.
Proof.
  apply (@turn_on_after_turn_off Sim (sim_host (ok_script "MFLI")) 7
           (lit (ok_script "MFLI")) (VInt 7) (VBool true));
    vm_compute; reflexivity.
Defined.

(** X9, at work: the driver as constructed, on the link on which everything
    succeeds. *)
Lemma startup_never_completes_constructed :
  attrs (constructed (ok_script "MFLI")) !! "qcl_temp_c" = None /\
  returns (startup_run (ok_script "MFLI") 40) = false.
Proof.
  assert (H : attrs (constructed (ok_script "MFLI")) !! "qcl_temp_c" = None)
    by (vm_compute; reflexivity).
  split; [exact H|].
  exact (@startup_never_completes Sim (sim_host (ok_script "MFLI")) 40
           (VInt 1000) (VInt 2) (VInt 1500) (VInt 500) (VInt 100000)
           (constructed (ok_script "MFLI")) H).
Defined.

(** X10, at work: a controller that ignores what is written to it. *)
Lemma set_qcl_params_no_readback_deaf :
  exists w' evs p,
    @set_qcl_params Sim (sim_host deaf_script) 0 (completed deaf_script) = Ret tt w' /\
    log w' = (log (completed deaf_script) ++ evs)%list /\
    calls_of evs = [SidekickSDK_ReadWriteLaserQclParams (VInt 7) (VBool false) 0;
                    SidekickSDK_GetLaserQclParams (VInt 7);
                    SidekickSDK_SetLaserQclParams (VInt 7) p;
                    SidekickSDK_ReadWriteLaserQclParams (VInt 7) (VBool true) 0] /\
    pulse_rate_hz_ptr p = 100000 /\ temp_c_ptr p = Finite 17 /\
    current_ma_ptr p = 1500 /\ pulse_width_ns_ptr p = 500.
Proof.
  apply (@set_qcl_params_no_readback Sim (sim_host deaf_script) 0
           (completed deaf_script) (VInt 7) (VBool false) (VBool true) (VInt 17)
           100000 1500 500 (Finite 17));
    try (vm_compute; reflexivity); lia.
Defined.

(** X11, at work: a poll response with one block of two samples, flagged
    for data loss; the clock base is 60 MHz. *)
Lemma collect_data_sample_block_two :
  exists e' E,
    @_collect_data Sim (sim_host sample_script) [] []
      (mk_world (attrs (with_lockin sample_script)) sim_start [])
    = Ret ([[5; 10]], [[2; 3]])%Q
          (mk_world (attrs (with_lockin sample_script)) e' ([] ++ E)%list) /\
    zi_calls_of E = [daq_sync; daq_subscribe (chan_node "dev2006" "/demods/" "0" "/sample");
                     daq_getInt (node "dev2006" "/clockbase"); daq_unsubscribe "*"] /\
    stderr_of E = ["warning: Sample loss detected."].
Proof.
  destruct (@collect_data_sample_block Sim (sim_host sample_script)
              "dev2006" "0" (VInt 30) (VInt 500) poll_with_sample 1
              (sim_zi_answers "MFLI" (inr poll_with_sample)) (fun e => eq_refl)
              (attrs (with_lockin sample_script))
              ltac:(vm_compute; reflexivity) ltac:(vm_compute; reflexivity)
              ltac:(vm_compute; reflexivity) ltac:(vm_compute; reflexivity)
              ltac:(vm_compute; reflexivity)
              sim_start [] [] []
              {[ "demods" := {[ "0" := {[ "sample" :=
                   mk_sample [3%Q; 6%Q] [4%Q; 8%Q] [120000000; 180000000] true ]} ]} ]}
              {[ "0" := {[ "sample" :=
                   mk_sample [3%Q; 6%Q] [4%Q; 8%Q] [120000000; 180000000] true ]} ]}
              {[ "sample" :=
                   mk_sample [3%Q; 6%Q] [4%Q; 8%Q] [120000000; 180000000] true ]}
              (mk_sample [3%Q; 6%Q] [4%Q; 8%Q] [120000000; 180000000] true)
              0 60000000 60000000%Q)
    as (e' & E & Hrun & Hz & Hs);
    try (vm_compute; reflexivity);
    try (vm_compute; intros Hgt; discriminate Hgt).
  exists e', E. split; [|split; [exact Hz | exact Hs]].
  rewrite Hrun. vm_compute. reflexivity.
Defined.

(** X12, at work: an empty poll response. *)
Lemma collect_data_absent_device_empty_poll :
  exists e' E,
    @_collect_data Sim (sim_host (ok_script "MFLI")) [] []
      (mk_world (attrs (with_lockin (ok_script "MFLI"))) sim_start [])
    = Ret (([] ++ [[]])%list, ([] ++ [[]])%list)
          (mk_world (attrs (with_lockin (ok_script "MFLI"))) e' ([] ++ E)%list) /\
    zi_calls_of E = [daq_sync; daq_subscribe (chan_node "dev2006" "/demods/" "0" "/sample");
                     daq_unsubscribe "*"].
Proof.
  apply (@collect_data_absent_device Sim (sim_host (ok_script "MFLI"))
           "dev2006" "0" (VInt 30) (VInt 500) ∅ 1
           (sim_zi_answers "MFLI" (inr ∅)) (fun e => eq_refl)
           (attrs (with_lockin (ok_script "MFLI"))));
    try (vm_compute; reflexivity).
  left. reflexivity.
Defined.

(** X13, at work: the response holds channel 1, the driver reads channel 0. *)
Lemma collect_data_missing_channel_other :
  exists e' E,
    @_collect_data Sim (sim_host other_channel_script) [] []
      (mk_world (attrs (with_lockin other_channel_script)) sim_start [])
    = Raise (mk_exn KeyError [VStr "0"])
            (mk_world (attrs (with_lockin other_channel_script)) e' ([] ++ E)%list) /\
    zi_calls_of E = [daq_sync; daq_subscribe (chan_node "dev2006" "/demods/" "0" "/sample")].
Proof.
  apply (@collect_data_missing_channel Sim (sim_host other_channel_script)
           "dev2006" "0" (VInt 30) (VInt 500) poll_other_channel 1
           (sim_zi_answers "MFLI" (inr poll_other_channel)) (fun e => eq_refl)
           (attrs (with_lockin other_channel_script)))
    with (node := {[ "demods" := {[ "1" := ∅ ]} ]}) (demods := {[ "1" := ∅ ]}) (n := 0);
    try (vm_compute; reflexivity).
  vm_compute. discriminate.
Defined.

(** X14, at work: the driver as constructed. *)
Lemma lockin_methods_need_session_constructed :
  @initialize_lockin Sim (sim_host (ok_script "MFLI")) (constructed (ok_script "MFLI"))
    = Raise (mk_exn AttributeError [VStr "getByte"])
            (mk_world (attrs (constructed (ok_script "MFLI")))
               (env (constructed (ok_script "MFLI")))
               (log (constructed (ok_script "MFLI"))
                  ++ [EvStderr "Initializing lock-in amp" []])%list) /\
  @_collect_data Sim (sim_host (ok_script "MFLI")) [] [] (constructed (ok_script "MFLI"))
    = Raise (mk_exn AttributeError [VStr "sync"]) (constructed (ok_script "MFLI")).
Proof.
  apply (@lockin_methods_need_session Sim (sim_host (ok_script "MFLI"))
           (constructed (ok_script "MFLI")) VNone).
  - vm_compute. reflexivity.
  - intros id. discriminate.
Defined.

(** X15, at work: the initialization succeeds. *)
Lemma init_outcome_ok :
  exists w',
    @__init__ Sim (sim_host (ok_script "MFLI")) (mk_world ∅ sim_start []) = Ret tt w' /\
    attrs w' !! "handle" = Some VNone /\
    attrs w' !! "device" = Some VNone /\
    attrs w' !! "daq" = Some VNone /\
    attrs w' !! "laser_on" = Some (VBool false) /\
    attrs w' !! "qcl_temp_c" = None /\
    attrs w' !! "qcl_width_ns" = None /\
    calls_of (log w') = (calls_of [] ++ [SidekickSDK_Initialize])%list.
Proof.
  exact (proj1 (@init_outcome Sim (sim_host (ok_script "MFLI")) sim_start [] 0 eq_refl)
           eq_refl).
Defined.

(** X16, at work: the detector link answers. *)
Lemma connect_to_lockin_returns_ok :
  exists ip port d dev e',
    attrs (constructed (ok_script "MFLI")) !! "lockin_ip" = Some ip /\
    attrs (constructed (ok_script "MFLI")) !! "lockin_port" = Some port /\
    with_lockin (ok_script "MFLI")
    = mk_world (<["device" := dev]> (<["daq" := d]> (attrs (constructed (ok_script "MFLI"))))) e'
        (log (constructed (ok_script "MFLI"))
           ++ [EvZi (ziDAQServer ip port) (inr d);
               EvZi (autoDetect d) (inr dev);
               EvStderr "Connected to lock-In device {}" [dev]])%list.
Proof.
  apply (@connect_to_lockin_returns Sim (sim_host (ok_script "MFLI"))).
  apply (returned (@connect_to_lockin Sim (sim_host (ok_script "MFLI"))
                     (constructed (ok_script "MFLI"))) tt).
  vm_compute. reflexivity.
Defined.

(** X18, at work: a current of 70000 mA. *)
Lemma set_qcl_params_current_out_of_range_70000 :
  attrs (patched deaf_script) !! "qcl_current_ma" = Some (VInt 70000) /\
  returns (@set_qcl_params Sim (sim_host deaf_script) 40 (patched deaf_script)) = false.
Proof.
  assert (H : attrs (patched deaf_script) !! "qcl_current_ma" = Some (VInt 70000))
    by (vm_compute; reflexivity).
  split; [exact H|].
  apply (@set_qcl_params_current_out_of_range Sim (sim_host deaf_script) 40
           (patched deaf_script) 70000 H).
  lia.
Defined.

(** X19, at work: a device of type UHFLI with no options. *)
Lemma initialize_lockin_sends_uhf :
  exists w' evs,
    @initialize_lockin Sim (sim_host (ok_script "UHFLI")) (with_lockin (ok_script "UHFLI"))
      = Ret tt w' /\
    attrs w' = attrs (with_lockin (ok_script "UHFLI")) /\
    log w' = (log (with_lockin (ok_script "UHFLI")) ++ evs)%list /\
    zi_calls_of evs
    = lockin_config "dev2006" "0" "0" "0" (VFloat 2000) (VFloat 0.01) (VInt 100000)
        "UHFLI" EmptyString 0 0.
Proof.
  apply (@initialize_lockin_sends Sim (sim_host (ok_script "UHFLI"))
           "dev2006" "0" "0" "0" "UHFLI" EmptyString
           (VFloat 2000) (VFloat 0.01) (VInt 100000) 0.01 0 0
           (sim_zi_answers "UHFLI" (inr ∅)) (fun e => eq_refl) (fun e => eq_refl)
           (with_lockin (ok_script "UHFLI")) 1);
    vm_compute; reflexivity.
Defined.
